(** * Auxin backend: appointments, PayPal reconciliation and hold expiry

    A shallow embedding of the booking/payment core of the Auxin backend:
    - [routes/payments] (create-order, capture-order, cancel-order,
      cleanup-pending), the unnamed route file that imports [lib/paypal];
    - [routes/appointments.ts] (GET /available, PUT /:appointmentId/cancel);
    - [lib/paypal.ts] ([createOrderRequestBody], [MEETING_PRICE]).

    The MongoDB collection is a list of documents; every handler threads it
    explicitly through a small state-and-exception monad, so that writes made
    before a JavaScript exception stay visible, as they do in the database.
    Times are milliseconds since the epoch ([Date.now()]); the server's
    local time is UTC shifted by a fixed offset [tzOffset] (no DST). *)

From Stdlib Require Import ZArith List String Ascii Bool Lia.
Import ListNotations.

Set Warnings "-register-all".
Open Scope string_scope.
Open Scope Z_scope.

Module Auxin.

(** ** JSON values (request bodies and responses) *)

Inductive json : Type :=
| JNull
| JBool (b : bool)
| JNum (n : Z)
| JStr (s : string)
| JArr (l : list json)
| JObj (l : list (string * json)).

(** An HTTP response: status code and JSON body. *)
Inductive Response : Type :=
| Res (code : Z) (body : json).

Definition res_code (r : Response) : Z := match r with Res c _ => c end.
Definition res_body (r : Response) : json := match r with Res _ b => b end.

(** Field lookup in a JSON object ([obj.key]). *)
Definition jget (k : string) (j : json) : option json :=
  match j with
  | JObj l => option_map snd (find (fun kv => String.eqb (fst kv) k) l)
  | _ => None
  end.

(** ** Data model: the Appointment document *)

Inductive AppointmentStatus := St_pending | St_confirmed | St_cancelled.
Inductive PaymentStatus := Pay_pending | Pay_completed | Pay_failed.

Definition status_str (s : AppointmentStatus) : string :=
  match s with
  | St_pending => "pending" | St_confirmed => "confirmed"
  | St_cancelled => "cancelled"
  end.

Definition payment_status_str (s : PaymentStatus) : string :=
  match s with
  | Pay_pending => "pending" | Pay_completed => "completed"
  | Pay_failed => "failed"
  end.

Definition status_eqb (a b : AppointmentStatus) : bool :=
  match a, b with
  | St_pending, St_pending | St_confirmed, St_confirmed
  | St_cancelled, St_cancelled => true
  | _, _ => false
  end.

Definition payment_status_eqb (a b : PaymentStatus) : bool :=
  match a, b with
  | Pay_pending, Pay_pending | Pay_completed, Pay_completed
  | Pay_failed, Pay_failed => true
  | _, _ => false
  end.

(** [appointment.paymentInfo]. *)
Record PaymentInfo := mkPaymentInfo {
  amount : string;
  currency : string;
  paypalOrderId : option string;
  paypalPayerId : option string;
  paypalTransactionId : option string;
  pi_status : string;
  paidAt : option Z
}.

(** An Appointment document; [appt_id] is Mongo's [_id]. *)
Record Appointment := mkAppointment {
  appt_id : string;
  userId : string;
  userEmail : string;
  userName : string;
  date : Z;
  time : string;
  timezone : string;
  status : AppointmentStatus;
  paymentStatus : PaymentStatus;
  paymentInfo : option PaymentInfo;
  duration : option Z;
  endTime : option string;
  bookedSlots : list string;
  googleMeetLink : option string;
  googleCalendarEventId : option string;
  categoryId : option string;
  categoryName : option string;
  formAnswers : option json;
  createdAt : Z
}.

Definition Store := list Appointment.

(** JavaScript truthiness of an optional string field. *)
Definition truthy_str (o : option string) : bool :=
  match o with Some s => negb (String.eqb s "") | None => false end.

(** [x || null] for an optional string field. *)
Definition or_null (o : option string) : json :=
  match o with
  | Some s => if String.eqb s "" then JNull else JStr s
  | None => JNull
  end.

Definition order_id_of (a : Appointment) : option string :=
  match paymentInfo a with Some pi => paypalOrderId pi | None => None end.

Definition opt_str_eqb (o : option string) (s : string) : bool :=
  match o with Some x => String.eqb x s | None => false end.

(** ** The document store *)

Definition findById (s : Store) (id : string) : option Appointment :=
  find (fun a => String.eqb (appt_id a) id) s.

(** [doc.save()] of a document already in the collection: an update by
    [_id]; Mongoose raises [DocumentNotFoundError] when the row is gone. *)
Definition replace_by_id (a : Appointment) (s : Store) : Store :=
  map (fun r => if String.eqb (appt_id r) (appt_id a) then a else r) s.

(** [Model.deleteMany(filter)]: the remaining rows and [deletedCount]. *)
Definition deleteMany (p : Appointment -> bool) (s : Store) : Store * nat :=
  (filter (fun a => negb (p a)) s, List.length (filter p s)).

(** ** A state-and-exception monad for the handlers *)

(** Errors a PayPal SDK call raises: [error.statusCode], [error.result],
    [error.body] and [error.message].  A string body carries its raw text
    and what [JSON.parse] makes of it ([None]: the parse throws). *)
Record ErrResult := mkErrResult {
  details_issue : option string;   (* error.result.details[0].issue *)
  result_message : option string   (* error.result.message *)
}.

Inductive ErrBody :=
| BodyText (raw : string) (parsed : option ErrResult)
| BodyObject (r : ErrResult).

Record PayPalError := mkPayPalError {
  statusCode : option Z;
  result : option ErrResult;
  body : option ErrBody;
  message : option string
}.

Inductive Exn :=
| ProviderErr (e : PayPalError)   (* raised by the PayPal SDK *)
| ConfigErr                       (* getPayPalClient without credentials *)
| DupKey                          (* MongoServerError code 11000 *)
| DocumentNotFound                (* save() of a deleted document *)
| NullDeref.                      (* x! on a null query result *)

Inductive Result (A : Type) :=
| Ok (a : A)
| Throw (e : Exn).
Arguments Ok {A} a.
Arguments Throw {A} e.

Definition M (A : Type) := Store -> Result A * Store.

Definition ret {A} (a : A) : M A := fun s => (Ok a, s).
Definition throw {A} (e : Exn) : M A := fun s => (Throw e, s).
Definition bind {A B} (m : M A) (f : A -> M B) : M B :=
  fun s => match m s with
           | (Ok a, s') => f a s'
           | (Throw e, s') => (Throw e, s')
           end.
Definition catch {A} (m : M A) (h : Exn -> M A) : M A :=
  fun s => match m s with
           | (Throw e, s') => h e s'
           | r => r
           end.

Notation "x <-- m ;; k" := (bind m (fun x => k))
  (at level 61, m at next level, right associativity).
Notation "m ;;; k" := (bind m (fun _ => k))
  (at level 61, right associativity).

Definition get_store : M Store := fun s => (Ok s, s).

Definition find_one (p : Appointment -> bool) : M (option Appointment) :=
  fun s => (Ok (find p s), s).

Definition find_by_id (id : string) : M (option Appointment) :=
  fun s => (Ok (findById s id), s).

(** [x!] on a query result. *)
Definition deref {A} (o : option A) : M A :=
  match o with Some a => ret a | None => throw NullDeref end.

Definition save (a : Appointment) : M unit :=
  fun s => match findById s (appt_id a) with
           | Some _ => (Ok tt, replace_by_id a s)
           | None => (Throw DocumentNotFound, s)
           end.

(** An outbound call: while it is in flight, other requests may change the
    collection ([between]; the identity for a request running alone). *)
Inductive Call (A : Type) :=
| Returns (a : A)
| Fails (e : PayPalError).
Arguments Returns {A} a.
Arguments Fails {A} e.

Definition call {A} (between : Store -> Store) (c : Call A) : M A :=
  fun s => match c with
           | Returns a => (Ok a, between s)
           | Fails e => (Throw (ProviderErr e), between s)
           end.

(** ** String helpers *)

(** [s.includes(sub)]. *)
Definition includes (s sub : string) : bool :=
  match index 0 sub s with Some _ => true | None => false end.

(** [s.toUpperCase()] on ASCII letters. *)
Definition upper_ascii (c : ascii) : ascii :=
  let n := nat_of_ascii c in
  if (97 <=? n)%nat && (n <=? 122)%nat then ascii_of_nat (n - 32) else c.

Fixpoint to_upper (s : string) : string :=
  match s with
  | EmptyString => EmptyString
  | String c r => String (upper_ascii c) (to_upper r)
  end.

Definition is_ws (c : ascii) : bool :=
  let n := nat_of_ascii c in
  (n =? 32)%nat || ((9 <=? n)%nat && (n <=? 13)%nat).

Fixpoint trim_start (s : string) : string :=
  match s with
  | EmptyString => EmptyString
  | String c r => if is_ws c then trim_start r else s
  end.

Fixpoint rev_str (s : string) (acc : string) : string :=
  match s with
  | EmptyString => acc
  | String c r => rev_str r (String c acc)
  end.

(** [s.trim()] for ASCII white space. *)
Definition trim (s : string) : string :=
  rev_str (trim_start (rev_str (trim_start s) EmptyString)) EmptyString.

(** [a || b] on optional strings. *)
Definition or_else (a : option string) (b : string) : string :=
  match a with Some x => if String.eqb x "" then b else x | None => b end.

(** ** lib/paypal.ts *)

Definition MEETING_PRICE : string := "150.00".
Definition MEETING_CURRENCY : string := "USD".

(** A PayPal order as the SDK returns it: [order.id], [order.status],
    [order.payer.payerId], [order.purchaseUnits[0].payments.captures[0].id]
    and [order.links] as (rel, href) pairs. *)
Record Order := mkOrder {
  o_id : string;
  o_status : string;
  o_payerId : option string;
  o_captureId : option string;
  o_links : list (string * string)
}.

(** ** routes/payments: POST /capture-order *)

(** [req.user] as set by [authenticateToken]. *)
Record AuthUser := mkAuthUser { auth_userId : string; auth_email : string }.

(** [req.body] of capture-order. *)
Record CaptureReq := mkCaptureReq {
  c_orderId : option string;
  c_appointmentId : option string;
  c_categoryId : option string;
  c_categoryName : option string;
  c_formAnswers : option json
}.

(** What the outside world does during one capture-order request: whether
    PayPal credentials are configured, the outcomes of [captureOrder] and
    [getOrder], of [createGoogleMeetEvent] ([None]: it throws), the clock,
    and the writes of concurrent requests while [captureOrder] is in flight. *)
Record CaptureEnv := mkCaptureEnv {
  paypal_configured : bool;
  captureOrder : Call Order;
  getOrder : Call Order;
  meetEvent : option (string * string);
  capture_now : Z;
  between : Store -> Store
}.

Definition is_completed (a : Appointment) : bool :=
  payment_status_eqb (paymentStatus a) Pay_completed.

(** The response's [appointment] object. *)
Definition appointment_view (a : Appointment) : json :=
  JObj [("id", JStr (appt_id a)); ("date", JNum (date a));
        ("time", JStr (time a)); ("status", JStr (status_str (status a)));
        ("paymentStatus", JStr (payment_status_str (paymentStatus a)));
        ("googleMeetLink", or_null (googleMeetLink a));
        ("createdAt", JNum (createdAt a))].

Definition success_json (msg : string) (a : Appointment) : json :=
  JObj [("success", JBool true); ("message", JStr msg);
        ("appointment", appointment_view a)].

(** Lines 330-352 of [updateAppointmentFromOrder]: the confirmed document. *)
Definition confirm_from_order (now : Z) (orderId : string) (req : CaptureReq)
    (order : Order) (a : Appointment) : Appointment :=
  mkAppointment (appt_id a) (userId a) (userEmail a) (userName a) (date a)
    (time a) (timezone a) St_confirmed Pay_completed
    (Some (mkPaymentInfo MEETING_PRICE MEETING_CURRENCY (Some orderId)
             (Some (or_else (o_payerId order) ""))
             (Some (or_else (o_captureId order) ""))
             "completed" (Some now)))
    (duration a) (endTime a) (bookedSlots a)
    (googleMeetLink a) (googleCalendarEventId a)
    (if truthy_str (c_categoryId req) then c_categoryId req else categoryId a)
    (if truthy_str (c_categoryName req)
     then option_map (fun n => trim (to_upper n)) (c_categoryName req)
     else categoryName a)
    (match c_formAnswers req with
     | Some (JObj l) => Some (JObj l)
     | Some (JArr l) => Some (JArr l)
     | _ => formAnswers a
     end)
    (createdAt a).

(** Lines 354-368: generate a Meet link when none is stored; a throwing
    [createGoogleMeetEvent] leaves the document as it is. *)
Definition attach_meet (meet : option (string * string)) (a : Appointment)
    : Appointment :=
  if truthy_str (googleMeetLink a) then a else
  match meet with
  | Some (link, eventId) =>
      mkAppointment (appt_id a) (userId a) (userEmail a) (userName a) (date a)
        (time a) (timezone a) (status a) (paymentStatus a) (paymentInfo a)
        (duration a) (endTime a) (bookedSlots a) (Some link) (Some eventId)
        (categoryId a) (categoryName a) (formAnswers a) (createdAt a)
  | None => a
  end.

Definition updateAppointmentFromOrder (env : CaptureEnv) (orderId : string)
    (req : CaptureReq) (order : Order) (a : Appointment) : M bool :=
  if String.eqb (o_status order) "COMPLETED" then
    save (attach_meet (meetEvent env)
            (confirm_from_order (capture_now env) orderId req order a)) ;;;
    ret true
  else ret false.

(** Lines 412-416: [paymentStatus = 'failed'], [paymentInfo.status = 'failed']. *)
Definition mark_failed (a : Appointment) : Appointment :=
  mkAppointment (appt_id a) (userId a) (userEmail a) (userName a) (date a)
    (time a) (timezone a) (status a) Pay_failed
    (option_map (fun pi => mkPaymentInfo (amount pi) (currency pi)
                   (paypalOrderId pi) (paypalPayerId pi)
                   (paypalTransactionId pi) "failed" (paidAt pi))
                (paymentInfo a))
    (duration a) (endTime a) (bookedSlots a)
    (googleMeetLink a) (googleCalendarEventId a)
    (categoryId a) (categoryName a) (formAnswers a) (createdAt a).

(** Lines 426-440: recognising PayPal's ORDER_ALREADY_CAPTURED rejection. *)
Definition isOrderAlreadyCaptured (e : Exn) : bool :=
  match e with
  | ProviderErr pe =>
      let errorResult :=
        match result pe with
        | Some r => Some r
        | None => match body pe with
                  | Some (BodyText _ parsed) => parsed
                  | Some (BodyObject r) => Some r
                  | None => None
                  end
        end in
      let issue := match errorResult with
                   | Some r => details_issue r | None => None end in
      (match statusCode pe with Some c => c =? 422 | None => false end) &&
      (opt_str_eqb issue "ORDER_ALREADY_CAPTURED"
       || match body pe with
          | Some (BodyText raw _) => includes raw "ORDER_ALREADY_CAPTURED"
          | _ => false
          end
       || match message pe with
          | Some m => includes m "ORDER_ALREADY_CAPTURED"
          | None => false
          end)
  | _ => false
  end.

(** [error.message] of the JavaScript errors that are not PayPal's. *)
Definition exn_message (e : Exn) : string :=
  match e with
  | ProviderErr pe => or_else (message pe) "Failed to capture payment"
  | ConfigErr => "PayPal credentials not configured"
  | DupKey => "E11000 duplicate key error"
  | DocumentNotFound => "No document found for query"
  | NullDeref => "Cannot read properties of null (reading '_id')"
  end.

(** Lines 537-544 (with NODE_ENV = production, [details] is left out). *)
Definition general_error (e : Exn) : Response :=
  match e with
  | ProviderErr pe =>
      let rm := match result pe with Some r => result_message r | None => None end in
      let errorMessage := or_else rm (or_else (message pe) "Failed to capture payment") in
      let code := match statusCode pe with
                  | Some c => if c =? 0 then 500 else c | None => 500 end in
      Res code (JObj [("error", JStr errorMessage); ("code", JStr "CAPTURE_ERROR")])
  | e => Res 500 (JObj [("error", JStr (exn_message e)); ("code", JStr "CAPTURE_ERROR")])
  end.

Definition not_completed_json (st : string) : json :=
  JObj [("error", JStr "Payment was not completed");
        ("code", JStr "PAYMENT_NOT_COMPLETED"); ("status", JStr st)].

Definition order_not_completed_json (st : string) : json :=
  JObj [("error", JStr "Order exists but payment was not completed");
        ("code", JStr "PAYMENT_NOT_COMPLETED"); ("orderStatus", JStr st)].

(** The query of line 288. *)
Definition capture_lookup (uid aid oid : string) (a : Appointment) : bool :=
  String.eqb (appt_id a) aid && String.eqb (userId a) uid
  && opt_str_eqb (order_id_of a) oid.

(** Lines 378-424: the first capture attempt. *)
Definition capture_attempt (env : CaptureEnv) (req : CaptureReq)
    (orderId appointmentId : string) (appointment : Appointment) : M Response :=
  capturedOrder <-- call (between env) (captureOrder env) ;;
  if String.eqb (o_status capturedOrder) "COMPLETED" then
    updateAppointmentFromOrder env orderId req capturedOrder appointment ;;;
    upd <-- find_by_id appointmentId ;;
    updatedAppointment <-- deref upd ;;
    ret (Res 200 (success_json "Payment completed successfully" updatedAppointment))
  else
    save (mark_failed appointment) ;;;
    ret (Res 400 (not_completed_json (o_status capturedOrder))).

(** Lines 442-535: reconciliation after ORDER_ALREADY_CAPTURED. *)
Definition already_captured (env : CaptureEnv) (req : CaptureReq)
    (orderId appointmentId : string) (appointment : Appointment) (error : Exn)
    : M Response :=
  catch
    (orderDetails <-- call (fun s => s) (getOrder env) ;;
     refreshed <-- find_by_id appointmentId ;;
     let appointmentToUpdate :=
       match refreshed with Some r => r | None => appointment end in
     if is_completed appointmentToUpdate then
       rfr <-- find_by_id appointmentId ;;
       refreshedForResponse <-- deref rfr ;;
       ret (Res 200 (success_json "Payment already completed" refreshedForResponse))
     else
       updated <-- updateAppointmentFromOrder env orderId req orderDetails
                     appointmentToUpdate ;;
       if updated then
         r2 <-- find_by_id appointmentId ;;
         refreshedAppointment <-- deref r2 ;;
         ret (Res 200 (success_json "Payment was already completed"
                         refreshedAppointment))
       else ret (Res 400 (order_not_completed_json (o_status orderDetails))))
    (fun _fetchError =>
       fb <-- find_by_id appointmentId ;;
       match fb with
       | Some f => if is_completed f
                   then ret (Res 200 (success_json "Payment already completed" f))
                   else ret (general_error error)
       | None => ret (general_error error)
       end).

Definition capture_order (u : AuthUser) (req : CaptureReq) (env : CaptureEnv)
    : M Response :=
  catch
    (if negb (truthy_str (c_orderId req) && truthy_str (c_appointmentId req))
     then ret (Res 400 (JObj [("error", JStr "Order ID and Appointment ID are required");
                              ("code", JStr "MISSING_FIELDS")]))
     else
     let orderId := or_else (c_orderId req) "" in
     let appointmentId := or_else (c_appointmentId req) "" in
     found <-- find_one (capture_lookup (auth_userId u) appointmentId orderId) ;;
     match found with
     | None => ret (Res 404 (JObj [("error", JStr "Appointment not found or order ID mismatch");
                                   ("code", JStr "APPOINTMENT_NOT_FOUND")]))
     | Some appointment =>
       if is_completed appointment then
         rfr <-- find_by_id appointmentId ;;
         refreshedAppointment <-- deref rfr ;;
         ret (Res 200 (success_json "Payment already completed" refreshedAppointment))
       else
         (if paypal_configured env then ret tt else throw ConfigErr) ;;;
         catch (capture_attempt env req orderId appointmentId appointment)
           (fun error =>
              if isOrderAlreadyCaptured error
              then already_captured env req orderId appointmentId appointment error
              else ret (general_error error))
     end)
    (fun _ => ret (Res 500 (JObj [("error", JStr "Failed to process payment capture");
                                  ("code", JStr "CAPTURE_ERROR")]))).

(** One capture-order request against the collection [s]. *)
Definition run_capture (u : AuthUser) (req : CaptureReq) (env : CaptureEnv)
    (s : Store) : Response * Store :=
  match capture_order u req env s with
  | (Ok r, s') => (r, s')
  | (Throw _, s') =>
      (Res 500 (JObj [("error", JStr "Failed to process payment capture");
                      ("code", JStr "CAPTURE_ERROR")]), s')
  end.

(** ** Dates and times *)

Definition DAY : Z := 86400000.
Definition HOUR : Z := 3600000.
Definition MINUTE : Z := 60000.

(** Days since 1970-01-01 of a proleptic Gregorian date. *)
Definition days_from_civil (y m d : Z) : Z :=
  let y' := if m <=? 2 then y - 1 else y in
  let era := y' / 400 in
  let yoe := y' - era * 400 in
  let doy := (153 * (if m >? 2 then m - 3 else m + 9) + 2) / 5 + d - 1 in
  let doe := yoe * 365 + yoe / 4 - yoe / 100 + doy in
  era * 146097 + doe - 719468.

Definition is_leap (y : Z) : bool :=
  ((y mod 4 =? 0) && negb (y mod 100 =? 0)) || (y mod 400 =? 0).

Definition days_in_month (y m : Z) : Z :=
  if m =? 2 then (if is_leap y then 29 else 28)
  else if (m =? 4) || (m =? 6) || (m =? 9) || (m =? 11) then 30 else 31.

(** A calendar date. *)
Definition valid_date (y m d : Z) : Prop :=
  1 <= m <= 12 /\ 1 <= d <= days_in_month y m.

Definition digit (c : ascii) : option Z :=
  let n := nat_of_ascii c in
  if (48 <=? n)%nat && (n <=? 57)%nat then Some (Z.of_nat n - 48) else None.

Fixpoint digits_val (l : list ascii) (acc : Z) : option Z :=
  match l with
  | [] => Some acc
  | c :: r => match digit c with
              | Some v => digits_val r (acc * 10 + v)
              | None => None
              end
  end.

(** [/^\d{4}-\d{2}-\d{2}$/.test(date)] followed by
    [date.split('-').map(Number)]. *)
Definition parse_ymd (s : string) : option (Z * Z * Z) :=
  match list_ascii_of_string s with
  | [y1; y2; y3; y4; d1; m1; m2; d2; a1; a2] =>
      if (Ascii.eqb d1 "-"%char) && (Ascii.eqb d2 "-"%char) then
        match digits_val [y1; y2; y3; y4] 0, digits_val [m1; m2] 0,
              digits_val [a1; a2] 0 with
        | Some y, Some m, Some d => Some (y, m, d)
        | _, _, _ => None
        end
      else None
  | _ => None
  end.

(** [/^([0-1]?[0-9]|2[0-3]):[0-5][0-9]$/.test(time)] followed by
    [time.split(':').map(Number)]. *)
Definition parse_hhmm (s : string) : option (Z * Z) :=
  let minutes_of m1 m2 :=
    match digit m1, digit m2 with
    | Some a, Some b => if a <=? 5 then Some (a * 10 + b) else None
    | _, _ => None
    end in
  match list_ascii_of_string s with
  | [h; c; m1; m2] =>
      if Ascii.eqb c ":"%char then
        match digit h, minutes_of m1 m2 with
        | Some hv, Some mv => Some (hv, mv)
        | _, _ => None
        end
      else None
  | [h1; h2; c; m1; m2] =>
      if Ascii.eqb c ":"%char then
        match digit h1, digit h2, minutes_of m1 m2 with
        | Some a, Some b, Some mv =>
            if (a <=? 1) || ((a =? 2) && (b <=? 3)) then Some (a * 10 + b, mv)
            else None
        | _, _, _ => None
        end
      else None
  | _ => None
  end.

(** [new Date("YYYY-MM-DD")]: UTC midnight; [None] is an Invalid Date.
    Node accepts any day 1..31 and rolls it over into the next month. *)
Definition iso_date_ms (y m d : Z) : option Z :=
  if (1 <=? m) && (m <=? 12) && (1 <=? d) && (d <=? 31)
  then Some ((days_from_civil y m 1 + d - 1) * DAY) else None.

(** [new Date(year, month - 1, day)] with [setHours(0,0,0,0)]: local
    midnight; years 0..99 mean 1900..1999 and months roll over. *)
Definition local_date_ms (off y m d : Z) : Z :=
  let y' := if (0 <=? y) && (y <=? 99) then 1900 + y else y in
  let m0 := m - 1 in
  let y2 := y' + m0 / 12 in
  let m2 := m0 mod 12 + 1 in
  (days_from_civil y2 m2 1 + d - 1) * DAY - off.

(** [new Date(); today.setHours(0, 0, 0, 0)]: local midnight of [now]. *)
Definition local_today_ms (off now : Z) : Z :=
  ((now + off) / DAY) * DAY - off.

(** The local calendar day (days since 1970-01-01) of [now]. *)
Definition local_day (off now : Z) : Z := (now + off) / DAY.

(** ** lib/paypal.ts: createOrderRequestBody *)

Record Money := mkMoney { currencyCode : string; value : string }.

Record Item := mkItem {
  item_name : string;
  item_description : string;
  quantity : string;
  unitAmount : Money
}.

Record PurchaseUnit := mkPurchaseUnit {
  referenceId : string;
  pu_description : string;
  customId : string;
  pu_amount : Money;
  itemTotal : Money;              (* amount.breakdown.itemTotal *)
  items : list Item
}.

Record OrderRequest := mkOrderRequest {
  intent : string;
  purchaseUnits : list PurchaseUnit;
  brandName : string;
  locale : string;
  returnUrl : string;
  cancelUrl : string
}.

(** [appointmentDetails: {date, time, userName, userEmail}]. *)
Record AppointmentDetails := mkAppointmentDetails {
  ad_date : string;
  ad_time : string;
  ad_userName : string;
  ad_userEmail : string
}.

Definition createOrderRequestBody (appointmentId : string)
    (appointmentDetails : AppointmentDetails) (returnUrl cancelUrl : string)
    : OrderRequest :=
  mkOrderRequest "CAPTURE"
    [mkPurchaseUnit appointmentId
       ("Meeting Booking - " ++ ad_date appointmentDetails ++ " at "
          ++ ad_time appointmentDetails)
       appointmentId
       (mkMoney MEETING_CURRENCY MEETING_PRICE)
       (mkMoney MEETING_CURRENCY MEETING_PRICE)
       [mkItem "Meeting Booking"
          ("Meeting with " ++ ad_userName appointmentDetails ++ " on "
             ++ ad_date appointmentDetails ++ " at " ++ ad_time appointmentDetails)
          "1" (mkMoney MEETING_CURRENCY MEETING_PRICE)]]
    "Auxin World" "en-US" returnUrl cancelUrl.

(** ** routes/payments: POST /create-order *)

(** [req.body] of create-order; [cr_price] is [String(price)]. *)
Record CreateReq := mkCreateReq {
  cr_date : option string;
  cr_time : option string;
  cr_userEmail : option string;
  cr_userName : option string;
  cr_timezone : option string;
  cr_duration : option Z;
  cr_price : option string;
  cr_slots : option (list string);   (* None: absent or not an array *)
  cr_endTime : option string
}.

(** The world during one create-order request: PayPal credentials, the
    clock, the server's UTC offset, the [_id] Mongo assigns, the frontend
    URL and the outcome of [ordersController.createOrder]. *)
Record CreateEnv := mkCreateEnv {
  cfg_ok : bool;
  create_now : Z;
  tzOffset : Z;
  new_id : string;
  frontendUrl : string;
  createOrder : Call Order
}.

(** Modelled from the spec: the unique index of the Appointment model
    (models/Appointment.ts is not part of the sources), "a uniqueness
    constraint at the storage layer on (date, slot, status)"; an insert that
    violates it fails with Mongo's duplicate-key error 11000. *)
Definition unique_violation (a : Appointment) (s : Store) : bool :=
  existsb (fun r => (date r =? date a) && String.eqb (time r) (time a)
                    && status_eqb (status r) (status a)) s.

(** [appointment.save()] of a new document. *)
Definition insert (a : Appointment) : M unit :=
  fun s => if unique_violation a s then (Throw DupKey, s) else (Ok tt, app s [a]).

(** The query of lines 119-133 for one slot. *)
Definition slot_query (startOfDay endOfDay fifteenMinutesAgo : Z)
    (slotTime : string) (a : Appointment) : bool :=
  (startOfDay <=? date a) && (date a <=? endOfDay)
  && String.eqb (time a) slotTime
  && (status_eqb (status a) St_confirmed
      || (status_eqb (status a) St_pending
          && payment_status_eqb (paymentStatus a) Pay_pending
          && (fifteenMinutesAgo <? createdAt a))).

(** The loop of lines 118-142: the first requested slot some row blocks. *)
Fixpoint first_conflict (s : Store) (q : string -> Appointment -> bool)
    (slots : list string) : option string :=
  match slots with
  | [] => None
  | t :: r => match find (q t) s with
              | Some _ => Some t
              | None => first_conflict s q r
              end
  end.

(** The query of lines 145-152. *)
Definition user_day_query (uid : string) (startOfDay endOfDay : Z)
    (a : Appointment) : bool :=
  String.eqb (userId a) uid && (startOfDay <=? date a) && (date a <=? endOfDay)
  && status_eqb (status a) St_confirmed.

Definition err400 (msg code : string) : Response :=
  Res 400 (JObj [("error", JStr msg); ("code", JStr code)]).

Definition slots_to_check (req : CreateReq) : list string :=
  match cr_slots req with
  | Some (x :: l) => x :: l
  | _ => [or_else (cr_time req) ""]
  end.

(** Lines 24-190: validation, the availability pre-checks and the insert of
    the pending appointment.  [inl]: the request ends with this response. *)
Definition create_prepare (u : AuthUser) (req : CreateReq) (env : CreateEnv)
    : M (Response + Appointment) :=
  if negb (cfg_ok env) then
    ret (inl (Res 500 (JObj [("error", JStr "PayPal is not configured properly");
                             ("code", JStr "PAYPAL_CONFIG_ERROR")])))
  else
  let meetingPrice := if truthy_str (cr_price req) then or_else (cr_price req) ""
                      else MEETING_PRICE in
  let slotsToCheck := slots_to_check req in
  if negb (truthy_str (cr_date req) && truthy_str (cr_time req)
           && truthy_str (cr_userEmail req) && truthy_str (cr_userName req)) then
    ret (inl (err400 "All fields are required: date, time, userEmail, userName"
                     "MISSING_FIELDS"))
  else
  let dateS := or_else (cr_date req) "" in
  let timeS := or_else (cr_time req) "" in
  let email := or_else (cr_userEmail req) "" in
  let name := or_else (cr_userName req) "" in
  match parse_ymd dateS with
  | None => ret (inl (err400 "Invalid date format. Use YYYY-MM-DD" "INVALID_DATE_FORMAT"))
  | Some (year, month, day) =>
  match parse_hhmm timeS with
  | None => ret (inl (err400 "Invalid time format. Use HH:MM" "INVALID_TIME_FORMAT"))
  | Some (hours, minutes) =>
  let timeInMinutes := hours * 60 + minutes in
  if (timeInMinutes <? 9 * 60) || (17 * 60 + 30 <? timeInMinutes)
     || negb (minutes mod 30 =? 0) then
    ret (inl (err400 "Time must be within business hours (09:00-17:30) in 30-minute intervals"
                     "INVALID_TIME_SLOT"))
  else
  let appointmentDate := local_date_ms (tzOffset env) year month day in
  let today := local_today_ms (tzOffset env) (create_now env) in
  if appointmentDate <? today then
    ret (inl (err400 "Cannot book appointments for past dates" "PAST_DATE"))
  else if negb (String.eqb email (auth_email u)) then
    ret (inl (err400 "Email must match authenticated user" "EMAIL_MISMATCH"))
  else
  let fifteenMinutesAgo := create_now env - 15 * 60 * 1000 in
  let startOfDay := appointmentDate in
  let endOfDay := appointmentDate + DAY - 1 in
  s <-- get_store ;;
  match first_conflict s (slot_query startOfDay endOfDay fifteenMinutesAgo)
          slotsToCheck with
  | Some slotTime =>
      ret (inl (Res 409 (JObj [("error", JStr ("Time slot " ++ slotTime ++ " is not available"));
                               ("code", JStr "SLOT_UNAVAILABLE");
                               ("conflictingSlot", JStr slotTime)])))
  | None =>
  ue <-- find_one (user_day_query (auth_userId u) startOfDay endOfDay) ;;
  match ue with
  | Some _ =>
      ret (inl (Res 409 (JObj [("error", JStr "You already have a confirmed appointment on this date");
                               ("code", JStr "DUPLICATE_DATE_BOOKING")])))
  | None =>
  let appointment :=
    mkAppointment (new_id env) (auth_userId u) email name appointmentDate timeS
      (or_else (cr_timezone req) "UTC") St_pending Pay_pending
      (Some (mkPaymentInfo meetingPrice MEETING_CURRENCY None None None "pending" None))
      (cr_duration req) (cr_endTime req) slotsToCheck None None None None None
      (create_now env) in
  insert appointment ;;;
  ret (inr appointment)
  end end end end.

(** Lines 222-228: record the PayPal order id. *)
Definition with_order_id (oid : string) (a : Appointment) : Appointment :=
  mkAppointment (appt_id a) (userId a) (userEmail a) (userName a) (date a)
    (time a) (timezone a) (status a) (paymentStatus a)
    (Some (mkPaymentInfo
             (match paymentInfo a with Some pi => amount pi | None => MEETING_PRICE end)
             MEETING_CURRENCY (Some oid) None None "pending" None))
    (duration a) (endTime a) (bookedSlots a) (googleMeetLink a)
    (googleCalendarEventId a) (categoryId a) (categoryName a) (formAnswers a)
    (createdAt a).

(** Lines 234-235: the [payer-action] link, else the [approve] link. *)
Definition approval_url (o : Order) : option string :=
  let href rel := match find (fun l => String.eqb (fst l) rel) (o_links o) with
                  | Some (_, h) => if String.eqb h "" then None else Some h
                  | None => None
                  end in
  match href "payer-action" with Some h => Some h | None => href "approve" end.

(** Lines 219-253: the PayPal order and the response. *)
Definition create_finish (env : CreateEnv) (appointment : Appointment)
    (orderRequest : OrderRequest) : M Response :=
  order <-- call (fun s => s) (createOrder env) ;;
  save (with_order_id (o_id order) appointment) ;;;
  match approval_url order with
  | None => ret (Res 500 (JObj [("error", JStr "Failed to get PayPal approval URL");
                                ("code", JStr "PAYPAL_APPROVAL_URL_ERROR")]))
  | Some url =>
      ret (Res 201 (JObj [("success", JBool true);
                          ("message", JStr "PayPal order created successfully");
                          ("orderId", JStr (o_id order)); ("approvalUrl", JStr url);
                          ("appointmentId", JStr (appt_id appointment));
                          ("amount", JStr MEETING_PRICE);
                          ("currency", JStr MEETING_CURRENCY)]))
  end.

(** Lines 255-271 (NODE_ENV = production). *)
Definition create_error (e : Exn) : Response :=
  match e with
  | DupKey => Res 409 (JObj [("error", JStr "Time slot was just booked by another user");
                             ("code", JStr "SLOT_UNAVAILABLE")])
  | _ => Res 500 (JObj [("error", JStr "Failed to create PayPal order");
                        ("code", JStr "PAYPAL_ORDER_ERROR")])
  end.

(** One create-order request: the response, the collection afterwards and
    the body sent to PayPal, if any.  The handler passes [meetingPrice] as a
    fifth argument to the four-parameter [createOrderRequestBody]; JavaScript
    drops it. *)
Definition run_create (u : AuthUser) (req : CreateReq) (env : CreateEnv)
    (s : Store) : Response * Store * option OrderRequest :=
  match create_prepare u req env s with
  | (Throw e, s1) => (create_error e, s1, None)
  | (Ok (inl r), s1) => (r, s1, None)
  | (Ok (inr appointment), s1) =>
      let aid := appt_id appointment in
      let returnUrl := frontendUrl env ++ "/payment/success?appointmentId=" ++ aid in
      let cancelUrl := frontendUrl env ++ "/payment/cancel?appointmentId=" ++ aid in
      let orderRequest :=
        createOrderRequestBody aid
          (mkAppointmentDetails (or_else (cr_date req) "") (or_else (cr_time req) "")
             (or_else (cr_userName req) "") (or_else (cr_userEmail req) ""))
          returnUrl cancelUrl in
      match create_finish env appointment orderRequest s1 with
      | (Ok r, s2) => (r, s2, Some orderRequest)
      | (Throw e, s2) => (create_error e, s2, Some orderRequest)
      end
  end.

(** ** routes/appointments.ts: GET /available *)

(** Modelled from the spec: [Appointment.generateTimeSlots()] (the model
    file is not part of the sources), "an ordered sequence over
    09:00-17:30, 30-min steps". *)
Definition generateTimeSlots : list string :=
  ["09:00"; "09:30"; "10:00"; "10:30"; "11:00"; "11:30"; "12:00"; "12:30";
   "13:00"; "13:30"; "14:00"; "14:30"; "15:00"; "15:30"; "16:00"; "16:30";
   "17:00"; "17:30"].

(** The query of lines 45-48: [{date: requestedDate, status: {$in:
    ['confirmed', 'pending']}}]. *)
Definition booked_query (requestedDate : Z) (a : Appointment) : bool :=
  (date a =? requestedDate)
  && (status_eqb (status a) St_confirmed || status_eqb (status a) St_pending).

Definition bookedTimes (s : Store) (requestedDate : Z) : list string :=
  map time (filter (booked_query requestedDate) s).

(** [available: !bookedTimes.has(slot.time)]. *)
Definition slot_available (s : Store) (requestedDate : Z) (t : string) : bool :=
  negb (existsb (String.eqb t) (bookedTimes s requestedDate)).

Definition count_true (l : list bool) : Z :=
  Z.of_nat (List.length (filter (fun b => b) l)).

Definition get_available (dateQ : option string) (now off : Z) (s : Store)
    : Response :=
  match dateQ with
  | None => err400 "Date parameter is required in YYYY-MM-DD format" "INVALID_DATE"
  | Some d =>
    if String.eqb d "" then
      err400 "Date parameter is required in YYYY-MM-DD format" "INVALID_DATE"
    else
    match parse_ymd d with
    | None => err400 "Invalid date format. Use YYYY-MM-DD" "INVALID_DATE_FORMAT"
    | Some (y, m, dd) =>
      match iso_date_ms y m dd with
      | None =>
          (* an Invalid Date passes the comparison and fails the cast of
             the query: caught, 500 *)
          Res 500 (JObj [("error", JStr "Failed to fetch available time slots");
                         ("code", JStr "FETCH_SLOTS_ERROR")])
      | Some requestedDate =>
        if requestedDate <? local_today_ms off now then
          err400 "Cannot check availability for past dates" "PAST_DATE"
        else
          let avail := map (slot_available s requestedDate) generateTimeSlots in
          Res 200 (JObj [("slots", JArr (map (fun t => JObj [("time", JStr t);
                             ("available", JBool (slot_available s requestedDate t))])
                             generateTimeSlots));
                         ("date", JStr d);
                         ("totalSlots", JNum (Z.of_nat (List.length generateTimeSlots)));
                         ("availableCount", JNum (count_true avail))])
      end
    end
  end.

(** ** routes/appointments.ts: PUT /:appointmentId/cancel *)

Definition is_hex (c : ascii) : bool :=
  let n := nat_of_ascii c in
  ((48 <=? n)%nat && (n <=? 57)%nat) || ((65 <=? n)%nat && (n <=? 70)%nat)
  || ((97 <=? n)%nat && (n <=? 102)%nat).

(** [/^[0-9a-fA-F]{24}$/.test(appointmentId)]. *)
Definition is_object_id (s : string) : bool :=
  (String.length s =? 24)%nat && forallb is_hex (list_ascii_of_string s).

(** A lower-case hexadecimal digit. *)
Definition is_lower_hex (c : ascii) : bool :=
  let n := nat_of_ascii c in
  ((48 <=? n)%nat && (n <=? 57)%nat) || ((97 <=? n)%nat && (n <=? 102)%nat).

(** An ObjectId as [ObjectId.toString()] writes it, 24 lower-case hex
    digits: the form of the stored [_id]s.  A string in this form is cast by
    Mongoose to the ObjectId it spells, so comparing it with a stored [_id]
    as a string is comparing the ObjectIds. *)
Definition is_canonical_object_id (s : string) : bool :=
  (String.length s =? 24)%nat && forallb is_lower_hex (list_ascii_of_string s).

(** Modelled from the spec: the start of the appointment that the rule of
    [canBeCancelled()] refers to, the stored date's calendar day at the
    stored time (either form the booking routes accept), local time. *)
Definition appointment_start (off : Z) (a : Appointment) : option Z :=
  match parse_hhmm (time a) with
  | Some (h, m) => Some ((date a / DAY) * DAY + (h * 60 + m) * MINUTE - off)
  | None => None
  end.

(** The longest prefix of decimal digits (a number token of V8's date
    scanner) and the rest. *)
Fixpoint digit_run (l : list ascii) : list ascii * list ascii :=
  match l with
  | c :: r => match digit c with
              | Some _ => let (d, r') := digit_run r in (c :: d, r')
              | None => ([], l)
              end
  | [] => ([], [])
  end.

Definition run_val (d : list ascii) : Z :=
  match digits_val d 0 with Some v => v | None => 0 end.

Fixpoint drop_zeros (d : list ascii) : list ascii :=
  match d with
  | c :: r => if Ascii.eqb c "0"%char then drop_zeros r else d
  | [] => []
  end.

(** The value of a number token: its leading zeros skipped, at most nine
    significant digits read ([ReadUnsignedNumeral]). *)
Definition token_val (d : list ascii) : Z := run_val (firstn 9 (drop_zeros d)).

(** [ReadMilliseconds]: the first three digits of a fraction, from the
    token's value and length. *)
Definition read_ms (d : list ascii) : Z :=
  let n := token_val d in
  match List.length d with
  | 1%nat => n * 100
  | 2%nat => n * 10
  | 3%nat => n
  | len => n / 10 ^ (Z.of_nat (Nat.min len 9) - 3)
  end.

(** The optional [':' ss ['.' fraction]] of an ES5 time: milliseconds and
    the rest; [h24] when the hour is 24, which allows only zeros. *)
Definition es_seconds (h24 : bool) (l : list ascii) : option (Z * list ascii) :=
  match l with
  | c :: r =>
      if Ascii.eqb c ":"%char then
        let (ss, r1) := digit_run r in
        let sv := token_val ss in
        if negb (List.length ss =? 2)%nat || (59 <? sv) || (h24 && (0 <? sv)) then None
        else match r1 with
             | c2 :: r2 =>
                 if Ascii.eqb c2 "."%char then
                   let (fr, r3) := digit_run r2 in
                   match fr with
                   | [] => None
                   | _ => if h24 && (0 <? token_val fr) then None
                          else Some (sv * 1000 + read_ms fr, r3)
                   end
                 else Some (sv * 1000, r1)
             | [] => Some (sv * 1000, [])
             end
      else Some (0, l)
  | [] => Some (0, [])
  end.

(** The optional zone of an ES5 time, [Z] or [(+|-)hh:mm] (or the [hhmm]
    extension), then the end of the string: [Some None] for none (local
    time), [Some (Some z)] for an offset of [z] milliseconds east of UTC. *)
Definition es_zone (l : list ascii) : option (option Z) :=
  match l with
  | [] => Some None
  | c :: r =>
      if Ascii.eqb c "Z"%char || Ascii.eqb c "z"%char then
        match r with [] => Some (Some 0) | _ => None end
      else if Ascii.eqb c "+"%char || Ascii.eqb c "-"%char then
        let sg := if Ascii.eqb c "+"%char then 1 else -1 in
        let (hh, r1) := digit_run r in
        if (List.length hh =? 4)%nat then
          let v := token_val hh in
          if (23 <? v / 100) || (59 <? v mod 100) then None
          else match r1 with
               | [] => Some (Some (sg * ((v / 100) * 60 + v mod 100) * MINUTE))
               | _ => None
               end
        else if negb (List.length hh =? 2)%nat || (23 <? token_val hh) then None
        else match r1 with
             | c2 :: r2 =>
                 if Ascii.eqb c2 ":"%char then
                   let (mm, r3) := digit_run r2 in
                   if negb (List.length mm =? 2)%nat || (59 <? token_val mm) then None
                   else match r3 with
                        | [] => Some (Some (sg * (token_val hh * 60 + token_val mm) * MINUTE))
                        | _ => None
                        end
                 else None
             | [] => None
             end
      else None
  end.

(** The time part after the [T] of V8's ES5 date-time parser
    ([ParseES5DateTime]): a two-digit hour 00-24 (24 only with zero
    minutes, seconds and fraction), [':'], two-digit minutes, then
    [es_seconds] and [es_zone]: the milliseconds into the day and the
    zone.  [None] is an Invalid Date: V8 does not fall back to its legacy
    parser once the time part has started. *)
Definition es_time (l : list ascii) : option (Z * option Z) :=
  let (hh, r1) := digit_run l in
  let h := token_val hh in
  if negb (List.length hh =? 2)%nat || (24 <? h) then None else
  match r1 with
  | c :: r2 =>
      if Ascii.eqb c ":"%char then
        let (mm, r3) := digit_run r2 in
        let m := token_val mm in
        if negb (List.length mm =? 2)%nat || (59 <? m) || ((h =? 24) && (0 <? m)) then None
        else match es_seconds (h =? 24) r3 with
             | None => None
             | Some (ms, r4) =>
                 match es_zone r4 with
                 | None => None
                 | Some z => Some (h * HOUR + m * MINUTE + ms, z)
                 end
             end
      else None
  | [] => None
  end.

(** Lines 332-335: [dateStr] is [date.toISOString().split('T')[0]], the
    UTC calendar day of the stored date, and
    [new Date(`${dateStr}T${time}:00`)] reads the time part with
    [es_time]: local time unless it names a zone.  [None] is an Invalid
    Date, e.g. for a one-digit hour such as "9:30". *)
Definition appointmentDateTime (off : Z) (a : Appointment) : option Z :=
  match es_time (list_ascii_of_string (time a ++ ":00")) with
  | Some (t, None) => Some ((date a / DAY) * DAY + t - off)
  | Some (t, Some z) => Some ((date a / DAY) * DAY + t - z)
  | None => None
  end.

(** Modelled from the spec: the [canBeCancelled()] method of the
    Appointment model (the model file is not part of the sources): a
    cancellation is "permitted only while now < appointmentStart - 1h". *)
Definition canBeCancelled (off now : Z) (a : Appointment) : bool :=
  match appointment_start off a with
  | Some st => now <? st - HOUR
  | None => false
  end.

(** Lines 336-338: [Math.floor(timeDiff / (1000 * 60 * 60))]; NaN for an
    Invalid Date, serialised as [null]. *)
Definition hoursUntilAppointment (off now : Z) (a : Appointment) : json :=
  match appointmentDateTime off a with
  | Some t => JNum ((t - now) / HOUR)
  | None => JNull
  end.

(** [String(n)] for an integer. *)
Fixpoint digits_str (fuel : nat) (n : Z) (acc : string) : string :=
  match fuel with
  | O => acc
  | S f =>
      let acc' := String (ascii_of_nat (48 + Z.to_nat (n mod 10))) acc in
      if n <? 10 then acc' else digits_str f (n / 10) acc'
  end.

Definition z_to_string (z : Z) : string :=
  if z <? 0 then "-" ++ digits_str 25 (- z) "" else digits_str 25 z "".

Definition json_to_string (j : json) : string :=
  match j with JNum n => z_to_string n | _ => "NaN" end.

Fixpoint remove_first (p : Appointment -> bool) (s : Store)
    : option Appointment * Store :=
  match s with
  | [] => (None, [])
  | a :: r => if p a then (Some a, r)
              else let (x, r') := remove_first p r in (x, a :: r')
  end.

(** [findOneAndDelete] / [findByIdAndDelete]. *)
Definition find_and_delete (p : Appointment -> bool) : M (option Appointment) :=
  fun s => let (x, s') := remove_first p s in (Ok x, s').

(** [deleteOne(filter)]: [deletedCount]. *)
Definition delete_one (p : Appointment -> bool) : M nat :=
  fun s => match remove_first p s with
           | (Some _, s') => (Ok 1%nat, s')
           | (None, s') => (Ok 0%nat, s')
           end.

(** The value of [deleteResult] in lines 380-410. *)
Inductive DeleteResult :=
| DR_count (n : nat)            (* { deletedCount } from deleteOne *)
| DR_doc (a : Appointment).     (* a deleted document *)

Definition by_id_user (aid uid : string) (a : Appointment) : bool :=
  String.eqb (appt_id a) aid && String.eqb (userId a) uid.

Definition by_id (aid : string) (a : Appointment) : bool :=
  String.eqb (appt_id a) aid.

Definition err500 (msg code : string) : Response :=
  Res 500 (JObj [("error", JStr msg); ("code", JStr code)]).

Definition cancel_appointment (u : AuthUser) (appointmentId : string)
    (now off : Z) : M Response :=
  let uid := auth_userId u in
  if String.eqb appointmentId "" then
    ret (err400 "Appointment ID is required" "MISSING_APPOINTMENT_ID")
  else if negb (is_object_id appointmentId) then
    ret (err400 "Invalid appointment ID format" "INVALID_APPOINTMENT_ID")
  else
  found <-- find_one (by_id_user appointmentId uid) ;;
  match found with
  | None => ret (Res 404 (JObj [("error", JStr "Appointment not found or you do not have permission to cancel it");
                                ("code", JStr "APPOINTMENT_NOT_FOUND")]))
  | Some appointment =>
  if status_eqb (status appointment) St_cancelled then
    ret (err400 "Appointment is already cancelled" "ALREADY_CANCELLED")
  else if negb (canBeCancelled off now appointment) then
    let hours := hoursUntilAppointment off now appointment in
    ret (Res 400 (JObj [("error", JStr ("Cannot cancel appointment. Less than 1 hour remaining ("
                                        ++ json_to_string hours ++ " hours left)"));
                        ("code", JStr "CANCELLATION_TOO_LATE");
                        ("hoursUntilAppointment", hours)]))
  else
  pre <-- find_by_id appointmentId ;;
  match pre with
  | None => ret (Res 404 (JObj [("error", JStr "Appointment not found");
                                ("code", JStr "APPOINTMENT_NOT_FOUND")]))
  | Some _ =>
  c <-- delete_one (by_id_user appointmentId uid) ;;
  dr2 <-- (if (c =? 0)%nat
           then d <-- find_and_delete (by_id appointmentId) ;; ret (option_map DR_doc d)
           else ret (Some (DR_count c))) ;;
  dr3 <-- (match dr2 with
           | None | Some (DR_count 0) =>
               d <-- find_and_delete (by_id_user appointmentId uid) ;;
               ret (option_map DR_doc d)
           | other => ret other
           end) ;;
  match dr3 with
  | None => ret (err500 "Failed to delete appointment" "DELETE_FAILED")
  | Some (DR_count 0) => ret (err500 "Failed to delete appointment" "DELETE_FAILED")
  | Some _ =>
    v <-- find_by_id appointmentId ;;
    match v with
    | Some _ => ret (err500 "Appointment deletion failed - appointment still exists"
                            "DELETION_VERIFICATION_FAILED")
    | None =>
      ret (Res 200 (JObj [("success", JBool true);
                          ("message", JStr "Appointment cancelled and removed successfully");
                          ("appointment", JObj [("id", JStr (appt_id appointment));
                                                ("date", JNum (date appointment));
                                                ("time", JStr (time appointment));
                                                ("status", JStr "cancelled");
                                                ("cancelledAt", JNum now)])]))
    end
  end end end.

Definition run_cancel (u : AuthUser) (appointmentId : string) (now off : Z)
    (s : Store) : Response * Store :=
  match cancel_appointment u appointmentId now off s with
  | (Ok r, s') => (r, s')
  | (Throw _, s') => (err500 "Failed to cancel appointment" "CANCELLATION_ERROR", s')
  end.

(** ** routes/payments: POST /cleanup-pending *)

(** The filter of lines 640-644. *)
Definition expired_pending (now : Z) (a : Appointment) : bool :=
  status_eqb (status a) St_pending
  && payment_status_eqb (paymentStatus a) Pay_pending
  && (createdAt a <? now - 15 * 60 * 1000).

Definition cleanup_pending (now : Z) (s : Store) : Response * Store :=
  let (s', deletedCount) := deleteMany (expired_pending now) s in
  (Res 200 (JObj [("success", JBool true);
                  ("deletedCount", JNum (Z.of_nat deletedCount))]), s').

(** The amounts of an order request: each unit's [amount],
    [breakdown.itemTotal] and the [unitAmount] of each item. *)
Definition order_amounts (o : OrderRequest) : list Money :=
  flat_map (fun pu => pu_amount pu :: itemTotal pu :: map unitAmount (items pu))
           (purchaseUnits o).

(** ** routes/payments: POST /cancel-order and GET /status/:appointmentId *)

(** JavaScript truthiness of a value of the request body. *)
Definition truthy_json (j : json) : bool :=
  match j with
  | JNull => false
  | JBool b => b
  | JNum n => negb (n =? 0)
  | JStr s => negb (String.eqb s "")
  | JArr _ | JObj _ => true
  end.

(** How Mongoose casts the value given for [_id] in a query filter: the
    condition it puts on the stored id, or [None] when the cast raises a
    CastError.  Which values are ObjectIds (24 hex digits in either case,
    12-character strings in older bson releases, an object read as query
    operators) depends on the Mongoose and bson versions, so the handlers
    below take it as a parameter. *)
Definition IdCast := json -> option (string -> bool).

(** The filter of lines 569-574. *)
Definition pending_of (idc : string -> bool) (uid : string) (a : Appointment) : bool :=
  idc (appt_id a) && String.eqb (userId a) uid
  && status_eqb (status a) St_pending
  && payment_status_eqb (paymentStatus a) Pay_pending.

(** Lines 556-597; a failed cast of [_id] is caught: 500. *)
Definition cancel_order (castId : IdCast) (u : AuthUser) (appointmentId : option json)
    : M Response :=
  match appointmentId with
  | Some j =>
    if truthy_json j then
      match castId j with
      | None => ret (err500 "Failed to cancel appointment" "CANCEL_ERROR")
      | Some idc =>
        appointment <-- find_and_delete (pending_of idc (auth_userId u)) ;;
        match appointment with
        | None => ret (Res 404 (JObj [("error", JStr "Pending appointment not found");
                                      ("code", JStr "APPOINTMENT_NOT_FOUND")]))
        | Some _ => ret (Res 200 (JObj [("success", JBool true);
                                        ("message", JStr "Appointment cancelled successfully")]))
        end
      end
    else ret (err400 "Appointment ID is required" "MISSING_APPOINTMENT_ID")
  | None => ret (err400 "Appointment ID is required" "MISSING_APPOINTMENT_ID")
  end.

Definition run_cancel_order (castId : IdCast) (u : AuthUser) (appointmentId : option json)
    (s : Store) : Response * Store :=
  match cancel_order castId u appointmentId s with
  | (Ok r, s') => (r, s')
  | (Throw _, s') => (err500 "Failed to cancel appointment" "CANCEL_ERROR", s')
  end.

(** Lines 600-631; a failed cast of [_id] is caught: 500. *)
Definition payment_status (castId : IdCast) (u : AuthUser) (appointmentId : string)
    : M Response :=
  match castId (JStr appointmentId) with
  | None => ret (err500 "Failed to get payment status" "STATUS_ERROR")
  | Some idc =>
    appointment <-- find_one (fun a => idc (appt_id a)
                                       && String.eqb (userId a) (auth_userId u)) ;;
    match appointment with
    | None => ret (Res 404 (JObj [("error", JStr "Appointment not found");
                                  ("code", JStr "APPOINTMENT_NOT_FOUND")]))
    | Some a => ret (Res 200 (JObj [("appointmentId", JStr (appt_id a));
                                    ("status", JStr (status_str (status a)));
                                    ("paymentStatus", JStr (payment_status_str (paymentStatus a)));
                                    ("date", JNum (date a)); ("time", JStr (time a))]))
    end
  end.

Definition run_payment_status (castId : IdCast) (u : AuthUser) (appointmentId : string)
    (s : Store) : Response * Store :=
  match payment_status castId u appointmentId s with
  | (Ok r, s') => (r, s')
  | (Throw _, s') => (err500 "Failed to get payment status" "STATUS_ERROR", s')
  end.

(** ** routes/appointments.ts: DELETE /:appointmentId *)

(** Lines 482-651: the checks and the three deletion attempts of the PUT
    route, without its pre-deletion [findById]. *)
Definition delete_appointment (u : AuthUser) (appointmentId : string)
    (now off : Z) : M Response :=
  let uid := auth_userId u in
  if String.eqb appointmentId "" then
    ret (err400 "Appointment ID is required" "MISSING_APPOINTMENT_ID")
  else if negb (is_object_id appointmentId) then
    ret (err400 "Invalid appointment ID format" "INVALID_APPOINTMENT_ID")
  else
  found <-- find_one (by_id_user appointmentId uid) ;;
  match found with
  | None => ret (Res 404 (JObj [("error", JStr "Appointment not found or you do not have permission to cancel it");
                                ("code", JStr "APPOINTMENT_NOT_FOUND")]))
  | Some appointment =>
  if status_eqb (status appointment) St_cancelled then
    ret (err400 "Appointment is already cancelled" "ALREADY_CANCELLED")
  else if negb (canBeCancelled off now appointment) then
    let hours := hoursUntilAppointment off now appointment in
    ret (Res 400 (JObj [("error", JStr ("Cannot cancel appointment. Less than 1 hour remaining ("
                                        ++ json_to_string hours ++ " hours left)"));
                        ("code", JStr "CANCELLATION_TOO_LATE");
                        ("hoursUntilAppointment", hours)]))
  else
  c <-- delete_one (by_id_user appointmentId uid) ;;
  dr2 <-- (if (c =? 0)%nat
           then d <-- find_and_delete (by_id appointmentId) ;; ret (option_map DR_doc d)
           else ret (Some (DR_count c))) ;;
  dr3 <-- (match dr2 with
           | None | Some (DR_count 0) =>
               d <-- find_and_delete (by_id_user appointmentId uid) ;;
               ret (option_map DR_doc d)
           | other => ret other
           end) ;;
  match dr3 with
  | None => ret (err500 "Failed to delete appointment" "DELETE_FAILED")
  | Some (DR_count 0) => ret (err500 "Failed to delete appointment" "DELETE_FAILED")
  | Some _ =>
    v <-- find_by_id appointmentId ;;
    match v with
    | Some _ => ret (err500 "Appointment deletion failed - appointment still exists"
                            "DELETION_VERIFICATION_FAILED")
    | None =>
      ret (Res 200 (JObj [("success", JBool true);
                          ("message", JStr "Appointment cancelled and removed successfully");
                          ("appointment", JObj [("id", JStr (appt_id appointment));
                                                ("date", JNum (date appointment));
                                                ("time", JStr (time appointment));
                                                ("status", JStr "cancelled");
                                                ("cancelledAt", JNum now)])]))
    end
  end end.

Definition run_delete (u : AuthUser) (appointmentId : string) (now off : Z)
    (s : Store) : Response * Store :=
  match delete_appointment u appointmentId now off s with
  | (Ok r, s') => (r, s')
  | (Throw _, s') => (err500 "Failed to cancel appointment" "CANCELLATION_ERROR", s')
  end.

(** ** routes/appointments.ts: POST /book *)

(** The world during one booking: the clock, the server's UTC offset, the
    [_id] Mongo assigns, and the defaults the Appointment schema (not part
    of the sources) gives the fields the route leaves unset. *)
Record BookEnv := mkBookEnv {
  book_now : Z;
  book_off : Z;
  book_id : string;
  defaultPaymentStatus : PaymentStatus;
  defaultPaymentInfo : option PaymentInfo
}.

(** The query of lines 136-140. *)
Definition book_slot_query (appointmentDate : Z) (t : string) (a : Appointment) : bool :=
  booked_query appointmentDate a && String.eqb (time a) t.

(** The query of lines 150-154. *)
Definition book_user_query (uid : string) (appointmentDate : Z) (a : Appointment) : bool :=
  String.eqb (userId a) uid && booked_query appointmentDate a.

(** Lines 78-210.  [new Date(date)] is UTC midnight; an Invalid Date
    passes the past-date comparison and fails the cast of the first query:
    caught, 500. *)
Definition book (u : AuthUser) (req : CreateReq) (env : BookEnv) : M Response :=
  let uid := auth_userId u in
  if negb (truthy_str (cr_date req) && truthy_str (cr_time req)
           && truthy_str (cr_userEmail req) && truthy_str (cr_userName req)) then
    ret (err400 "All fields are required: date, time, userEmail, userName"
                "MISSING_FIELDS")
  else
  let dateS := or_else (cr_date req) "" in
  let timeS := or_else (cr_time req) "" in
  let email := or_else (cr_userEmail req) "" in
  let name := or_else (cr_userName req) "" in
  match parse_ymd dateS with
  | None => ret (err400 "Invalid date format. Use YYYY-MM-DD" "INVALID_DATE_FORMAT")
  | Some (year, month, day) =>
  match parse_hhmm timeS with
  | None => ret (err400 "Invalid time format. Use HH:MM" "INVALID_TIME_FORMAT")
  | Some (hours, minutes) =>
  let timeInMinutes := hours * 60 + minutes in
  if (timeInMinutes <? 9 * 60) || (17 * 60 + 30 <? timeInMinutes)
     || negb (minutes mod 30 =? 0) then
    ret (err400 "Time must be within business hours (09:00-17:30) in 30-minute intervals"
                "INVALID_TIME_SLOT")
  else
  let appointmentDate := iso_date_ms year month day in
  let today := local_today_ms (book_off env) (book_now env) in
  if match appointmentDate with Some d => d <? today | None => false end then
    ret (err400 "Cannot book appointments for past dates" "PAST_DATE")
  else if negb (String.eqb email (auth_email u)) then
    ret (err400 "Email must match authenticated user" "EMAIL_MISMATCH")
  else
  match appointmentDate with
  | None => ret (err500 "Failed to book appointment" "BOOKING_ERROR")
  | Some d =>
  existing <-- find_one (book_slot_query d timeS) ;;
  match existing with
  | Some _ => ret (Res 409 (JObj [("error", JStr "Time slot not available");
                                  ("code", JStr "SLOT_UNAVAILABLE")]))
  | None =>
  userExisting <-- find_one (book_user_query uid d) ;;
  match userExisting with
  | Some _ => ret (Res 409 (JObj [("error", JStr "You already have an appointment on this date");
                                  ("code", JStr "DUPLICATE_DATE_BOOKING")]))
  | None =>
  let appointment :=
    mkAppointment (book_id env) uid email name d timeS
      (or_else (cr_timezone req) "UTC") St_confirmed (defaultPaymentStatus env)
      (defaultPaymentInfo env) None None [] None None None None None
      (book_now env) in
  insert appointment ;;;
  ret (Res 201 (JObj [("success", JBool true);
                      ("message", JStr "Appointment booked successfully");
                      ("appointment", JObj [("id", JStr (appt_id appointment));
                                            ("date", JNum (date appointment));
                                            ("time", JStr (time appointment));
                                            ("status", JStr (status_str (status appointment)));
                                            ("createdAt", JNum (createdAt appointment))])]))
  end end end end end.

(** Lines 194-209 (the catch). *)
Definition run_book (u : AuthUser) (req : CreateReq) (env : BookEnv) (s : Store)
    : Response * Store :=
  match book u req env s with
  | (Ok r, s') => (r, s')
  | (Throw DupKey, s') =>
      (Res 409 (JObj [("error", JStr "Time slot was just booked by another user");
                      ("code", JStr "SLOT_UNAVAILABLE")]), s')
  | (Throw _, s') => (err500 "Failed to book appointment" "BOOKING_ERROR", s')
  end.

(** ** routes/appointments.ts: GET /my-appointments and GET /admin/all *)

(** A value of [req.query]: a string, an array ([?a=1&a=2]) or an object
    ([?a[b]=1]). *)
Inductive QVal :=
| QStr (s : string)
| QArr (l : list QVal)
| QObj.

(** [String(v)]: an array is joined with commas, an object is
    ["[object Object]"]. *)
Fixpoint qs_to_string (q : QVal) : string :=
  match q with
  | QStr s => s
  | QObj => "[object Object]"
  | QArr l =>
      (fix join (l : list QVal) : string :=
         match l with
         | [] => ""
         | [x] => qs_to_string x
         | x :: r => qs_to_string x ++ "," ++ join r
         end) l
  end.

(** [StrWhiteSpaceChar] on one-byte characters: TAB, LF, VT, FF, CR, SP
    and NBSP. *)
Definition js_ws (c : ascii) : bool := is_ws c || (nat_of_ascii c =? 160)%nat.

Fixpoint js_trim_start (s : string) : string :=
  match s with
  | EmptyString => EmptyString
  | String c r => if js_ws c then js_trim_start r else s
  end.

Definition digit_in (radix : Z) (c : ascii) : option Z :=
  let n := Z.of_nat (nat_of_ascii c) in
  let v := if (48 <=? n) && (n <=? 57) then n - 48
           else if (97 <=? n) && (n <=? 122) then n - 87
           else if (65 <=? n) && (n <=? 90) then n - 55
           else 36 in
  if v <? radix then Some v else None.

(** The longest prefix of digits in [radix]; [None] when it is empty. *)
Fixpoint digits_prefix (radix : Z) (s : string) (acc : Z) (seen : bool) : option Z :=
  match s with
  | String c r =>
      match digit_in radix c with
      | Some v => digits_prefix radix r (acc * radix + v) true
      | None => if seen then Some acc else None
      end
  | EmptyString => if seen then Some acc else None
  end.

(** [parseInt(s)] with no radix ([None]: NaN; -0 is 0).  JavaScript rounds
    results beyond 2^53 to a double; the model keeps the exact integer. *)
Definition js_parseInt (s : string) : option Z :=
  let s1 := js_trim_start s in
  let '(sign, s2) :=
    match s1 with
    | String c r => if Ascii.eqb c "-"%char then (-1, r)
                    else if Ascii.eqb c "+"%char then (1, r) else (1, s1)
    | EmptyString => (1, s1)
    end in
  let '(radix, s3) :=
    match s2 with
    | String z (String x r) =>
        if Ascii.eqb z "0"%char && (Ascii.eqb x "x"%char || Ascii.eqb x "X"%char)
        then (16, r) else (10, s2)
    | _ => (10, s2)
    end in
  option_map (fun v => sign * v) (digits_prefix radix s3 0 false).

(** [parseInt(q as string) || d], with [dflt] the destructuring default
    ([limit = 50], [page = 1]) of an absent parameter. *)
Definition int_param (q : option QVal) (dflt : string) (d : Z) : Z :=
  let s := match q with Some v => qs_to_string v | None => dflt end in
  match js_parseInt s with
  | Some n => if n =? 0 then d else n
  | None => d
  end.

(** [Math.ceil(total / limit)] for [limit >= 1]. *)
Definition ceil_div (a b : Z) : Z := - ((- a) / b).

(** [a < b] on strings: MongoDB's binary comparison. *)
Fixpoint str_ltb (a b : string) : bool :=
  match a, b with
  | EmptyString, EmptyString => false
  | EmptyString, String _ _ => true
  | String _ _, EmptyString => false
  | String c r, String d t =>
      if (nat_of_ascii c <? nat_of_ascii d)%nat then true
      else if (nat_of_ascii d <? nat_of_ascii c)%nat then false
      else str_ltb r t
  end.

(** [sort({date: -1, time: -1})]: [newer_first a b] when [a] goes first. *)
Definition newer_first (a b : Appointment) : bool :=
  (date b <? date a) || ((date a =? date b) && str_ltb (time b) (time a)).

(** [sort({date: 1, time: 1})]. *)
Definition older_first (a b : Appointment) : bool :=
  (date a <? date b) || ((date a =? date b) && str_ltb (time a) (time b)).

(** A stable insertion sort; MongoDB leaves the order of equal keys open,
    and the model keeps the order of the collection. *)
Fixpoint ins_by (before : Appointment -> Appointment -> bool) (a : Appointment)
    (l : list Appointment) : list Appointment :=
  match l with
  | [] => [a]
  | b :: r => if before b a then b :: ins_by before a r else a :: b :: r
  end.

Fixpoint sort_by (before : Appointment -> Appointment -> bool) (l : list Appointment)
    : list Appointment :=
  match l with
  | [] => []
  | a :: r => ins_by before a (sort_by before r)
  end.

(** [find(query).sort(order).skip(skip).limit(limit)]. *)
Definition find_page (q : Appointment -> bool)
    (before : Appointment -> Appointment -> bool) (skip limit : Z) (s : Store)
    : list Appointment :=
  firstn (Z.to_nat limit) (skipn (Z.to_nat skip) (sort_by before (filter q s))).

(** MongoDB reads [skip] as a 64-bit integer and fails the query for a
    larger one (a page number beyond about 2^56, or [Infinity] for a page
    of more than 308 digits).  Beyond 2^53 JavaScript computes [pageNum]
    and [skip] as rounded doubles, which the model leaves out. *)
Definition mongo_skip_ok (skip : Z) : bool := skip <? 2 ^ 63.

Definition opt_field (k : string) (o : option json) : list (string * json) :=
  match o with Some v => [(k, v)] | None => [] end.

Definition payment_info_json (pi : PaymentInfo) : json :=
  JObj ([("amount", JStr (amount pi)); ("currency", JStr (currency pi))]
        ++ opt_field "paypalOrderId" (option_map JStr (paypalOrderId pi))
        ++ opt_field "paypalPayerId" (option_map JStr (paypalPayerId pi))
        ++ opt_field "paypalTransactionId" (option_map JStr (paypalTransactionId pi))
        ++ [("status", JStr (pi_status pi))]
        ++ opt_field "paidAt" (option_map JNum (paidAt pi)))%list.

(** The fields of a document ([toObject()], [toJSON()]), with the
    [googleMeetLink] entry given by [meet]. *)
Definition doc_json (meet : list (string * json)) (a : Appointment) : json :=
  JObj ([("_id", JStr (appt_id a)); ("userId", JStr (userId a));
         ("userEmail", JStr (userEmail a)); ("userName", JStr (userName a));
         ("date", JNum (date a)); ("time", JStr (time a));
         ("timezone", JStr (timezone a)); ("status", JStr (status_str (status a)));
         ("paymentStatus", JStr (payment_status_str (paymentStatus a)))]
        ++ opt_field "paymentInfo" (option_map payment_info_json (paymentInfo a))
        ++ opt_field "duration" (option_map JNum (duration a))
        ++ opt_field "endTime" (option_map JStr (endTime a))
        ++ [("bookedSlots", JArr (map JStr (bookedSlots a)))]
        ++ meet
        ++ opt_field "googleCalendarEventId" (option_map JStr (googleCalendarEventId a))
        ++ opt_field "categoryId" (option_map JStr (categoryId a))
        ++ opt_field "categoryName" (option_map JStr (categoryName a))
        ++ opt_field "formAnswers" (formAnswers a)
        ++ [("createdAt", JNum (createdAt a))])%list.

Definition pagination_json (page limit total : Z) : json :=
  JObj [("page", JNum page); ("limit", JNum limit); ("total", JNum total);
        ("pages", JNum (ceil_div total limit))].

(** [{...apt.toObject(), googleMeetLink: apt.googleMeetLink || null}]. *)
Definition my_view (a : Appointment) : json :=
  doc_json [("googleMeetLink", or_null (googleMeetLink a))] a.

(** A document as [res.json] serialises it. *)
Definition admin_view (a : Appointment) : json :=
  doc_json (opt_field "googleMeetLink" (option_map JStr (googleMeetLink a))) a.

(** The status filter of lines 222-230: [None] for no filter,
    [Some (inl tt)] for the 400 of an unknown status. *)
Definition my_status_filter (st : option QVal) : option (unit + string) :=
  match st with
  | Some (QStr s) =>
      if String.eqb s "" then None
      else if existsb (String.eqb s) ["pending"; "confirmed"; "cancelled"]
      then Some (inr s) else Some (inl tt)
  | _ => None
  end.

Definition status_matches (st : option string) (a : Appointment) : bool :=
  match st with Some s => String.eqb (status_str (status a)) s | None => true end.

(** Lines 214-270; a [skip] that MongoDB rejects fails the [find]:
    caught, 500. *)
Definition my_appointments (u : AuthUser) (st limit page : option QVal) : M Response :=
  let uid := auth_userId u in
  let filt := my_status_filter st in
  match filt with
  | Some (inl _) =>
      ret (err400 "Invalid status. Must be: pending, confirmed, or cancelled"
                  "INVALID_STATUS")
  | _ =>
  let sq := match filt with Some (inr s) => Some s | _ => None end in
  let query a := String.eqb (userId a) uid && status_matches sq a in
  let pageNum := Z.max 1 (int_param page "1" 1) in
  let limitNum := Z.min 100 (Z.max 1 (int_param limit "50" 50)) in
  let skip := (pageNum - 1) * limitNum in
  if negb (mongo_skip_ok skip)
  then ret (err500 "Failed to fetch appointments" "FETCH_APPOINTMENTS_ERROR") else
  s <-- get_store ;;
  let appointments := find_page query newer_first skip limitNum s in
  let totalCount := Z.of_nat (List.length (filter query s)) in
  ret (Res 200 (JObj [("appointments",
                       JArr (map my_view appointments));
                      ("pagination", pagination_json pageNum limitNum totalCount)]))
  end.

(** Lines 654-701: no role check; an unknown status or a malformed date is
    left out of the query, and a well-formed date that is not a calendar
    date fails its cast: caught, 500, as is a [skip] that MongoDB
    rejects. *)
Definition admin_all (dateQ st limit page : option QVal) : M Response :=
  let dfilt :=
    match dateQ with
    | Some (QStr d) =>
        if String.eqb d "" then Some None else
        match parse_ymd d with
        | Some (y, m, dd) => match iso_date_ms y m dd with
                             | Some ms => Some (Some ms)
                             | None => None
                             end
        | None => Some None
        end
    | _ => Some None
    end in
  match dfilt with
  | None => ret (err500 "Failed to fetch appointments" "FETCH_ALL_APPOINTMENTS_ERROR")
  | Some dq =>
  let sq := match st with
            | Some (QStr s) =>
                if existsb (String.eqb s) ["pending"; "confirmed"; "cancelled"]
                then Some s else None
            | _ => None
            end in
  let query a := match dq with Some ms => date a =? ms | None => true end
                 && status_matches sq a in
  let pageNum := Z.max 1 (int_param page "1" 1) in
  let limitNum := Z.min 100 (Z.max 1 (int_param limit "100" 100)) in
  let skip := (pageNum - 1) * limitNum in
  if negb (mongo_skip_ok skip)
  then ret (err500 "Failed to fetch appointments" "FETCH_ALL_APPOINTMENTS_ERROR") else
  s <-- get_store ;;
  let appointments := find_page query older_first skip limitNum s in
  let totalCount := Z.of_nat (List.length (filter query s)) in
  ret (Res 200 (JObj [("appointments",
                       JArr (map admin_view appointments));
                      ("pagination", pagination_json pageNum limitNum totalCount)]))
  end.

Definition run_my_appointments (u : AuthUser) (st limit page : option QVal) (s : Store)
    : Response * Store :=
  match my_appointments u st limit page s with
  | (Ok r, s') => (r, s')
  | (Throw _, s') => (err500 "Failed to fetch appointments" "FETCH_APPOINTMENTS_ERROR", s')
  end.

Definition run_admin_all (dateQ st limit page : option QVal) (s : Store)
    : Response * Store :=
  match admin_all dateQ st limit page s with
  | (Ok r, s') => (r, s')
  | (Throw _, s') => (err500 "Failed to fetch appointments" "FETCH_ALL_APPOINTMENTS_ERROR", s')
  end.

(** ** Formatting helpers for the statements about the date and time parsers *)

(** The ASCII digit of [0 <= n <= 9]. *)
Definition digit_char (n : Z) : ascii := ascii_of_nat (48 + Z.to_nat n).

(** [n] written with two digits, [0 <= n <= 99]. *)
Definition two_digits (n : Z) : string :=
  String (digit_char (n / 10)) (String (digit_char (n mod 10)) EmptyString).

(** [n] written with four digits, [0 <= n <= 9999]. *)
Definition four_digits (n : Z) : string :=
  String (digit_char (n / 10 / 10 / 10))
    (String (digit_char (n / 10 / 10 mod 10))
       (String (digit_char (n / 10 mod 10)) (String (digit_char (n mod 10)) EmptyString))).

(** [parse_hhmm] reads back [h:m] written as "HH:MM", and as "H:MM" when
    [h <= 9]. *)
Definition hhmm_ok (h m : Z) : bool :=
  match parse_hhmm (two_digits h ++ ":" ++ two_digits m) with
  | Some (h', m') => (h' =? h) && (m' =? m)
  | None => false
  end
  && (negb (h <=? 9) ||
      match parse_hhmm (String (digit_char h) (":" ++ two_digits m)) with
      | Some (h', m') => (h' =? h) && (m' =? m)
      | None => false
      end).

(** Both written forms of a time of day as the cancel route hands them to
    [es_time], with [":00"] appended: HH:MM is read as its milliseconds
    into the day, local time; H:MM is an Invalid Date. *)
Definition es_hhmm_ok (h m : Z) : bool :=
  match es_time (list_ascii_of_string ((two_digits h ++ ":" ++ two_digits m) ++ ":00")) with
  | Some (t, None) => t =? h * HOUR + m * MINUTE
  | _ => false
  end
  && (negb (h <=? 9) ||
      match es_time (list_ascii_of_string (String (digit_char h) (":" ++ two_digits m) ++ ":00")) with
      | None => true
      | Some _ => false
      end).

(** ** Pieces of the capture handler used in the proofs *)

Ltac attach_meet_cases :=
  intros; unfold attach_meet;
  repeat match goal with
         | |- context [if truthy_str ?x then _ else _] => destruct (truthy_str x)
         | |- context [match ?m with Some _ => _ | None => _ end] =>
             match m with meetEvent _ => destruct m as [[? ?]|] | _ => fail end
         | m : option (string * string) |- _ => destruct m as [[? ?]|]
         end; reflexivity.

(** The document [updateAppointmentFromOrder] saves for a COMPLETED order. *)
Definition confirmed_doc (env : CaptureEnv) (oid : string) (req : CaptureReq)
    (o : Order) (a : Appointment) : Appointment :=
  attach_meet (meetEvent env) (confirm_from_order (capture_now env) oid req o a).

Definition run_result (r : Result Response * Store) : Response * Store :=
  match r with
  | (Ok x, s') => (x, s')
  | (Throw _, s') =>
      (Res 500 (JObj [("error", JStr "Failed to process payment capture");
                      ("code", JStr "CAPTURE_ERROR")]), s')
  end.

(** ** Sample data *)

(** 2026-10-16T12:00:00Z, and the day 2026-10-20. *)
Definition now0 : Z := 20742 * DAY + 12 * HOUR.
Definition day0 : Z := 20746 * DAY.

Definition id1 : string := "aaaaaaaaaaaaaaaaaaaaaaaa".
Definition id2 : string := "bbbbbbbbbbbbbbbbbbbbbbbb".
Definition user1 : AuthUser := mkAuthUser "u1" "u1@example.com".
Definition user2 : AuthUser := mkAuthUser "u2" "u2@example.com".

(** A pending reservation on [day0] at [t], as create-order stores it. *)
Definition pending_hold (id uid t : string) (created : Z) (oid : string) : Appointment :=
  mkAppointment id uid (uid ++ "@example.com") uid day0 t "UTC" St_pending Pay_pending
    (Some (mkPaymentInfo MEETING_PRICE MEETING_CURRENCY (Some oid) None None "pending" None))
    (Some 30) None [t] None None None None None created.

Definition paypal_order (oid st : string) : Order :=
  mkOrder oid st (Some "PAYER1") (Some "CAPTURE1")
    [("payer-action", "https://paypal.example/checkout")].

Definition capture_req (oid aid : string) : CaptureReq :=
  mkCaptureReq (Some oid) (Some aid) None None None.

Definition capture_env (c g : Call Order) (meet : option (string * string)) : CaptureEnv :=
  mkCaptureEnv true c g meet (now0 + MINUTE) (fun s => s).

(** PayPal's 422 answer to a second capture. *)
Definition already_captured_error : PayPalError :=
  mkPayPalError (Some 422) (Some (mkErrResult (Some "ORDER_ALREADY_CAPTURED") None))
    None None.

Definition create_env (id oid : string) : CreateEnv :=
  mkCreateEnv true now0 0 id "https://app.example"
    (Returns (paypal_order oid "PAYER_ACTION_REQUIRED")).

Definition booking_req (ds : string) (u : AuthUser) (t : string) (dur : Z)
    (price : option string) (slots : option (list string)) : CreateReq :=
  mkCreateReq (Some ds) (Some t) (Some (auth_email u)) (Some (auth_userId u))
    (Some "UTC") (Some dur) price slots None.

Definition hold1 : Appointment := pending_hold id1 "u1" "10:00" now0 "ORD1".
Definition req1 : CaptureReq := capture_req "ORD1" id1.
Definition ok_order1 : Order := paypal_order "ORD1" "COMPLETED".

(** PayPal captures ORD1; the Meet call throws. *)
Definition env_ok : CaptureEnv := capture_env (Returns ok_order1) (Returns ok_order1) None.

(** [hold1] after a successful capture. *)
Definition paid1 : Appointment := confirmed_doc env_ok "ORD1" req1 ok_order1 hold1.

(** [paid1] booked at "9:30", the one-digit hour that /book and
    create-order accept. *)
Definition paid930 : Appointment :=
  confirmed_doc env_ok "ORD1" req1 ok_order1 (pending_hold id1 "u1" "9:30" now0 "ORD1").

(** The capture is rejected as a repeat and ORD1 is COMPLETED. *)
Definition env_ac : CaptureEnv :=
  capture_env (Fails already_captured_error) (Returns ok_order1) None.

(** As [env_ac], but a concurrent request confirms [hold1] meanwhile. *)
Definition env_race : CaptureEnv :=
  mkCaptureEnv true (Fails already_captured_error) (Returns ok_order1) None
    (now0 + MINUTE) (fun _ => [paid1]).

(** The capture is rejected as a repeat and ORD1 is only APPROVED. *)
Definition env_approved : CaptureEnv :=
  capture_env (Fails already_captured_error) (Returns (paypal_order "ORD1" "APPROVED")) None.

(** PayPal answers the capture with DECLINED. *)
Definition env_declined : CaptureEnv :=
  capture_env (Returns (paypal_order "ORD1" "DECLINED"))
              (Returns (paypal_order "ORD1" "DECLINED")) None.

(** A create-order request for 2026-10-20 10:00 that sends its own price. *)
Definition create_999 : Response * Store * option OrderRequest :=
  run_create user1 (booking_req "2026-10-20" user1 "10:00" 30 (Some "999.00") None)
    (create_env id1 "ORD1") [].

(** The premises of a statement about the sample data, by evaluation. *)
Ltac sample_premise :=
  first [ reflexivity
        | (intro; reflexivity)
        | (vm_compute; reflexivity)
        | (let H := fresh "H" in intro H; vm_compute in H; discriminate H)
        | (unfold now0, day0, DAY, HOUR, MINUTE; lia)
        | (vm_compute; lia)
        | (repeat split; vm_compute; discriminate)
        | (repeat constructor; vm_compute; intuition discriminate) ].

(** Mongoose's cast of an [_id] filter value: a 24-digit hex string is an
    ObjectId (the sample ids are lower case), anything else a CastError. *)
Definition cast_sample : IdCast :=
  fun j => match j with
           | JStr x => if is_object_id x then Some (String.eqb x) else None
           | _ => None
           end.

(** A PayPal 503 that is not a repeated capture. *)
Definition unavailable_error : PayPalError :=
  mkPayPalError (Some 503) None None (Some "Service Unavailable").

(** PayPal is down when the capture is attempted. *)
Definition env_unavailable : CaptureEnv :=
  capture_env (Fails unavailable_error) (Returns ok_order1) None.

(** PayPal is not configured. *)
Definition env_unconfigured : CaptureEnv :=
  mkCaptureEnv false (Returns ok_order1) (Returns ok_order1) None (now0 + MINUTE) (fun s => s).

(** A create-order request for 2026-10-20 10:00 whose PayPal order fails. *)
Definition create_fail : Response * Store * option OrderRequest :=
  run_create user1 (booking_req "2026-10-20" user1 "10:00" 30 None None)
    (mkCreateEnv true now0 0 id1 "https://app.example" (Fails unavailable_error)) [].

(** A create-order environment on a server at UTC+05:30. *)
Definition create_env_ist (id oid : string) : CreateEnv :=
  mkCreateEnv true now0 (5 * HOUR + 30 * MINUTE) id "https://app.example"
    (Returns (paypal_order oid "PAYER_ACTION_REQUIRED")).

(** A create-order request for 2026-10-20 10:00 on that server. *)
Definition create_ist : Response * Store * option OrderRequest :=
  run_create user1 (booking_req "2026-10-20" user1 "10:00" 30 None None)
    (create_env_ist id1 "ORD1") [].

(** The [/book] world: the schema defaults pending, no payment info. *)
Definition book_env1 : BookEnv := mkBookEnv now0 0 id2 Pay_pending None.

(** A [/book] request of [user2] for 2026-10-20 11:00 next to [hold1]. *)
Definition book_1100 : Response * Store :=
  run_book user2 (booking_req "2026-10-20" user2 "11:00" 30 None None) book_env1 [hold1].

(** The caller's pending appointments, ten per page. *)
Definition my_pending : Response * Store :=
  run_my_appointments user1 (Some (QStr "pending")) (Some (QStr "10")) None [hold1].

(** ** Facts about the store *)

Lemma find_app_some_pred (p : Appointment -> bool) (s : Store) (a : Appointment) :
  find p s = Some a -> In a s /\ p a = true.
Proof.
  intro H. apply find_some in H. exact H.
Qed.

Lemma find_weaken (p q : Appointment -> bool) (s : Store) (a : Appointment) :
  find p s = Some a -> (forall x, p x = true -> q x = true) ->
  exists b, find q s = Some b.
Proof.
  induction s as [|r s IH]; simpl; intros Hf Hpq; [discriminate|].
  destruct (p r) eqn:Hp.
  - rewrite (Hpq r Hp). eauto.
  - destruct (q r); eauto.
Qed.

Lemma capture_lookup_id uid aid oid a :
  capture_lookup uid aid oid a = true -> appt_id a = aid.
Proof.
  unfold capture_lookup. intro H.
  apply andb_prop in H as [H _]. apply andb_prop in H as [H _].
  now apply String.eqb_eq.
Qed.

Lemma findById_of_lookup s uid aid oid a :
  find (capture_lookup uid aid oid) s = Some a ->
  exists r, findById s aid = Some r.
Proof.
  intro H. unfold findById. apply (find_weaken _ _ _ _ H).
  intros x Hx. apply String.eqb_eq. now apply capture_lookup_id in Hx.
Qed.

(** With unique [_id]s, the row a query finds is the row [findById] finds. *)
Lemma findById_unique s a :
  NoDup (map appt_id s) -> In a s -> findById s (appt_id a) = Some a.
Proof.
  induction s as [|r s IH]; simpl; intros Hnd Hin; [contradiction|].
  inversion Hnd as [|? ? Hnotin Hnd']; subst.
  destruct Hin as [<-|Hin].
  - now rewrite String.eqb_refl.
  - destruct (String.eqb (appt_id r) (appt_id a)) eqn:E.
    + apply String.eqb_eq in E. exfalso. apply Hnotin. rewrite E.
      now apply in_map.
    + now apply IH.
Qed.

Lemma findById_replace s a :
  (exists r, findById s (appt_id a) = Some r) ->
  findById (replace_by_id a s) (appt_id a) = Some a.
Proof.
  unfold findById, replace_by_id.
  induction s as [|r s IH]; cbn [find map]; intros [x Hx]; [discriminate|].
  destruct (String.eqb (appt_id r) (appt_id a)) eqn:E; cbn [find].
  - now rewrite String.eqb_refl.
  - rewrite E. apply IH. eauto.
Qed.

(** After [save a], a query that only matches rows with [a]'s [_id] and that
    matches [a] finds [a]. *)
Lemma find_replace_same (p : Appointment -> bool) s a :
  (forall x, p x = true -> appt_id x = appt_id a) -> p a = true ->
  (exists r, findById s (appt_id a) = Some r) ->
  find p (replace_by_id a s) = Some a.
Proof.
  unfold findById, replace_by_id. intros Hp Ha.
  induction s as [|r s IH]; cbn [find map]; intros [x Hx]; [discriminate|].
  destruct (String.eqb (appt_id r) (appt_id a)) eqn:E; cbn [find].
  - now rewrite Ha.
  - destruct (p r) eqn:Hpr.
    + apply Hp in Hpr. rewrite Hpr, String.eqb_refl in E. discriminate.
    + apply IH. eauto.
Qed.

Lemma save_existing a s :
  (exists r, findById s (appt_id a) = Some r) ->
  save a s = (Ok tt, replace_by_id a s).
Proof.
  intros [r Hr]. unfold save. now rewrite Hr.
Qed.

Lemma truthy_some (x : string) : x <> "" -> truthy_str (Some x) = true.
Proof.
  intro H. simpl. destruct (String.eqb x "") eqn:E; [|reflexivity].
  apply String.eqb_eq in E. contradiction.
Qed.

Lemma or_else_some (x d : string) : x <> "" -> or_else (Some x) d = x.
Proof.
  intro H. simpl. destruct (String.eqb x "") eqn:E; [|reflexivity].
  apply String.eqb_eq in E. contradiction.
Qed.

Lemma expired_pending_spec now a :
  expired_pending now a = true <->
  status a = St_pending /\ paymentStatus a = Pay_pending
  /\ createdAt a < now - 15 * 60 * 1000.
Proof.
  unfold expired_pending.
  destruct (status a), (paymentStatus a); simpl;
    rewrite ?Z.ltb_lt; split; intuition congruence.
Qed.

(** ** Claims *)

(** C6: the cleanup sweep deletes exactly the rows with status pending,
    paymentStatus pending and [createdAt] more than 15 minutes before now;
    every other row (confirmed, paymentStatus failed, or younger than
    15 minutes) stays as it is, and the response carries the number of
    rows deleted. *)
Theorem cleanup_pending_deletes_exactly_expired (now : Z) (s : Store) :
  exists s',
    cleanup_pending now s =
      (Res 200 (JObj [("success", JBool true);
                      ("deletedCount",
                       JNum (Z.of_nat (List.length (filter (expired_pending now) s))))]),
       s')
    /\ (forall a, In a s' <->
          In a s /\ ~ (status a = St_pending /\ paymentStatus a = Pay_pending
                       /\ createdAt a < now - 15 * 60 * 1000))
    /\ s' = filter (fun a => negb (expired_pending now a)) s.
Proof.
  exists (filter (fun a => negb (expired_pending now a)) s).
  split; [reflexivity|]. split; [|reflexivity].
  intro a. rewrite filter_In, <- expired_pending_spec.
  destruct (expired_pending now a); simpl; intuition congruence.
Qed.

(** The request fields of a capture-order request naming [oid] and [aid]. *)
Lemma capture_order_unfold u req env s oid aid :
  c_orderId req = Some oid -> c_appointmentId req = Some aid ->
  oid <> "" -> aid <> "" ->
  capture_order u req env s =
  catch
    (found <-- find_one (capture_lookup (auth_userId u) aid oid) ;;
     match found with
     | None => ret (Res 404 (JObj [("error", JStr "Appointment not found or order ID mismatch");
                                   ("code", JStr "APPOINTMENT_NOT_FOUND")]))
     | Some appointment =>
       if is_completed appointment then
         rfr <-- find_by_id aid ;;
         refreshedAppointment <-- deref rfr ;;
         ret (Res 200 (success_json "Payment already completed" refreshedAppointment))
       else
         (if paypal_configured env then ret tt else throw ConfigErr) ;;;
         catch (capture_attempt env req oid aid appointment)
           (fun error =>
              if isOrderAlreadyCaptured error
              then already_captured env req oid aid appointment error
              else ret (general_error error))
     end)
    (fun _ => ret (Res 500 (JObj [("error", JStr "Failed to process payment capture");
                                  ("code", JStr "CAPTURE_ERROR")]))) s.
Proof.
  intros Ho Ha Hon Han. unfold capture_order. rewrite Ho, Ha.
  rewrite (truthy_some oid Hon), (truthy_some aid Han).
  rewrite (or_else_some oid "" Hon), (or_else_some aid "" Han).
  reflexivity.
Qed.

Lemma run_capture_already_completed u req env s oid aid a :
  c_orderId req = Some oid -> c_appointmentId req = Some aid ->
  oid <> "" -> aid <> "" ->
  find (capture_lookup (auth_userId u) aid oid) s = Some a ->
  paymentStatus a = Pay_completed ->
  exists r, findById s aid = Some r /\
    run_capture u req env s = (Res 200 (success_json "Payment already completed" r), s).
Proof.
  intros Ho Ha Hon Han Hf Hc.
  destruct (findById_of_lookup _ _ _ _ _ Hf) as [r Hr].
  exists r. split; [exact Hr|].
  unfold run_capture. rewrite (capture_order_unfold u req env s oid aid Ho Ha Hon Han).
  unfold catch, bind, find_one. rewrite Hf.
  unfold is_completed. rewrite Hc. cbn [payment_status_eqb].
  unfold find_by_id. rewrite Hr. reflexivity.
Qed.

Lemma attach_meet_id m a : appt_id (attach_meet m a) = appt_id a.
Proof. attach_meet_cases. Qed.
Lemma attach_meet_userId m a : userId (attach_meet m a) = userId a.
Proof. attach_meet_cases. Qed.
Lemma attach_meet_status m a : status (attach_meet m a) = status a.
Proof. attach_meet_cases. Qed.
Lemma attach_meet_paymentStatus m a :
  paymentStatus (attach_meet m a) = paymentStatus a.
Proof. attach_meet_cases. Qed.
Lemma attach_meet_paymentInfo m a :
  paymentInfo (attach_meet m a) = paymentInfo a.
Proof. attach_meet_cases. Qed.

(** A throwing [createGoogleMeetEvent] leaves the document as it is. *)
Lemma attach_meet_none a : attach_meet None a = a.
Proof. unfold attach_meet. now destruct (truthy_str (googleMeetLink a)). Qed.

Lemma confirmed_doc_id env oid req o a :
  appt_id (confirmed_doc env oid req o a) = appt_id a.
Proof. unfold confirmed_doc. now rewrite attach_meet_id. Qed.

Lemma confirmed_doc_completed env oid req o a :
  status (confirmed_doc env oid req o a) = St_confirmed /\
  paymentStatus (confirmed_doc env oid req o a) = Pay_completed.
Proof.
  unfold confirmed_doc. now rewrite attach_meet_status, attach_meet_paymentStatus.
Qed.

Lemma confirmed_doc_lookup env oid req o a uid aid :
  capture_lookup uid aid oid a = true ->
  capture_lookup uid aid oid (confirmed_doc env oid req o a) = true.
Proof.
  unfold capture_lookup, confirmed_doc, order_id_of.
  rewrite attach_meet_id, attach_meet_userId, attach_meet_paymentInfo.
  cbn [appt_id userId paymentInfo confirm_from_order paypalOrderId opt_str_eqb].
  rewrite String.eqb_refl, andb_true_r. intro H.
  now apply andb_prop in H as [H _].
Qed.

Lemma updateAppointmentFromOrder_completed env oid req o a s :
  o_status o = "COMPLETED" ->
  (exists r, findById s (appt_id a) = Some r) ->
  updateAppointmentFromOrder env oid req o a s =
    (Ok true, replace_by_id (confirmed_doc env oid req o a) s).
Proof.
  intros Hst Hex. unfold updateAppointmentFromOrder. rewrite Hst. cbn -[save].
  unfold bind. rewrite save_existing; [reflexivity|].
  fold (confirmed_doc env oid req o a). now rewrite confirmed_doc_id.
Qed.

Lemma updateAppointmentFromOrder_other env oid req o a s :
  o_status o <> "COMPLETED" ->
  updateAppointmentFromOrder env oid req o a s = (Ok false, s).
Proof.
  intro Hst. unfold updateAppointmentFromOrder.
  destruct (String.eqb (o_status o) "COMPLETED") eqn:E.
  - apply String.eqb_eq in E. contradiction.
  - reflexivity.
Qed.

Lemma not_completed a : paymentStatus a <> Pay_completed -> is_completed a = false.
Proof. intro H. unfold is_completed. destruct (paymentStatus a); simpl; congruence. Qed.

(** The first capture of a pending reservation that PayPal reports
    COMPLETED: the confirmed document is saved and returned. *)
Lemma run_capture_direct_completed u req env s oid aid a o :
  c_orderId req = Some oid -> c_appointmentId req = Some aid ->
  oid <> "" -> aid <> "" ->
  find (capture_lookup (auth_userId u) aid oid) s = Some a ->
  paymentStatus a <> Pay_completed ->
  paypal_configured env = true ->
  captureOrder env = Returns o -> o_status o = "COMPLETED" ->
  (exists r, findById (between env s) aid = Some r) ->
  run_capture u req env s =
    (Res 200 (success_json "Payment completed successfully"
                (confirmed_doc env oid req o a)),
     replace_by_id (confirmed_doc env oid req o a) (between env s)).
Proof.
  intros Ho Ha Hon Han Hf Hc Hcfg Hcap Hst Hex.
  assert (Hid : appt_id a = aid)
    by (apply find_some in Hf as [_ Hf]; now apply capture_lookup_id in Hf).
  unfold run_capture. rewrite (capture_order_unfold u req env s oid aid Ho Ha Hon Han).
  unfold catch at 1, bind at 1, find_one. rewrite Hf.
  rewrite (not_completed a Hc), Hcfg.
  unfold capture_attempt, catch, bind, ret, call. rewrite Hcap, Hst.
  cbn [String.eqb Ascii.eqb Bool.eqb].
  rewrite updateAppointmentFromOrder_completed by (rewrite ?Hid; assumption).
  assert (Hfb : findById (replace_by_id (confirmed_doc env oid req o a) (between env s)) aid
                = Some (confirmed_doc env oid req o a)).
  { rewrite <- Hid, <- (confirmed_doc_id env oid req o a).
    apply findById_replace. rewrite confirmed_doc_id, Hid. exact Hex. }
  unfold find_by_id. rewrite Hfb. reflexivity.
Qed.

(** C1: capture-order is idempotent on re-entry.  When the reservation
    found for the request already has paymentStatus completed, the handler
    answers with the stored row (status, paymentStatus, Meet link) and
    writes nothing, whatever PayPal would do; and after a first capture that
    confirmed the reservation, a second request with the same orderId leaves
    the collection as the first left it and returns the same appointment. *)
Theorem capture_order_idempotent_reentry :
  (forall u req env s oid aid a,
     c_orderId req = Some oid -> c_appointmentId req = Some aid ->
     oid <> "" -> aid <> "" ->
     find (capture_lookup (auth_userId u) aid oid) s = Some a ->
     paymentStatus a = Pay_completed ->
     exists r, findById s aid = Some r /\
       run_capture u req env s =
         (Res 200 (success_json "Payment already completed" r), s))
  /\
  (forall u req env1 env2 s oid aid a o,
     c_orderId req = Some oid -> c_appointmentId req = Some aid ->
     oid <> "" -> aid <> "" ->
     find (capture_lookup (auth_userId u) aid oid) s = Some a ->
     paymentStatus a <> Pay_completed ->
     paypal_configured env1 = true -> (forall st, between env1 st = st) ->
     captureOrder env1 = Returns o -> o_status o = "COMPLETED" ->
     let (r1, s1) := run_capture u req env1 s in
     let (r2, s2) := run_capture u req env2 s1 in
     s2 = s1 /\ res_code r1 = 200 /\ res_code r2 = 200
     /\ jget "appointment" (res_body r2) = jget "appointment" (res_body r1)
     /\ exists a1, findById s1 aid = Some a1
                   /\ status a1 = St_confirmed /\ paymentStatus a1 = Pay_completed
                   /\ jget "appointment" (res_body r1) = Some (appointment_view a1)).
Proof.
  split.
  - exact run_capture_already_completed.
  - intros u req env1 env2 s oid aid a o Ho Ha Hon Han Hf Hc Hcfg Hb Hcap Hst.
    assert (Hid : appt_id a = aid)
      by (apply find_some in Hf as [_ Hf']; now apply capture_lookup_id in Hf').
    assert (Hlk : capture_lookup (auth_userId u) aid oid a = true)
      by (now apply find_some in Hf as [_ Hf']).
    rewrite (run_capture_direct_completed u req env1 s oid aid a o Ho Ha Hon Han Hf Hc
               Hcfg Hcap Hst) by (rewrite Hb; eapply findById_of_lookup; exact Hf).
    rewrite Hb.
    set (a1 := confirmed_doc env1 oid req o a).
    assert (Hex : exists r, findById s (appt_id a1) = Some r)
      by (unfold a1; rewrite confirmed_doc_id, Hid; eapply findById_of_lookup; exact Hf).
    assert (Hf1 : find (capture_lookup (auth_userId u) aid oid) (replace_by_id a1 s) = Some a1).
    { apply find_replace_same; [| |exact Hex].
      - intros x Hx. apply capture_lookup_id in Hx. unfold a1.
        now rewrite confirmed_doc_id, Hid.
      - now apply confirmed_doc_lookup. }
    destruct (confirmed_doc_completed env1 oid req o a) as [Hs1 Hp1].
    fold a1 in Hs1, Hp1.
    destruct (run_capture_already_completed u req env2 (replace_by_id a1 s) oid aid a1
                Ho Ha Hon Han Hf1 Hp1) as [r [Hr Hrun]].
    rewrite Hrun.
    assert (Hr1 : findById (replace_by_id a1 s) aid = Some a1).
    { assert (Ha1 : appt_id a1 = aid) by (unfold a1; now rewrite confirmed_doc_id).
      rewrite <- Ha1. now apply findById_replace. }
    rewrite Hr in Hr1. injection Hr1 as ->.
    split; [reflexivity|]. split; [reflexivity|]. split; [reflexivity|].
    split; [reflexivity|].
    exists a1. repeat split; try assumption.
Qed.

(** A rejected [captureOrder] recognised as ORDER_ALREADY_CAPTURED hands
    the request to the reconciliation of lines 442-535. *)
Lemma run_capture_already_captured_path u req env s oid aid a e :
  c_orderId req = Some oid -> c_appointmentId req = Some aid ->
  oid <> "" -> aid <> "" ->
  find (capture_lookup (auth_userId u) aid oid) s = Some a ->
  paymentStatus a <> Pay_completed ->
  paypal_configured env = true ->
  captureOrder env = Fails e ->
  isOrderAlreadyCaptured (ProviderErr e) = true ->
  run_capture u req env s =
    run_result (already_captured env req oid aid a (ProviderErr e) (between env s)).
Proof.
  intros Ho Ha Hon Han Hf Hc Hcfg Hcap Hac.
  unfold run_capture. rewrite (capture_order_unfold u req env s oid aid Ho Ha Hon Han).
  unfold catch at 1, bind at 1, find_one. rewrite Hf.
  rewrite (not_completed a Hc), Hcfg.
  unfold capture_attempt, catch, bind, ret, call. rewrite Hcap, Hac.
  unfold run_result.
  destruct (already_captured env req oid aid a (ProviderErr e) (between env s))
    as [[x|x] s'] eqn:E; reflexivity.
Qed.

Lemma already_captured_replay env req oid aid a a' err s o :
  getOrder env = Returns o -> o_status o = "COMPLETED" ->
  findById s aid = Some a' -> is_completed a' = false -> appt_id a' = aid ->
  already_captured env req oid aid a err s =
    (Ok (Res 200 (success_json "Payment was already completed"
                    (confirmed_doc env oid req o a'))),
     replace_by_id (confirmed_doc env oid req o a') s).
Proof.
  intros Hg Hst Hr Hc Hid.
  unfold already_captured, catch, bind, call, find_by_id. rewrite Hg, Hr, Hc.
  cbv beta iota.
  rewrite updateAppointmentFromOrder_completed by (rewrite ?Hid; eauto).
  assert (Hfb : findById (replace_by_id (confirmed_doc env oid req o a') s) aid
                = Some (confirmed_doc env oid req o a')).
  { rewrite <- Hid, <- (confirmed_doc_id env oid req o a').
    apply findById_replace. rewrite confirmed_doc_id, Hid. eauto. }
  rewrite Hfb. reflexivity.
Qed.

Lemma already_captured_race env req oid aid a err s r :
  findById s aid = Some r -> is_completed r = true ->
  already_captured env req oid aid a err s =
    (Ok (Res 200 (success_json "Payment already completed" r)), s).
Proof.
  intros Hr Hc.
  unfold already_captured, catch, bind, call, find_by_id.
  destruct (getOrder env); unfold deref, ret;
    repeat (first [rewrite Hr | rewrite Hc | progress (cbv beta iota zeta)]); reflexivity.
Qed.

(** C2: PayPal's ORDER_ALREADY_CAPTURED rejection is not reported as a
    failure.  When the fetched order is COMPLETED, the handler confirms the
    reservation and returns status 200 with the same appointment and leaves
    the same collection as a first-time capture of that order would (only
    the human-readable message differs); when a concurrent request has
    completed the reservation meanwhile, it returns that row as a re-entry
    does, whatever [getOrder] yields. *)
Theorem capture_already_captured_is_success :
  (forall u req env s oid aid a e o,
     c_orderId req = Some oid -> c_appointmentId req = Some aid ->
     oid <> "" -> aid <> "" ->
     NoDup (map appt_id s) ->
     find (capture_lookup (auth_userId u) aid oid) s = Some a ->
     paymentStatus a <> Pay_completed ->
     paypal_configured env = true -> (forall st, between env st = st) ->
     captureOrder env = Fails e -> isOrderAlreadyCaptured (ProviderErr e) = true ->
     getOrder env = Returns o -> o_status o = "COMPLETED" ->
     let env_first := mkCaptureEnv (paypal_configured env) (Returns o) (getOrder env)
                        (meetEvent env) (capture_now env) (between env) in
     exists a1 s1,
       run_capture u req env s =
         (Res 200 (success_json "Payment was already completed" a1), s1)
       /\ run_capture u req env_first s =
         (Res 200 (success_json "Payment completed successfully" a1), s1)
       /\ status a1 = St_confirmed /\ paymentStatus a1 = Pay_completed)
  /\
  (forall u req env s oid aid a e r,
     c_orderId req = Some oid -> c_appointmentId req = Some aid ->
     oid <> "" -> aid <> "" ->
     find (capture_lookup (auth_userId u) aid oid) s = Some a ->
     paymentStatus a <> Pay_completed ->
     paypal_configured env = true ->
     captureOrder env = Fails e -> isOrderAlreadyCaptured (ProviderErr e) = true ->
     findById (between env s) aid = Some r -> paymentStatus r = Pay_completed ->
     run_capture u req env s =
       (Res 200 (success_json "Payment already completed" r), between env s)).
Proof.
  split.
  - intros u req env s oid aid a e o Ho Ha Hon Han Hnd Hf Hc Hcfg Hb Hcap Hac Hg Hst.
    cbv zeta.
    assert (Hid : appt_id a = aid)
      by (apply find_some in Hf as [_ Hf']; now apply capture_lookup_id in Hf').
    assert (Hin : In a s) by (now apply find_some in Hf as [Hin _]).
    assert (Hr : findById s aid = Some a)
      by (rewrite <- Hid; now apply findById_unique).
    exists (confirmed_doc env oid req o a), (replace_by_id (confirmed_doc env oid req o a) s).
    split; [|split].
    + rewrite (run_capture_already_captured_path u req env s oid aid a e Ho Ha Hon Han Hf Hc
                 Hcfg Hcap Hac).
      rewrite Hb.
      rewrite (already_captured_replay env req oid aid a a (ProviderErr e) s o Hg Hst Hr
                 (not_completed a Hc) Hid).
      reflexivity.
    + set (env_first := mkCaptureEnv (paypal_configured env) (Returns o) (getOrder env)
                          (meetEvent env) (capture_now env) (between env)).
      rewrite (run_capture_direct_completed u req env_first s oid aid a o Ho Ha Hon Han Hf Hc
                 Hcfg eq_refl Hst).
      * unfold env_first. cbn [between]. rewrite Hb. reflexivity.
      * unfold env_first. cbn [between]. rewrite Hb. eauto.
    + apply confirmed_doc_completed.
  - intros u req env s oid aid a e r Ho Ha Hon Han Hf Hc Hcfg Hcap Hac Hr Hrc.
    rewrite (run_capture_already_captured_path u req env s oid aid a e Ho Ha Hon Han Hf Hc
               Hcfg Hcap Hac).
    rewrite (already_captured_race env req oid aid a (ProviderErr e) (between env s) r Hr).
    + reflexivity.
    + unfold is_completed. now rewrite Hrc.
Qed.

Lemma mark_failed_id a : appt_id (mark_failed a) = appt_id a.
Proof. reflexivity. Qed.

(** The first capture of a pending reservation that PayPal reports with
    another status: the reservation is marked failed. *)
Lemma run_capture_direct_other u req env s oid aid a o :
  c_orderId req = Some oid -> c_appointmentId req = Some aid ->
  oid <> "" -> aid <> "" ->
  find (capture_lookup (auth_userId u) aid oid) s = Some a ->
  paymentStatus a <> Pay_completed ->
  paypal_configured env = true ->
  captureOrder env = Returns o -> o_status o <> "COMPLETED" ->
  (exists r, findById (between env s) aid = Some r) ->
  run_capture u req env s =
    (Res 400 (not_completed_json (o_status o)),
     replace_by_id (mark_failed a) (between env s)).
Proof.
  intros Ho Ha Hon Han Hf Hc Hcfg Hcap Hst Hex.
  assert (Hid : appt_id a = aid)
    by (apply find_some in Hf as [_ Hf']; now apply capture_lookup_id in Hf').
  unfold run_capture. rewrite (capture_order_unfold u req env s oid aid Ho Ha Hon Han).
  unfold catch at 1, bind at 1, find_one. rewrite Hf.
  rewrite (not_completed a Hc), Hcfg.
  unfold capture_attempt, catch, bind, ret, call. rewrite Hcap.
  destruct (String.eqb (o_status o) "COMPLETED") eqn:E.
  - apply String.eqb_eq in E. contradiction.
  - rewrite save_existing by (rewrite mark_failed_id, Hid; exact Hex). reflexivity.
Qed.

Lemma already_captured_other env req oid aid a err s o r :
  getOrder env = Returns o -> o_status o <> "COMPLETED" ->
  findById s aid = Some r -> is_completed r = false ->
  already_captured env req oid aid a err s =
    (Ok (Res 400 (order_not_completed_json (o_status o))), s).
Proof.
  intros Hg Hst Hr Hc.
  unfold already_captured, catch, bind, call, find_by_id. rewrite Hg, Hr.
  cbv beta iota. rewrite Hc.
  rewrite updateAppointmentFromOrder_other by exact Hst. reflexivity.
Qed.

(** C4 (as amended): when [captureOrder] itself returns a status other
    than COMPLETED, the handler saves the reservation with paymentStatus
    failed (its status, pending, is kept) and answers 400
    PAYMENT_NOT_COMPLETED with the raw status; when the capture was
    rejected as already captured and the fetched order is not COMPLETED, it
    answers 400 PAYMENT_NOT_COMPLETED with the raw status under
    [orderStatus] and writes nothing.  On neither path does the status
    become confirmed. *)
Theorem capture_not_completed_paths :
  (forall u req env s oid aid a o,
     c_orderId req = Some oid -> c_appointmentId req = Some aid ->
     oid <> "" -> aid <> "" ->
     NoDup (map appt_id s) ->
     find (capture_lookup (auth_userId u) aid oid) s = Some a ->
     status a = St_pending -> paymentStatus a <> Pay_completed ->
     paypal_configured env = true -> (forall st, between env st = st) ->
     captureOrder env = Returns o -> o_status o <> "COMPLETED" ->
     exists s',
       run_capture u req env s = (Res 400 (not_completed_json (o_status o)), s')
       /\ exists a', findById s' aid = Some a'
                     /\ status a' = St_pending /\ paymentStatus a' = Pay_failed)
  /\
  (forall u req env s oid aid a e o,
     c_orderId req = Some oid -> c_appointmentId req = Some aid ->
     oid <> "" -> aid <> "" ->
     NoDup (map appt_id s) ->
     find (capture_lookup (auth_userId u) aid oid) s = Some a ->
     paymentStatus a <> Pay_completed ->
     paypal_configured env = true -> (forall st, between env st = st) ->
     captureOrder env = Fails e -> isOrderAlreadyCaptured (ProviderErr e) = true ->
     getOrder env = Returns o -> o_status o <> "COMPLETED" ->
     run_capture u req env s = (Res 400 (order_not_completed_json (o_status o)), s)).
Proof.
  split.
  - intros u req env s oid aid a o Ho Ha Hon Han Hnd Hf Hs Hc Hcfg Hb Hcap Hst.
    assert (Hid : appt_id a = aid)
      by (apply find_some in Hf as [_ Hf']; now apply capture_lookup_id in Hf').
    assert (Hr : findById s aid = Some a)
      by (rewrite <- Hid; apply findById_unique; [exact Hnd | now apply find_some in Hf]).
    exists (replace_by_id (mark_failed a) s). split.
    + rewrite (run_capture_direct_other u req env s oid aid a o Ho Ha Hon Han Hf Hc Hcfg
                 Hcap Hst); rewrite Hb; eauto.
    + exists (mark_failed a). split; [|split; [exact Hs|reflexivity]].
      rewrite <- Hid, <- (mark_failed_id a). apply findById_replace.
      rewrite mark_failed_id, Hid. eauto.
  - intros u req env s oid aid a e o Ho Ha Hon Han Hnd Hf Hc Hcfg Hb Hcap Hac Hg Hst.
    assert (Hid : appt_id a = aid)
      by (apply find_some in Hf as [_ Hf']; now apply capture_lookup_id in Hf').
    assert (Hr : findById s aid = Some a)
      by (rewrite <- Hid; apply findById_unique; [exact Hnd | now apply find_some in Hf]).
    rewrite (run_capture_already_captured_path u req env s oid aid a e Ho Ha Hon Han Hf Hc
               Hcfg Hcap Hac), Hb.
    rewrite (already_captured_other env req oid aid a (ProviderErr e) s o a Hg Hst Hr
               (not_completed a Hc)).
    reflexivity.
Qed.

Lemma confirmed_doc_no_meet env oid req o a :
  meetEvent env = None ->
  truthy_str (googleMeetLink a) = false ->
  or_null (googleMeetLink (confirmed_doc env oid req o a)) = JNull.
Proof.
  intros Hm Hl. unfold confirmed_doc. rewrite Hm, attach_meet_none.
  cbn [confirm_from_order googleMeetLink].
  destruct (googleMeetLink a) as [x|]; [|reflexivity].
  cbn in Hl |- *. destruct (String.eqb x ""); [reflexivity|discriminate].
Qed.

(** C9: a failing Meet-link provisioner never undoes or blocks the payment
    confirmation.  For a COMPLETED capture (first-time, or reconciled after
    ORDER_ALREADY_CAPTURED) of a reservation without a link, where
    [createGoogleMeetEvent] throws, the reservation is saved confirmed with
    paymentStatus completed and the response is a 200 success whose
    [googleMeetLink] is null. *)
Theorem capture_meet_failure_still_confirms :
  forall u req env s oid aid a,
    c_orderId req = Some oid -> c_appointmentId req = Some aid ->
    oid <> "" -> aid <> "" ->
    NoDup (map appt_id s) ->
    find (capture_lookup (auth_userId u) aid oid) s = Some a ->
    paymentStatus a <> Pay_completed ->
    paypal_configured env = true -> (forall st, between env st = st) ->
    meetEvent env = None -> truthy_str (googleMeetLink a) = false ->
    forall o, o_status o = "COMPLETED" ->
    (captureOrder env = Returns o
     \/ exists e, captureOrder env = Fails e
                  /\ isOrderAlreadyCaptured (ProviderErr e) = true
                  /\ getOrder env = Returns o) ->
    exists msg a1 s1,
      run_capture u req env s = (Res 200 (success_json msg a1), s1)
      /\ findById s1 aid = Some a1
      /\ status a1 = St_confirmed /\ paymentStatus a1 = Pay_completed
      /\ jget "googleMeetLink" (appointment_view a1) = Some JNull.
Proof.
  intros u req env s oid aid a Ho Ha Hon Han Hnd Hf Hc Hcfg Hb Hm Hl o Hst Hpath.
  assert (Hid : appt_id a = aid)
    by (apply find_some in Hf as [_ Hf']; now apply capture_lookup_id in Hf').
  assert (Hr : findById s aid = Some a)
    by (rewrite <- Hid; apply findById_unique; [exact Hnd | now apply find_some in Hf]).
  assert (Hfb : findById (replace_by_id (confirmed_doc env oid req o a) s) aid
                = Some (confirmed_doc env oid req o a)).
  { rewrite <- Hid, <- (confirmed_doc_id env oid req o a).
    apply findById_replace. rewrite confirmed_doc_id, Hid. eauto. }
  set (a1 := confirmed_doc env oid req o a) in *.
  destruct (confirmed_doc_completed env oid req o a) as [Hs1 Hp1].
  assert (Hnull : jget "googleMeetLink" (appointment_view a1) = Some JNull).
  { unfold a1. cbn [appointment_view jget]. cbv [find fst snd String.eqb Ascii.eqb Bool.eqb option_map].
    now rewrite confirmed_doc_no_meet. }
  destruct Hpath as [Hcap | [e [Hcap [Hac Hg]]]].
  - exists "Payment completed successfully", a1, (replace_by_id a1 s).
    split; [|split; [exact Hfb|split; [exact Hs1|split; [exact Hp1|exact Hnull]]]].
    rewrite (run_capture_direct_completed u req env s oid aid a o Ho Ha Hon Han Hf Hc Hcfg
               Hcap Hst); rewrite Hb; eauto.
  - exists "Payment was already completed", a1, (replace_by_id a1 s).
    split; [|split; [exact Hfb|split; [exact Hs1|split; [exact Hp1|exact Hnull]]]].
    rewrite (run_capture_already_captured_path u req env s oid aid a e Ho Ha Hon Han Hf Hc
               Hcfg Hcap Hac), Hb.
    rewrite (already_captured_replay env req oid aid a a (ProviderErr e) s o Hg Hst Hr
               (not_completed a Hc) Hid).
    reflexivity.
Qed.

(** ** The price of a booking *)

Lemma create_prepare_inl_code u req env s r s1 :
  create_prepare u req env s = (Ok (inl r), s1) -> res_code r <> 201.
Proof.
  unfold create_prepare, bind, ret, get_store, find_one, insert, err400.
  cbv beta zeta.
  repeat match goal with
  | |- context [if ?c then _ else _] => destruct c
  | |- context [match ?x with _ => _ end] => destruct x
  end; intro H; inversion H; subst; cbn; discriminate.
Qed.

Lemma create_finish_201 env a body s r s2 :
  create_finish env a body s = (Ok r, s2) -> res_code r = 201 ->
  jget "amount" (res_body r) = Some (JStr "150.00")
  /\ jget "currency" (res_body r) = Some (JStr "USD").
Proof.
  unfold create_finish, bind, ret, call, save.
  destruct (createOrder env) as [o|e]; [|intro H; discriminate H].
  destruct (findById s (appt_id (with_order_id (o_id o) a))); [|intro H; discriminate H].
  destruct (approval_url o); intro H; inversion H; subst; cbn; [split; reflexivity|discriminate].
Qed.

Lemma createOrderRequestBody_amounts aid d ru cu :
  Forall (fun m => m = mkMoney "USD" "150.00")
         (order_amounts (createOrderRequestBody aid d ru cu)).
Proof. repeat constructor. Qed.

(** C10: the amount is the constant 150.00 USD whatever price or duration
    the client sends.  Every amount in the order request that create-order
    sends to PayPal is 150.00 USD, a 201 create-order response reports
    amount 150.00 and currency USD, and the document a COMPLETED capture
    saves carries paymentInfo amount 150.00 and currency USD, whatever
    paymentInfo the reservation had before. *)
Theorem create_order_amount_fixed :
  (forall u req env s r s' ob,
     run_create u req env s = (r, s', ob) ->
     (forall body, ob = Some body ->
        Forall (fun m => m = mkMoney "USD" "150.00") (order_amounts body))
     /\ (res_code r = 201 ->
         jget "amount" (res_body r) = Some (JStr "150.00")
         /\ jget "currency" (res_body r) = Some (JStr "USD")))
  /\
  (forall env oid req o a,
     exists pi, paymentInfo (confirmed_doc env oid req o a) = Some pi
                /\ amount pi = "150.00" /\ currency pi = "USD").
Proof.
  split.
  - intros u req env s r s' ob H. unfold run_create in H.
    destruct (create_prepare u req env s) as [[[r0|ap]|e] s1] eqn:Hp.
    + inversion H; subst. split; [intros body Hb; discriminate Hb|].
      intro Hc. exfalso. eapply create_prepare_inl_code; eassumption.
    + cbv zeta in H.
      destruct (create_finish env ap _ s1) as [[r1|e] s2] eqn:Hf;
        inversion H; subst; clear H.
      * split; [intros body Hb; inversion Hb; subst; apply createOrderRequestBody_amounts|].
        eapply create_finish_201; eassumption.
      * split; [intros body Hb; inversion Hb; subst; apply createOrderRequestBody_amounts|].
        destruct e; cbn; intro Hc; discriminate Hc.
    + inversion H; subst. split; [intros body Hb; discriminate Hb|].
      destruct e; cbn; intro Hc; discriminate Hc.
  - intros env oid req o a. unfold confirmed_doc. rewrite attach_meet_paymentInfo.
    eexists. split; [reflexivity|split; reflexivity].
Qed.

(** ** Deleting a reservation *)

Lemma remove_first_some p s x s' :
  remove_first p s = (Some x, s') ->
  exists l1 l2, s = (l1 ++ x :: l2)%list /\ s' = (l1 ++ l2)%list /\ p x = true.
Proof.
  revert s'. induction s as [|r s IH]; intros s' H; cbn in H; [discriminate H|].
  destruct (p r) eqn:Hp.
  - injection H as <- <-. exists [], s. auto.
  - destruct (remove_first p s) as [y t] eqn:Hr. injection H as -> <-.
    destruct (IH t eq_refl) as (l1 & l2 & -> & -> & Hx).
    exists (r :: l1), l2. auto.
Qed.

Lemma remove_first_find_some p s a :
  find p s = Some a -> exists s', remove_first p s = (Some a, s').
Proof.
  induction s as [|r s IH]; cbn; intro H; [discriminate H|].
  destruct (p r).
  - inversion H; subst. eauto.
  - destruct (IH H) as [s' Hs']. rewrite Hs'. eauto.
Qed.

Lemma findById_none l id :
  (forall r, In r l -> appt_id r <> id) -> findById l id = None.
Proof.
  unfold findById. induction l as [|r l IH]; cbn; intro H; [reflexivity|].
  destruct (String.eqb (appt_id r) id) eqn:E.
  - apply String.eqb_eq in E. exfalso. exact (H r (or_introl eq_refl) E).
  - apply IH. intros r' Hr'. apply H. now right.
Qed.

Lemma findById_removed l1 l2 x :
  NoDup (map appt_id (l1 ++ x :: l2)%list) -> findById (l1 ++ l2)%list (appt_id x) = None.
Proof.
  intro Hnd. apply findById_none. intros r Hr E.
  rewrite map_app in Hnd. cbn in Hnd. apply NoDup_remove_2 in Hnd.
  apply Hnd. rewrite <- map_app, <- E. now apply in_map.
Qed.

Lemma is_object_id_nonempty aid : is_object_id aid = true -> String.eqb aid "" = false.
Proof.
  intro H. destruct (String.eqb aid "") eqn:E; [|reflexivity].
  apply String.eqb_eq in E. subst. discriminate H.
Qed.

Lemma by_id_user_id aid uid a : by_id_user aid uid a = true -> appt_id a = aid.
Proof. unfold by_id_user. intro H. apply andb_prop in H as [H _]. now apply String.eqb_eq. Qed.

Lemma not_cancelled_eqb a : status a <> St_cancelled -> status_eqb (status a) St_cancelled = false.
Proof. destruct (status a); cbn; congruence. Qed.

(** ** Dates before today *)

Lemma dfc_day y m d : days_from_civil y m d = days_from_civil y m 1 + d - 1.
Proof. unfold days_from_civil. cbv zeta. lia. Qed.

Lemma in_Z_range (z : Z) (n : nat) :
  0 <= z < Z.of_nat n -> In z (map Z.of_nat (seq 0 n)).
Proof.
  intro H. apply in_map_iff. exists (Z.to_nat z). split; [lia|].
  apply in_seq. lia.
Qed.

(** Every day of the years 1900..1999 is before 2000-01-01 (day 10957). *)
Lemma dfc_1900s y m d : 0 <= y <= 99 -> 1 <= m <= 12 -> d <= 31 ->
  days_from_civil (1900 + y) m d < 10957.
Proof.
  intros Hy Hm Hd. rewrite dfc_day.
  assert (Hall : forallb (fun y => forallb (fun m => days_from_civil (1900 + y) (m + 1) 1 <=? 10926)
                                           (map Z.of_nat (seq 0 12)))
                         (map Z.of_nat (seq 0 100)) = true) by (vm_compute; reflexivity).
  rewrite forallb_forall in Hall.
  specialize (Hall y (in_Z_range y 100 ltac:(lia))).
  rewrite forallb_forall in Hall.
  specialize (Hall (m - 1) (in_Z_range (m - 1) 12 ltac:(lia))).
  replace (m - 1 + 1) with m in Hall by lia.
  apply Z.leb_le in Hall. lia.
Qed.

Lemma days_in_month_le y m : days_in_month y m <= 31.
Proof.
  unfold days_in_month.
  destruct (m =? 2); [destruct (is_leap y); lia|].
  destruct ((m =? 4) || (m =? 6) || (m =? 9) || (m =? 11)); lia.
Qed.

Lemma local_date_ms_valid off y m d :
  1 <= m <= 12 ->
  local_date_ms off y m d
  = days_from_civil (if (0 <=? y) && (y <=? 99) then 1900 + y else y) m d * DAY - off.
Proof.
  intro Hm. unfold local_date_ms. cbv zeta.
  replace ((m - 1) / 12) with 0 by (symmetry; apply Z.div_small; lia).
  replace ((m - 1) mod 12 + 1) with m by (rewrite Z.mod_small; lia).
  rewrite Z.add_0_r, (dfc_day _ m d). reflexivity.
Qed.

Lemma iso_date_ms_valid y m d :
  valid_date y m d -> iso_date_ms y m d = Some (days_from_civil y m d * DAY).
Proof.
  intros [Hm Hd]. pose proof (days_in_month_le y m).
  unfold iso_date_ms. rewrite (dfc_day y m d).
  replace ((1 <=? m) && (m <=? 12) && (1 <=? d) && (d <=? 31)) with true
    by (symmetry; repeat rewrite andb_true_iff; rewrite !Z.leb_le; lia).
  reflexivity.
Qed.

Lemma parse_ymd_nonempty ds ymd : parse_ymd ds = Some ymd -> String.eqb ds "" = false.
Proof.
  intro H. destruct (String.eqb ds "") eqn:E; [|reflexivity].
  apply String.eqb_eq in E. subst. discriminate H.
Qed.

Lemma parse_hhmm_nonempty ts hm : parse_hhmm ts = Some hm -> ts <> "".
Proof. intros H E. subst. discriminate H. Qed.

(** C8: a date strictly before the server's local today is refused by both
    routes.  For a well-formed YYYY-MM-DD string naming a calendar day
    before the local day of [now] (server offset under a day, clock past
    2000-01-02), GET /available answers 400 PAST_DATE, and a create-order
    request for that date that passes the earlier field, format and
    business-hours checks answers 400 PAST_DATE, leaves the collection
    unchanged and sends no order to PayPal. *)
Theorem past_date_rejected :
  forall ds y m d now off,
    parse_ymd ds = Some (y, m, d) -> valid_date y m d ->
    days_from_civil y m d < local_day off now ->
    - DAY < off < DAY -> 10958 * DAY <= now ->
    (forall s, get_available (Some ds) now off s
               = err400 "Cannot check availability for past dates" "PAST_DATE")
    /\
    (forall u req env s ts h mi,
       cfg_ok env = true -> create_now env = now -> tzOffset env = off ->
       cr_date req = Some ds -> cr_time req = Some ts ->
       truthy_str (cr_userEmail req) = true -> truthy_str (cr_userName req) = true ->
       parse_hhmm ts = Some (h, mi) ->
       9 * 60 <= h * 60 + mi <= 17 * 60 + 30 -> mi mod 30 = 0 ->
       run_create u req env s
       = (err400 "Cannot book appointments for past dates" "PAST_DATE", s, None)).
Proof.
  intros ds y m d now off Hp Hv Hpast Hoff Hnow.
  pose proof Hv as [Hm Hd]. pose proof (days_in_month_le y m).
  assert (HT : 10957 <= local_day off now)
    by (unfold local_day; apply Z.div_le_lower_bound; unfold DAY in *; lia).
  unfold local_day in Hpast, HT. set (T := (now + off) / DAY) in *.
  split.
  - intro s. unfold get_available. rewrite (parse_ymd_nonempty ds _ Hp), Hp.
    rewrite (iso_date_ms_valid y m d Hv).
    unfold local_today_ms. fold T.
    replace (days_from_civil y m d * DAY <? T * DAY - off) with true
      by (symmetry; apply Z.ltb_lt; unfold DAY in *; nia).
    reflexivity.
  - intros u req env s ts h mi Hcfg Hn Ho Hds Hts He Hnm Hh Hb Hmod.
    assert (Hpast' : local_date_ms off y m d < local_today_ms off now).
    { rewrite local_date_ms_valid by lia. unfold local_today_ms. fold T.
      destruct ((0 <=? y) && (y <=? 99)) eqn:Hy.
      - apply andb_true_iff in Hy as [Hy1 Hy2]. apply Z.leb_le in Hy1, Hy2.
        pose proof (dfc_1900s y m d ltac:(lia) Hm ltac:(lia)). unfold DAY in *. nia.
      - unfold DAY in *. nia. }
    assert (Hprep : create_prepare u req env s
                    = (Ok (inl (err400 "Cannot book appointments for past dates" "PAST_DATE")), s)).
    { unfold create_prepare. rewrite Hcfg. cbv beta iota zeta delta [negb].
      rewrite Hds, Hts, He, Hnm, (truthy_some ds), (truthy_some ts)
        by (try apply (parse_hhmm_nonempty ts _ Hh);
            intro E; rewrite E in Hp; discriminate Hp).
      cbv beta iota delta [negb andb].
      rewrite (or_else_some ds) by (intro E; rewrite E in Hp; discriminate Hp).
      rewrite (or_else_some ts) by exact (parse_hhmm_nonempty ts _ Hh).
      rewrite Hp, Hh, Ho, Hn.
      rewrite Hmod.
      replace (h * 60 + mi <? 9 * 60) with false by (symmetry; apply Z.ltb_ge; lia).
      replace (17 * 60 + 30 <? h * 60 + mi) with false by (symmetry; apply Z.ltb_ge; lia).
      cbv beta iota delta [orb Z.eqb].
      replace (local_date_ms off y m d <? local_today_ms off now) with true
        by (symmetry; now apply Z.ltb_lt).
      reflexivity. }
    unfold run_create. rewrite Hprep. reflexivity.
Qed.

(** ** Concrete runs *)

(** C4 counterexample: on the ORDER_ALREADY_CAPTURED path a fetched order
    that is not COMPLETED (here APPROVED) is answered 400
    PAYMENT_NOT_COMPLETED with the raw status under [orderStatus], not
    [status], and the reservation is not written: it stays pending with
    paymentStatus pending, not failed. *)
Lemma capture_already_captured_not_completed_keeps_pending :
  let s := [pending_hold id1 "u1" "10:00" now0 "ORD1"] in
  let env := capture_env (Fails already_captured_error)
                         (Returns (paypal_order "ORD1" "APPROVED")) None in
  let '(r, s') := run_capture user1 (capture_req "ORD1" id1) env s in
  res_code r = 400
  /\ jget "code" (res_body r) = Some (JStr "PAYMENT_NOT_COMPLETED")
  /\ jget "orderStatus" (res_body r) = Some (JStr "APPROVED")
  /\ jget "status" (res_body r) = None
  /\ s' = s
  /\ option_map paymentStatus (findById s' id1) = Some Pay_pending.
Proof. vm_compute. repeat split. Qed.

(** C3: GET /available blocks a slot for any pending row at that time,
    whatever its age or payment status, while create-order's own check
    lets a pending/pending hold older than 15 minutes through.  With one
    pending/pending hold at 2026-10-20 10:00 created 20 minutes before
    [now0] (an expired hold, which the sweeper would delete and which
    create-order's conflict query does not match), the availability of
    2026-10-20 reports 10:00 unavailable and 17 of 18 slots free. *)
Theorem availability_blocks_expired_hold :
  let hold := pending_hold id1 "u2" "10:00" (now0 - 20 * MINUTE) "ORD2" in
  expired_pending now0 hold = true
  /\ first_conflict [hold] (slot_query day0 (day0 + DAY - 1) (now0 - 15 * 60 * 1000))
                    ["10:00"] = None
  /\ slot_available [hold] day0 "10:00" = false
  /\ res_code (get_available (Some "2026-10-20") now0 0 [hold]) = 200
  /\ jget "availableCount" (res_body (get_available (Some "2026-10-20") now0 0 [hold]))
     = Some (JNum 17).
Proof. vm_compute. repeat split. Qed.

(** C5: create-order's conflict check compares the requested slots with
    the [time] of existing reservations only, never with their
    [bookedSlots].  User u2 books 2026-10-20 10:00 for 60 minutes with
    slots 10:00 and 10:30 and pays; user u1 then books 10:30 on the same
    day and is answered 201: the collection holds a confirmed reservation
    covering 10:30 and a new live hold at 10:30. *)
Theorem create_ignores_booked_slots :
  let '(r1, s1, _) := run_create user2 (booking_req "2026-10-20" user2 "10:00" 60 None (Some ["10:00"; "10:30"]))
                                 (create_env id2 "ORD2") [] in
  let '(r2, s2) := run_capture user2 (capture_req "ORD2" id2)
                     (capture_env (Returns (paypal_order "ORD2" "COMPLETED"))
                                  (Returns (paypal_order "ORD2" "COMPLETED")) None) s1 in
  let '(r3, s3, _) := run_create user1 (booking_req "2026-10-20" user1 "10:30" 30 None None)
                                 (create_env id1 "ORD1") s2 in
  res_code r1 = 201 /\ res_code r2 = 200 /\ res_code r3 = 201
  /\ map (fun a => (userId a, time a, bookedSlots a, status a, paymentStatus a)) s3
     = [("u2", "10:00", ["10:00"; "10:30"], St_confirmed, Pay_completed);
        ("u1", "10:30", ["10:30"], St_pending, Pay_pending)].
Proof. vm_compute. repeat split. Qed.

(** ** Further properties of the handlers *)

(** A [findOneAndDelete] that matches nothing leaves the collection as it was. *)
Lemma remove_first_none p s s' :
  remove_first p s = (None, s') -> s' = s /\ find p s = None.
Proof.
  revert s'. induction s as [|r s IH]; intros s' H; cbn in H |- *.
  - injection H as <-. auto.
  - destruct (p r); [discriminate H|].
    destruct (remove_first p s) as [y t] eqn:Hr. injection H as -> <-.
    destruct (IH t eq_refl) as [-> ->]. auto.
Qed.

(** A [findOneAndDelete] that matches removes the first matching row and nothing else. *)
Lemma remove_first_split p s x s' :
  remove_first p s = (Some x, s') ->
  exists l1 l2, s = (l1 ++ x :: l2)%list /\ s' = (l1 ++ l2)%list /\ p x = true
                /\ find p l1 = None.
Proof.
  revert s'. induction s as [|r s IH]; intros s' H; cbn in H; [discriminate H|].
  destruct (p r) eqn:Hp.
  - injection H as <- <-. exists [], s. auto.
  - destruct (remove_first p s) as [y t] eqn:Hr. injection H as -> <-.
    destruct (IH t eq_refl) as (l1 & l2 & -> & -> & Hx & Hl1).
    exists (r :: l1), l2. cbn. rewrite Hp. auto.
Qed.

(** X1: cancel-order (part_002 lines 556-597): for a truthy id that casts, the handler deletes the first of the caller's pending, unpaid reservations with that id and answers 200, or, when there is none, answers 404 APPOINTMENT_NOT_FOUND and deletes nothing. *)
Theorem cancel_order_removes_first_own_pending (castId : IdCast) (u : AuthUser)
    (j : json) (idc : string -> bool) (s : Store)
    (Htr : truthy_json j = true) (Hc : castId j = Some idc) :
  (exists l1 x l2, s = (l1 ++ x :: l2)%list
     /\ pending_of idc (auth_userId u) x = true
     /\ find (pending_of idc (auth_userId u)) l1 = None
     /\ run_cancel_order castId u (Some j) s =
        (Res 200 (JObj [("success", JBool true);
                        ("message", JStr "Appointment cancelled successfully")]),
         (l1 ++ l2)%list))
  \/ (find (pending_of idc (auth_userId u)) s = None
      /\ run_cancel_order castId u (Some j) s =
         (Res 404 (JObj [("error", JStr "Pending appointment not found");
                         ("code", JStr "APPOINTMENT_NOT_FOUND")]), s)).
Proof.
  unfold run_cancel_order, cancel_order. rewrite Htr, Hc.
  unfold bind, find_and_delete, ret.
  destruct (remove_first (pending_of idc (auth_userId u)) s) as [[x|] s'] eqn:Hr.
  - left. destruct (remove_first_split _ _ _ _ Hr) as (l1 & l2 & Hs & -> & Hx & Hl1).
    exists l1, x, l2. auto.
  - right. destruct (remove_first_none _ _ _ Hr) as [-> Hn]. auto.
Qed.

(** X2: cancel-order never removes more than one row, and the row it removes is one of the caller's own reservations with status pending and payment status pending. *)
Theorem cancel_order_only_own_pending_hold (castId : IdCast) (u : AuthUser)
    (appointmentId : option json) (s : Store) :
  snd (run_cancel_order castId u appointmentId s) = s
  \/ exists l1 x l2, s = (l1 ++ x :: l2)%list
       /\ snd (run_cancel_order castId u appointmentId s) = (l1 ++ l2)%list
       /\ userId x = auth_userId u /\ status x = St_pending
       /\ paymentStatus x = Pay_pending.
Proof.
  unfold run_cancel_order, cancel_order.
  destruct appointmentId as [j|]; [|now left].
  destruct (truthy_json j); [|now left].
  destruct (castId j) as [idc|]; [|now left].
  unfold bind, find_and_delete, ret.
  destruct (remove_first (pending_of idc (auth_userId u)) s) as [[x|] s'] eqn:Hr.
  - right. destruct (remove_first_split _ _ _ _ Hr) as (l1 & l2 & Hs & -> & Hx & _).
    exists l1, x, l2. split; [exact Hs|]. split; [reflexivity|].
    unfold pending_of in Hx.
    apply andb_prop in Hx as [Hx Hp]. apply andb_prop in Hx as [Hx Hs'].
    apply andb_prop in Hx as [_ Hu].
    apply String.eqb_eq in Hu.
    destruct (status x); try discriminate Hs'.
    destruct (paymentStatus x); try discriminate Hp. auto.
  - left. now destruct (remove_first_none _ _ _ Hr) as [-> _].
Qed.

(** X3: GET status (part_002 lines 600-631) writes nothing; a 200 reports the status and payment status of one of the caller's own rows with that id, and a 404 means that none of the caller's rows has it. *)
Theorem payment_status_own_rows (castId : IdCast) (u : AuthUser) (aid : string)
    (s : Store) (r : Response) (s' : Store)
    (H : run_payment_status castId u aid s = (r, s')) :
  s' = s
  /\ (res_code r = 200 ->
      exists a idc, In a s /\ userId a = auth_userId u
        /\ castId (JStr aid) = Some idc /\ idc (appt_id a) = true
        /\ jget "status" (res_body r) = Some (JStr (status_str (status a)))
        /\ jget "paymentStatus" (res_body r)
           = Some (JStr (payment_status_str (paymentStatus a))))
  /\ (res_code r = 404 ->
      forall idc, castId (JStr aid) = Some idc ->
      forall a, In a s -> userId a = auth_userId u -> idc (appt_id a) = false).
Proof.
  unfold run_payment_status, payment_status in H.
  destruct (castId (JStr aid)) as [idc|] eqn:Hc.
  - unfold bind, find_one, ret in H.
    destruct (find (fun a => idc (appt_id a) && String.eqb (userId a) (auth_userId u)) s)
      as [a|] eqn:Hf; injection H as <- <-.
    + apply find_some in Hf as [Hin Hq]. apply andb_prop in Hq as [Hi Hu].
      apply String.eqb_eq in Hu.
      split; [reflexivity|]. split.
      * intros _. exists a, idc. repeat split; auto.
      * cbn. discriminate.
    + split; [reflexivity|]. split; [cbn; discriminate|].
      intros _ idc' Hc' a Hin Hu. injection Hc' as <-.
      pose proof (find_none _ _ Hf a Hin) as Hq. cbn in Hq.
      rewrite Hu, String.eqb_refl, andb_true_r in Hq. exact Hq.
  - injection H as <- <-. split; [reflexivity|]. split; cbn; discriminate.
Qed.

(** X4: cleanup-pending (part_002 lines 635-660) run twice at the same instant deletes nothing the second time: the second run answers 200 with deletedCount 0 and leaves the collection as the first left it. *)
Theorem cleanup_pending_idempotent (now : Z) (s : Store) :
  cleanup_pending now (snd (cleanup_pending now s))
  = (Res 200 (JObj [("success", JBool true); ("deletedCount", JNum 0)]),
     snd (cleanup_pending now s)).
Proof.
  unfold cleanup_pending, deleteMany. cbn [snd].
  assert (Hk : forall l, filter (expired_pending now)
                  (filter (fun a => negb (expired_pending now a)) l) = []).
  { induction l as [|a l IH]; cbn; [reflexivity|].
    destruct (expired_pending now a) eqn:E; cbn; [exact IH|]. rewrite E. exact IH. }
  assert (Hf : forall l, filter (fun a => negb (expired_pending now a))
                  (filter (fun a => negb (expired_pending now a)) l)
                = filter (fun a => negb (expired_pending now a)) l).
  { induction l as [|a l IH]; cbn; [reflexivity|].
    destruct (expired_pending now a) eqn:E; cbn; [exact IH|]. rewrite E. cbn. now rewrite IH. }
  rewrite Hk, Hf. reflexivity.
Qed.

(** X5: DELETE /:appointmentId (appointments.ts) gives the same response and the same collection as PUT /:appointmentId/cancel on every input: the extra lookup of the PUT route cannot change the outcome. *)
Theorem delete_route_same_as_put (u : AuthUser) (aid : string) (now off : Z) (s : Store) :
  run_delete u aid now off s = run_cancel u aid now off s.
Proof.
  unfold run_delete, run_cancel, delete_appointment, cancel_appointment.
  destruct (String.eqb aid ""); [reflexivity|].
  destruct (is_object_id aid); [|reflexivity]. cbn [negb].
  cbv beta iota delta [bind find_one find_by_id].
  destruct (find (by_id_user aid (auth_userId u)) s) as [a|] eqn:Hf; [|reflexivity].
  destruct (status_eqb (status a) St_cancelled); [reflexivity|].
  destruct (negb (canBeCancelled off now a)); [reflexivity|].
  assert (Hb : exists b, findById s aid = Some b).
  { apply (find_weaken _ _ _ _ Hf). intros x Hx. unfold by_id_user in Hx.
    now apply andb_prop in Hx as [Hx _]. }
  destruct Hb as [b Hb]. rewrite Hb. reflexivity.
Qed.

(** X6: capture-order (part_002 lines 275-553): a request with a missing id, an appointment id in ObjectId's lower-case form that matches no reservation of the caller with that order id, or an unconfigured PayPal ends with 400 MISSING_FIELDS, 404 APPOINTMENT_NOT_FOUND or 500 CAPTURE_ERROR and leaves the collection unchanged. *)
Theorem capture_order_guards_write_nothing (u : AuthUser) (req : CaptureReq)
    (env : CaptureEnv) (s : Store) :
  (truthy_str (c_orderId req) && truthy_str (c_appointmentId req) = false ->
   run_capture u req env s =
     (err400 "Order ID and Appointment ID are required" "MISSING_FIELDS", s))
  /\ (forall oid aid, c_orderId req = Some oid -> c_appointmentId req = Some aid ->
      oid <> "" -> is_canonical_object_id aid = true ->
      find (capture_lookup (auth_userId u) aid oid) s = None ->
      run_capture u req env s =
        (Res 404 (JObj [("error", JStr "Appointment not found or order ID mismatch");
                        ("code", JStr "APPOINTMENT_NOT_FOUND")]), s))
  /\ (forall oid aid a, c_orderId req = Some oid -> c_appointmentId req = Some aid ->
      oid <> "" -> is_canonical_object_id aid = true ->
      find (capture_lookup (auth_userId u) aid oid) s = Some a ->
      paymentStatus a <> Pay_completed -> paypal_configured env = false ->
      run_capture u req env s =
        (err500 "Failed to process payment capture" "CAPTURE_ERROR", s)).
Proof.
  split; [|split].
  - intro Hm. unfold run_capture, capture_order, catch. rewrite Hm. reflexivity.
  - intros oid aid Ho Ha Hon Hid Hf.
    assert (Han : aid <> "")
      by (intro E; rewrite E in Hid; discriminate Hid).
    unfold run_capture. rewrite (capture_order_unfold u req env s oid aid Ho Ha Hon Han).
    unfold catch, bind, find_one. rewrite Hf. reflexivity.
  - intros oid aid a Ho Ha Hon Hid Hf Hc Hcfg.
    assert (Han : aid <> "")
      by (intro E; rewrite E in Hid; discriminate Hid).
    unfold run_capture. rewrite (capture_order_unfold u req env s oid aid Ho Ha Hon Han).
    unfold catch at 1, bind at 1, find_one. rewrite Hf.
    rewrite (not_completed a Hc), Hcfg. reflexivity.
Qed.

(** X7: capture-order: a PayPal capture error that is not a repeated capture ends in the general catch, whose status is PayPal's status code (500 when absent or 0), and the handler itself writes nothing. *)
Theorem capture_provider_error_keeps_reservation (u : AuthUser) (req : CaptureReq)
    (env : CaptureEnv) (s : Store) (oid aid : string) (a : Appointment) (e : PayPalError)
    (Ho : c_orderId req = Some oid) (Ha : c_appointmentId req = Some aid)
    (Hon : oid <> "") (Han : aid <> "")
    (Hf : find (capture_lookup (auth_userId u) aid oid) s = Some a)
    (Hc : paymentStatus a <> Pay_completed) (Hcfg : paypal_configured env = true)
    (Hcap : captureOrder env = Fails e)
    (Hac : isOrderAlreadyCaptured (ProviderErr e) = false) :
  run_capture u req env s = (general_error (ProviderErr e), between env s)
  /\ res_code (general_error (ProviderErr e))
     = match statusCode e with Some c => if c =? 0 then 500 else c | None => 500 end.
Proof.
  split; [|reflexivity].
  unfold run_capture. rewrite (capture_order_unfold u req env s oid aid Ho Ha Hon Han).
  unfold catch at 1, bind at 1, find_one. rewrite Hf.
  rewrite (not_completed a Hc), Hcfg.
  unfold capture_attempt, catch, bind, ret, call. rewrite Hcap.
  rewrite Hac. reflexivity.
Qed.

(** The first part of create-order either writes nothing or appends one pending reservation with the new id. *)
Lemma create_prepare_effect u req env s res s1 :
  create_prepare u req env s = (res, s1) ->
  (s1 = s /\ forall a, res <> Ok (inr a))
  \/ exists a, res = Ok (inr a) /\ s1 = (s ++ [a])%list
       /\ appt_id a = new_id env /\ userId a = auth_userId u
       /\ status a = St_pending /\ paymentStatus a = Pay_pending
       /\ createdAt a = create_now env /\ order_id_of a = None.
Proof.
  unfold create_prepare, bind, ret, get_store, find_one, insert, err400.
  cbv beta zeta.
  repeat match goal with
  | |- context [if ?c then _ else _] => destruct c
  | |- context [match ?x with _ => _ end] => destruct x
  end; intro H; inversion H; subst;
  first [ left; split; [reflexivity | intros ? ?; discriminate]
        | right; eexists; repeat split ].
Qed.

(** Recording the PayPal order id keeps the reservation's id, owner, statuses and creation time. *)
Lemma with_order_id_fields oid a :
  appt_id (with_order_id oid a) = appt_id a /\ userId (with_order_id oid a) = userId a
  /\ status (with_order_id oid a) = status a
  /\ paymentStatus (with_order_id oid a) = paymentStatus a
  /\ createdAt (with_order_id oid a) = createdAt a
  /\ order_id_of (with_order_id oid a) = Some oid.
Proof. repeat split. Qed.

(** [find] over a concatenation. *)
Lemma find_app_split (p : Appointment -> bool) l1 l2 :
  find p (l1 ++ l2)%list = match find p l1 with Some x => Some x | None => find p l2 end.
Proof.
  induction l1 as [|r l1 IH]; cbn; [reflexivity|]. destruct (p r); [reflexivity|exact IH].
Qed.

(** Replacing a document whose id is absent changes nothing. *)
Lemma replace_by_id_fresh x s :
  findById s (appt_id x) = None -> replace_by_id x s = s.
Proof.
  unfold findById, replace_by_id. intro H.
  induction s as [|r s IH]; cbn in *; [reflexivity|].
  destruct (String.eqb (appt_id r) (appt_id x)); [discriminate H|].
  now rewrite IH.
Qed.

(** [save] of the document just appended replaces it in place. *)
Lemma save_appended x a s :
  findById s (appt_id a) = None -> appt_id x = appt_id a ->
  save x (s ++ [a])%list = (Ok tt, (s ++ [x])%list).
Proof.
  intros Hf Hid. rewrite <- Hid in Hf. unfold save.
  assert (Hl : findById (s ++ [a])%list (appt_id x) = Some a).
  { unfold findById in *. rewrite find_app_split, Hf. cbn. now rewrite Hid, String.eqb_refl. }
  rewrite Hl. pose proof (replace_by_id_fresh x s Hf) as Hr. unfold replace_by_id in *.
  rewrite map_app, Hr. cbn. rewrite Hid, String.eqb_refl. reflexivity.
Qed.

(** The PayPal part of create-order: on failure the appended reservation stays, on success it gets the order id. *)
Lemma create_finish_effect env a body s r s2 :
  findById s (appt_id a) = None ->
  create_finish env a body (s ++ [a])%list = (r, s2) ->
  match createOrder env with
  | Fails e => r = Throw (ProviderErr e) /\ s2 = (s ++ [a])%list
  | Returns o => s2 = (s ++ [with_order_id (o_id o) a])%list
                 /\ (forall x, r = Ok x -> res_code x = 201 ->
                     jget "orderId" (res_body x) = Some (JStr (o_id o))
                     /\ jget "appointmentId" (res_body x) = Some (JStr (appt_id a)))
  end.
Proof.
  intros Hf H. unfold create_finish, bind, call in H.
  destruct (createOrder env) as [o|e].
  - rewrite save_appended in H by (exact Hf || reflexivity).
    destruct (approval_url o); unfold ret in H; injection H as <- <-;
      (split; [reflexivity|]); intros x Hx Hc; injection Hx as <-;
      [split; reflexivity | discriminate Hc].
  - injection H as <- <-. auto.
Qed.

(** X8: create-order (part_002 lines 22-271) with a fresh id either leaves the collection unchanged or appends exactly one reservation: the caller's, with the new id, status pending, payment status pending and the request time as creation time. *)
Theorem create_order_store_frame (u : AuthUser) (req : CreateReq) (env : CreateEnv)
    (s : Store) (r : Response) (s' : Store) (ob : option OrderRequest)
    (Hfresh : findById s (new_id env) = None)
    (H : run_create u req env s = (r, s', ob)) :
  s' = s
  \/ exists a, s' = (s ++ [a])%list /\ appt_id a = new_id env
       /\ userId a = auth_userId u /\ status a = St_pending
       /\ paymentStatus a = Pay_pending /\ createdAt a = create_now env.
Proof.
  unfold run_create in H.
  destruct (create_prepare u req env s) as [res s1] eqn:Hp.
  destruct (create_prepare_effect _ _ _ _ _ _ Hp)
    as [[-> Hn] | (a & -> & -> & Hid & Hu & Hst & Hps & Hcr & _)].
  - left. destruct res as [[r0|ap]|e].
    + now injection H as _ <- _.
    + exfalso. exact (Hn ap eq_refl).
    + now injection H as _ <- _.
  - right. cbv zeta in H.
    rewrite <- Hid in Hfresh.
    match type of H with
    | context [create_finish env a ?b (s ++ [a])%list] =>
        destruct (create_finish env a b (s ++ [a])%list) as [res2 s2] eqn:Hf2;
        pose proof (create_finish_effect env a b s res2 s2 Hfresh Hf2) as He
    end.
    assert (Hs' : s' = s2) by (destruct res2; now injection H as _ <- _).
    subst s'. destruct (createOrder env) as [o|e].
    + destruct He as [-> _]. eexists. split; [reflexivity|]. repeat split; assumption.
    + destruct He as [_ ->]. eexists. split; [reflexivity|]. repeat split; assumption.
Qed.

(** X9: create-order: when PayPal's createOrder fails, the handler answers 500 PAYPAL_ORDER_ERROR but keeps the pending reservation it inserted (with no PayPal order id), unless it wrote nothing at all. *)
Theorem create_order_paypal_failure_keeps_hold (u : AuthUser) (req : CreateReq)
    (env : CreateEnv) (s : Store) (r : Response) (s' : Store)
    (ob : option OrderRequest) (e : PayPalError)
    (Hcreate : createOrder env = Fails e)
    (H : run_create u req env s = (r, s', ob)) :
  s' = s
  \/ (r = Res 500 (JObj [("error", JStr "Failed to create PayPal order");
                          ("code", JStr "PAYPAL_ORDER_ERROR")])
      /\ exists a, s' = (s ++ [a])%list /\ appt_id a = new_id env
           /\ userId a = auth_userId u /\ status a = St_pending
           /\ paymentStatus a = Pay_pending /\ order_id_of a = None).
Proof.
  unfold run_create in H.
  destruct (create_prepare u req env s) as [res s1] eqn:Hp.
  destruct (create_prepare_effect _ _ _ _ _ _ Hp)
    as [[-> Hn] | (a & -> & -> & Hid & Hu & Hst & Hps & _ & Hoid)].
  - left. destruct res as [[r0|ap]|e'].
    + now injection H as _ <- _.
    + exfalso. exact (Hn ap eq_refl).
    + now injection H as _ <- _.
  - right. cbv zeta in H. unfold create_finish, bind, call in H. rewrite Hcreate in H.
    injection H as <- <- _. split; [reflexivity|].
    exists a. repeat split; assumption.
Qed.

(** [find] skips a prefix with no match. *)
Lemma find_app_none_l (p : Appointment -> bool) l1 l2 :
  find p l1 = None -> find p (l1 ++ l2)%list = find p l2.
Proof. intro H. rewrite find_app_split, H. reflexivity. Qed.

(** A query that implies an id matches nothing when no row has that id. *)
Lemma find_none_by_id (p : Appointment -> bool) s id :
  findById s id = None -> (forall x, p x = true -> appt_id x = id) -> find p s = None.
Proof.
  unfold findById. intros Hf Hp. induction s as [|r s IH]; cbn in *; [reflexivity|].
  destruct (p r) eqn:E.
  - rewrite (Hp r E), String.eqb_refl in Hf. discriminate Hf.
  - destruct (String.eqb (appt_id r) id); [discriminate Hf|]. exact (IH Hf).
Qed.

(** X10: create-order then capture-order: after a 201 from create-order, the capture lookup with the returned orderId and appointmentId finds the caller's pending, unpaid reservation. *)
Theorem create_order_then_capture_finds_hold (u : AuthUser) (req : CreateReq)
    (env : CreateEnv) (s : Store) (r : Response) (s' : Store)
    (ob : option OrderRequest)
    (Hfresh : findById s (new_id env) = None)
    (H : run_create u req env s = (r, s', ob)) (H201 : res_code r = 201) :
  exists oid a,
    jget "orderId" (res_body r) = Some (JStr oid)
    /\ jget "appointmentId" (res_body r) = Some (JStr (appt_id a))
    /\ find (capture_lookup (auth_userId u) (appt_id a) oid) s' = Some a
    /\ status a = St_pending /\ paymentStatus a = Pay_pending.
Proof.
  unfold run_create in H.
  destruct (create_prepare u req env s) as [res s1] eqn:Hp.
  destruct (create_prepare_effect _ _ _ _ _ _ Hp)
    as [[-> Hn] | (a & -> & -> & Hid & Hu & Hst & Hps & _ & _)].
  - exfalso. destruct res as [[r0|ap]|e].
    + injection H as -> _ _. exact (create_prepare_inl_code _ _ _ _ _ _ Hp H201).
    + exact (Hn ap eq_refl).
    + injection H as <- _ _. destruct e; discriminate H201.
  - cbv zeta in H. rewrite <- Hid in Hfresh.
    match type of H with
    | context [create_finish env a ?b (s ++ [a])%list] =>
        destruct (create_finish env a b (s ++ [a])%list) as [res2 s2] eqn:Hf2;
        pose proof (create_finish_effect env a b s res2 s2 Hfresh Hf2) as He
    end.
    destruct res2 as [x|e]; injection H as Hr <- _.
    2: { subst r. exfalso. destruct e; discriminate H201. }
    subst x. destruct (createOrder env) as [o|e].
    + destruct He as [-> Hj]. destruct (Hj r eq_refl H201) as [Ho Ha].
      exists (o_id o), (with_order_id (o_id o) a).
      split; [exact Ho|]. split; [exact Ha|].
      split; [|split; assumption].
      rewrite find_app_none_l.
      * cbn. unfold capture_lookup. cbn.
        now rewrite !String.eqb_refl, Hu, String.eqb_refl.
      * apply (find_none_by_id _ _ _ Hfresh). intros x Hx. apply capture_lookup_id in Hx. exact Hx.
    + destruct He as [He _]. discriminate He.
Qed.

(** X11: POST /book (appointments.ts): a 201 appends exactly one confirmed appointment of the caller, at the requested date (UTC midnight) and time, and only when no confirmed or pending row held that slot and the caller had none on that date. *)
Theorem book_201_confirms_free_slot (u : AuthUser) (req : CreateReq) (env : BookEnv)
    (s : Store) (body : json) (s' : Store)
    (H : run_book u req env s = (Res 201 body, s')) :
  exists a y m d, s' = (s ++ [a])%list
    /\ parse_ymd (or_else (cr_date req) "") = Some (y, m, d)
    /\ iso_date_ms y m d = Some (date a)
    /\ time a = or_else (cr_time req) ""
    /\ appt_id a = book_id env /\ userId a = auth_userId u
    /\ status a = St_confirmed
    /\ paymentStatus a = defaultPaymentStatus env
    /\ paymentInfo a = defaultPaymentInfo env
    /\ find (book_slot_query (date a) (time a)) s = None
    /\ find (book_user_query (auth_userId u) (date a)) s = None.
Proof.
  unfold run_book in H.
  destruct (book u req env s) as [[r|e] s1] eqn:Hb;
    [injection H as -> -> | destruct e; discriminate H].
  revert Hb. unfold book, bind, ret, find_one, insert, err400, err500.
  cbv beta zeta.
  repeat match goal with
  | |- context [if ?c then _ else _] => destruct c eqn:?
  | |- context [match ?x with _ => _ end] =>
      match x with
      | (_, _) => fail 1
      | _ => destruct x eqn:?
      end
  end; intro H; try discriminate H;
  injection H as _ <-; eexists _, _, _, _; repeat split; cbn; eassumption.
Qed.

(** A digit is the ASCII character of its value. *)
Lemma digit_inv c v : digit c = Some v -> 0 <= v <= 9 /\ c = digit_char v.
Proof.
  unfold digit, digit_char. intro H.
  destruct ((48 <=? nat_of_ascii c)%nat && (nat_of_ascii c <=? 57)%nat) eqn:E;
    [|discriminate H].
  injection H as <-. apply andb_prop in E as [E1 E2].
  apply Nat.leb_le in E1. apply Nat.leb_le in E2. split; [lia|].
  replace (48 + Z.to_nat (Z.of_nat (nat_of_ascii c) - 48))%nat with (nat_of_ascii c) by lia.
  symmetry. apply ascii_nat_embedding.
Qed.

(** The ASCII character of a value in 0..9 is read back as that value. *)
Lemma digit_char_ok v : 0 <= v <= 9 -> digit (digit_char v) = Some v.
Proof.
  intro Hv. unfold digit, digit_char.
  rewrite nat_ascii_embedding by lia.
  replace ((48 <=? 48 + Z.to_nat v)%nat && (48 + Z.to_nat v <=? 57)%nat) with true
    by (symmetry; apply andb_true_intro; split; apply Nat.leb_le; lia).
  f_equal. lia.
Qed.

(** Division and remainder by ten of a number written in base ten. *)
Lemma div10 q r : 0 <= r <= 9 -> (q * 10 + r) / 10 = q /\ (q * 10 + r) mod 10 = r.
Proof.
  intro Hr. split.
  - symmetry. apply (Z.div_unique _ _ _ r); lia.
  - symmetry. apply (Z.mod_unique _ _ q); lia.
Qed.

(** Two digits written out. *)
Lemma two_digits_of a b : 0 <= a <= 9 -> 0 <= b <= 9 ->
  two_digits (a * 10 + b) = String (digit_char a) (String (digit_char b) EmptyString).
Proof.
  intros Ha Hb. unfold two_digits. destruct (div10 a b Hb) as [-> ->]. reflexivity.
Qed.

(** A number in 0..99 splits into two digits. *)
Lemma two_digits_split n : 0 <= n <= 99 ->
  0 <= n / 10 <= 9 /\ 0 <= n mod 10 <= 9 /\ n = n / 10 * 10 + n mod 10.
Proof. intro Hn. pose proof (Z.div_mod n 10). pose proof (Z.mod_pos_bound n 10). lia. Qed.

(** Four digits written out. *)
Lemma four_digits_of a b c d : 0 <= a <= 9 -> 0 <= b <= 9 -> 0 <= c <= 9 -> 0 <= d <= 9 ->
  four_digits (((a * 10 + b) * 10 + c) * 10 + d)
  = String (digit_char a) (String (digit_char b)
      (String (digit_char c) (String (digit_char d) EmptyString))).
Proof.
  intros Ha Hb Hc Hd. unfold four_digits.
  destruct (div10 ((a * 10 + b) * 10 + c) d Hd) as [-> ->].
  destruct (div10 (a * 10 + b) c Hc) as [-> ->].
  destruct (div10 a b Hb) as [-> ->]. reflexivity.
Qed.

(** A number in 0..9999 splits into four digits. *)
Lemma four_digits_split n : 0 <= n <= 9999 ->
  exists a b c d, 0 <= a <= 9 /\ 0 <= b <= 9 /\ 0 <= c <= 9 /\ 0 <= d <= 9
    /\ n = ((a * 10 + b) * 10 + c) * 10 + d.
Proof.
  intro Hn.
  exists (n / 10 / 10 / 10), (n / 10 / 10 mod 10), (n / 10 mod 10), (n mod 10).
  pose proof (Z.div_mod n 10). pose proof (Z.mod_pos_bound n 10).
  pose proof (Z.div_mod (n / 10) 10). pose proof (Z.mod_pos_bound (n / 10) 10).
  pose proof (Z.div_mod (n / 10 / 10) 10). pose proof (Z.mod_pos_bound (n / 10 / 10) 10).
  assert (0 <= n / 10 / 10 / 10 <= 9).
  { split; [apply Z.div_pos; [apply Z.div_pos; [apply Z.div_pos|]|]; lia|].
    apply Z.lt_succ_r. apply Z.div_lt_upper_bound; [lia|].
    apply Z.div_lt_upper_bound; [lia|]. apply Z.div_lt_upper_bound; lia. }
  lia.
Qed.

(** Every time of day is read back from both of its written forms. *)
Lemma hhmm_all : forallb (fun h => forallb (hhmm_ok h) (map Z.of_nat (seq 0 60)))
                         (map Z.of_nat (seq 0 24)) = true.
Proof. vm_compute. reflexivity. Qed.

(** What the time check accepts: a time of day written HH:MM or H:MM. *)
Lemma parse_hhmm_forms (s : string) (h m : Z) :
  parse_hhmm s = Some (h, m)
  -> 0 <= h <= 23 /\ 0 <= m <= 59
     /\ (s = two_digits h ++ ":" ++ two_digits m
         \/ (h <= 9 /\ s = String (digit_char h) (":" ++ two_digits m))).
Proof.
  rewrite <- (string_of_list_ascii_of_string s).
  unfold parse_hhmm. rewrite list_ascii_of_string_of_list_ascii.
  destruct (list_ascii_of_string s) as [|c1 [|c2 [|c3 [|c4 [|c5 [|c6 l]]]]]];
    try discriminate.
  + destruct (Ascii.eqb c2 ":"%char) eqn:Ec; [|discriminate].
    apply Ascii.eqb_eq in Ec. subst c2.
    destruct (digit c1) as [hv|] eqn:E1; [|discriminate].
    destruct (digit c3) as [a|] eqn:E3; [|discriminate].
    destruct (digit c4) as [b|] eqn:E4; [|discriminate].
    destruct (a <=? 5) eqn:Ea; [|discriminate].
    intro H. injection H as <- <-. apply Z.leb_le in Ea.
    apply digit_inv in E1 as [B1 ->]. apply digit_inv in E3 as [B3 ->].
    apply digit_inv in E4 as [B4 ->].
    split; [lia|]. split; [lia|]. right. split; [lia|].
    rewrite two_digits_of by lia. reflexivity.
  + destruct (Ascii.eqb c3 ":"%char) eqn:Ec; [|discriminate].
    apply Ascii.eqb_eq in Ec. subst c3.
    destruct (digit c1) as [a|] eqn:E1; [|discriminate].
    destruct (digit c2) as [b|] eqn:E2; [|discriminate].
    destruct (digit c4) as [x|] eqn:E4; [|discriminate].
    destruct (digit c5) as [y|] eqn:E5; [|discriminate].
    destruct (x <=? 5) eqn:Ex; [|discriminate].
    destruct ((a <=? 1) || ((a =? 2) && (b <=? 3))) eqn:Eh; [|discriminate].
    intro H. injection H as <- <-. apply Z.leb_le in Ex.
    apply digit_inv in E1 as [B1 ->]. apply digit_inv in E2 as [B2 ->].
    apply digit_inv in E4 as [B4 ->]. apply digit_inv in E5 as [B5 ->].
    apply orb_true_iff in Eh.
    assert (a * 10 + b <= 23).
    { destruct Eh as [Eh|Eh]; [apply Z.leb_le in Eh; lia|].
      apply andb_prop in Eh as [Eh1 Eh2]. apply Z.eqb_eq in Eh1.
      apply Z.leb_le in Eh2. lia. }
    split; [lia|]. split; [lia|]. left.
    rewrite !two_digits_of by lia. reflexivity.
Qed.

(** X12: The time check (regex [^([0-1]?[0-9]|2[0-3]):[0-5][0-9]$] then split on ':') accepts exactly the times 00:00..23:59, written HH:MM or, for hours 0..9, H:MM, and returns their hour and minute. *)
Theorem parse_hhmm_exact (s : string) (h m : Z) :
  parse_hhmm s = Some (h, m)
  <-> 0 <= h <= 23 /\ 0 <= m <= 59
      /\ (s = two_digits h ++ ":" ++ two_digits m
          \/ (h <= 9 /\ s = String (digit_char h) (":" ++ two_digits m))).
Proof.
  split.
  - apply parse_hhmm_forms.
  - intros (Hh & Hm & Hs).
    pose proof hhmm_all as Hall. rewrite forallb_forall in Hall.
    specialize (Hall h (in_Z_range h 24 ltac:(lia))). rewrite forallb_forall in Hall.
    specialize (Hall m (in_Z_range m 60 ltac:(lia))). unfold hhmm_ok in Hall.
    apply andb_prop in Hall as [H1 H2].
    destruct Hs as [-> | [Hh9 ->]].
    + destruct (parse_hhmm (two_digits h ++ ":" ++ two_digits m)) as [[h' m']|];
        [|discriminate H1].
      apply andb_prop in H1 as [E1 E2]. apply Z.eqb_eq in E1. apply Z.eqb_eq in E2.
      now subst.
    + apply Z.leb_le in Hh9. rewrite Hh9 in H2. cbn [negb orb] in H2.
      destruct (parse_hhmm (String (digit_char h) (":" ++ two_digits m))) as [[h' m']|];
        [|discriminate H2].
      apply andb_prop in H2 as [E1 E2]. apply Z.eqb_eq in E1. apply Z.eqb_eq in E2.
      now subst.
Qed.

(** The route's date string reads both written forms of every time of day
    as [es_hhmm_ok] says. *)
Lemma es_hhmm_all : forallb (fun h => forallb (es_hhmm_ok h) (map Z.of_nat (seq 0 60)))
                            (map Z.of_nat (seq 0 24)) = true.
Proof. vm_compute. reflexivity. Qed.

(** The route's [appointmentDateTime] is the start of the appointment for
    a time stored as HH:MM and an Invalid Date for one stored as H:MM. *)
Lemma appointment_start_datetime off a st :
  appointment_start off a = Some st ->
  (String.length (time a) = 5%nat -> appointmentDateTime off a = Some st)
  /\ (String.length (time a) = 4%nat -> appointmentDateTime off a = None).
Proof.
  unfold appointment_start, appointmentDateTime.
  destruct (parse_hhmm (time a)) as [[h m]|] eqn:E; [|discriminate].
  intro H. injection H as <-.
  apply parse_hhmm_forms in E as (Hh & Hm & Ht).
  pose proof es_hhmm_all as Hall. rewrite forallb_forall in Hall.
  specialize (Hall h (in_Z_range h 24 ltac:(lia))). rewrite forallb_forall in Hall.
  specialize (Hall m (in_Z_range m 60 ltac:(lia))). unfold es_hhmm_ok in Hall.
  apply andb_prop in Hall as [H1 H2].
  destruct Ht as [Ht | [Hh9 Ht]]; rewrite Ht.
  - split; [intros _ | intro L; unfold two_digits in L; discriminate L].
    destruct (es_time (list_ascii_of_string ((two_digits h ++ ":" ++ two_digits m) ++ ":00")))
      as [[t [z|]]|]; try discriminate H1.
    apply Z.eqb_eq in H1. subst t. f_equal. unfold HOUR, MINUTE. lia.
  - split; [intro L; unfold two_digits in L; discriminate L | intros _].
    apply Z.leb_le in Hh9. rewrite Hh9 in H2. cbn [negb orb] in H2.
    destruct (es_time (list_ascii_of_string (String (digit_char h) (":" ++ two_digits m) ++ ":00")))
      as [[t z]|]; [discriminate H2 | reflexivity].
Qed.

(** C7: a reservation can be cancelled only while now is more than one
    hour before its start.  For a reservation of the caller that is not
    cancelled: when now < start - 1h (and [_id]s are unique), the cancel
    route answers 200 and deletes exactly that row; when now >= start - 1h
    it answers 400 CANCELLATION_TOO_LATE and leaves the collection
    unchanged, with [hoursUntilAppointment] (also in the message) the
    whole hours left when the time is stored as HH:MM, but [null] ("NaN"
    in the message) when it is stored as H:MM, a form the booking routes
    accept and that [new Date] rejects. *)
Theorem cancel_cutoff_hours_left :
  forall u aid now off s a st,
    is_object_id aid = true ->
    find (by_id_user aid (auth_userId u)) s = Some a ->
    status a <> St_cancelled ->
    appointment_start off a = Some st ->
    (st - HOUR <= now ->
     run_cancel u aid now off s =
       (Res 400 (JObj [("error", JStr ("Cannot cancel appointment. Less than 1 hour remaining ("
                                       ++ json_to_string (hoursUntilAppointment off now a)
                                       ++ " hours left)"));
                       ("code", JStr "CANCELLATION_TOO_LATE");
                       ("hoursUntilAppointment", hoursUntilAppointment off now a)]), s)
     /\ (String.length (time a) = 5%nat -> hoursUntilAppointment off now a = JNum ((st - now) / HOUR))
     /\ (String.length (time a) = 4%nat -> hoursUntilAppointment off now a = JNull))
    /\
    (now < st - HOUR -> NoDup (map appt_id s) ->
     exists body s',
       run_cancel u aid now off s = (Res 200 body, s')
       /\ exists l1 l2, s = (l1 ++ a :: l2)%list /\ s' = (l1 ++ l2)%list
       /\ findById s' aid = None).
Proof.
  intros u aid now off s a st Hobj Hf Hs Hst.
  assert (Hid : appt_id a = aid)
    by (apply find_some in Hf as [_ Hf']; now apply by_id_user_id in Hf').
  destruct (appointment_start_datetime off a st Hst) as [H5 H4].
  split.
  - intro Hlate. split; [|split].
    + unfold run_cancel, cancel_appointment, bind, find_one, ret.
      rewrite (is_object_id_nonempty aid Hobj), Hobj. cbv beta iota zeta delta [negb].
      rewrite Hf. cbv beta iota. rewrite (not_cancelled_eqb a Hs).
      unfold canBeCancelled. rewrite Hst.
      replace (now <? st - HOUR) with false by (symmetry; apply Z.ltb_ge; lia).
      reflexivity.
    + intro L. unfold hoursUntilAppointment. now rewrite (H5 L).
    + intro L. unfold hoursUntilAppointment. now rewrite (H4 L).
  - intros Hearly Hnd.
    destruct (remove_first_find_some _ _ _ Hf) as [s' Hrm].
    destruct (remove_first_some _ _ _ _ Hrm) as (l1 & l2 & Hs1 & Hs2 & _).
    assert (Hpre : exists r, findById s aid = Some r)
      by (unfold findById; apply (find_weaken _ _ _ _ Hf);
          intros b Hb; now apply andb_prop in Hb as [Hb _]).
    destruct Hpre as [r Hr].
    assert (Hgone : findById s' aid = None)
      by (rewrite Hs2, <- Hid; apply findById_removed; now rewrite <- Hs1).
    eexists. exists s'. split.
    + unfold run_cancel, cancel_appointment, bind, find_one, ret, find_by_id, delete_one.
      rewrite (is_object_id_nonempty aid Hobj), Hobj. cbv beta iota zeta delta [negb].
      rewrite Hf. cbv beta iota. rewrite (not_cancelled_eqb a Hs).
      unfold canBeCancelled. rewrite Hst.
      replace (now <? st - HOUR) with true by (symmetry; apply Z.ltb_lt; lia).
      cbv beta iota. rewrite Hr. cbv beta iota. rewrite Hrm.
      cbv beta iota zeta delta [Nat.eqb]. rewrite Hgone. reflexivity.
    + exists l1, l2. auto.
Qed.

(** Two digits read as a number. *)
Lemma digits_val_2 c1 c2 v :
  digits_val [c1; c2] 0 = Some v ->
  exists a b, 0 <= a <= 9 /\ 0 <= b <= 9 /\ c1 = digit_char a /\ c2 = digit_char b
              /\ v = a * 10 + b.
Proof.
  cbn. destruct (digit c1) as [a|] eqn:E1; [|discriminate].
  destruct (digit c2) as [b|] eqn:E2; [|discriminate]. intro H. injection H as <-.
  apply digit_inv in E1 as [B1 ->]. apply digit_inv in E2 as [B2 ->].
  exists a, b. repeat split; lia.
Qed.

(** Four digits read as a number. *)
Lemma digits_val_4 c1 c2 c3 c4 v :
  digits_val [c1; c2; c3; c4] 0 = Some v ->
  exists a b c d, 0 <= a <= 9 /\ 0 <= b <= 9 /\ 0 <= c <= 9 /\ 0 <= d <= 9
    /\ c1 = digit_char a /\ c2 = digit_char b /\ c3 = digit_char c /\ c4 = digit_char d
    /\ v = ((a * 10 + b) * 10 + c) * 10 + d.
Proof.
  cbn. destruct (digit c1) as [a|] eqn:E1; [|discriminate].
  destruct (digit c2) as [b|] eqn:E2; [|discriminate].
  destruct (digit c3) as [c|] eqn:E3; [|discriminate].
  destruct (digit c4) as [d|] eqn:E4; [|discriminate]. intro H. injection H as <-.
  apply digit_inv in E1 as [B1 ->]. apply digit_inv in E2 as [B2 ->].
  apply digit_inv in E3 as [B3 ->]. apply digit_inv in E4 as [B4 ->].
  exists a, b, c, d. repeat split; lia.
Qed.

(** X13: The date check (regex [^\d{4}-\d{2}-\d{2}$] then split on '-') accepts exactly the strings YYYY-MM-DD of ten characters, with any month 00..99 and day 00..99, and returns their numbers. *)
Theorem parse_ymd_exact (s : string) (y m d : Z) :
  parse_ymd s = Some (y, m, d)
  <-> 0 <= y <= 9999 /\ 0 <= m <= 99 /\ 0 <= d <= 99
      /\ s = four_digits y ++ "-" ++ two_digits m ++ "-" ++ two_digits d.
Proof.
  split.
  - rewrite <- (string_of_list_ascii_of_string s).
    unfold parse_ymd. rewrite list_ascii_of_string_of_list_ascii.
    destruct (list_ascii_of_string s)
      as [|y1 [|y2 [|y3 [|y4 [|e1 [|m1 [|m2 [|e2 [|a1 [|a2 [|c l]]]]]]]]]]];
      try discriminate.
    destruct (Ascii.eqb e1 "-"%char && Ascii.eqb e2 "-"%char) eqn:Ed; [|discriminate].
    apply andb_prop in Ed as [Ed1 Ed2].
    apply Ascii.eqb_eq in Ed1. apply Ascii.eqb_eq in Ed2. subst e1 e2.
    destruct (digits_val [y1; y2; y3; y4] 0) as [yv|] eqn:Ey; [|discriminate].
    destruct (digits_val [m1; m2] 0) as [mv|] eqn:Em; [|discriminate].
    destruct (digits_val [a1; a2] 0) as [dv|] eqn:Ea; [|discriminate].
    intro H. injection H as <- <- <-.
    apply digits_val_4 in Ey as (a & b & c & dd & Ba & Bb & Bc & Bd & -> & -> & -> & -> & ->).
    apply digits_val_2 in Em as (p & q & Bp & Bq & -> & -> & ->).
    apply digits_val_2 in Ea as (x & z & Bx & Bz & -> & -> & ->).
    split; [lia|]. split; [lia|]. split; [lia|].
    rewrite four_digits_of, !two_digits_of by lia. reflexivity.
  - intros (Hy & Hm & Hd & ->).
    destruct (four_digits_split y Hy) as (a & b & c & dd & Ba & Bb & Bc & Bd & ->).
    destruct (two_digits_split m Hm) as (Bm1 & Bm2 & Em).
    destruct (two_digits_split d Hd) as (Bd1 & Bd2 & Ed).
    rewrite four_digits_of by lia. unfold two_digits.
    unfold parse_ymd. cbn [append list_ascii_of_string].
    cbv [digits_val].
    rewrite !digit_char_ok by lia.
    cbn. rewrite <- Em, <- Ed. reflexivity.
Qed.

(** Insertion into a sorted list adds exactly the inserted row. *)
Lemma ins_by_in b a l x : In x (ins_by b a l) <-> x = a \/ In x l.
Proof.
  induction l as [|r l IH]; cbn.
  - split; intros [H|H]; auto.
  - destruct (b r a); cbn; rewrite ?IH; split; intros H; intuition congruence.
Qed.

(** Sorting keeps the rows. *)
Lemma sort_by_in b l x : In x (sort_by b l) <-> In x l.
Proof.
  induction l as [|r l IH]; cbn; [tauto|]. rewrite ins_by_in, IH.
  split; intros H; intuition congruence.
Qed.

(** Insertion adds one row. *)
Lemma ins_by_length b a l : List.length (ins_by b a l) = S (List.length l).
Proof. induction l as [|r l IH]; cbn; [reflexivity|]. destruct (b r a); cbn; auto. Qed.

(** Sorting keeps the number of rows. *)
Lemma sort_by_length b l : List.length (sort_by b l) = List.length l.
Proof. induction l as [|r l IH]; cbn; [reflexivity|]. now rewrite ins_by_length, IH. Qed.

(** A page holds only rows of the collection that match the query. *)
Lemma find_page_in q b sk lim s x :
  In x (find_page q b sk lim s) -> In x s /\ q x = true.
Proof.
  unfold find_page. intro H.
  assert (H1 : In x (skipn (Z.to_nat sk) (sort_by b (filter q s)))).
  { rewrite <- (firstn_skipn (Z.to_nat lim) (skipn _ _)). apply in_or_app. now left. }
  assert (H2 : In x (sort_by b (filter q s))).
  { rewrite <- (firstn_skipn (Z.to_nat sk) (sort_by b (filter q s))).
    apply in_or_app. now right. }
  apply sort_by_in, filter_In in H2. exact H2.
Qed.

(** A page holds at most [limit] rows. *)
Lemma find_page_length q b sk lim s :
  (List.length (find_page q b sk lim s) <= Z.to_nat lim)%nat.
Proof. unfold find_page. apply firstn_le_length. Qed.

(** X14: GET /my-appointments (appointments.ts) writes nothing; an unknown status gives 400 INVALID_STATUS; otherwise, for a page number of at most 2^46 (so that JavaScript computes the skip exactly and MongoDB accepts it), it answers 200 with at most limit (1..100) of the caller's own rows matching the status, and a total that counts all of them. *)
Theorem my_appointments_only_callers_rows (u : AuthUser) (st limit page : option QVal)
    (s : Store) (r : Response) (s' : Store)
    (Hpage : int_param page "1" 1 <= 2 ^ 46)
    (H : run_my_appointments u st limit page s = (r, s')) :
  s' = s
  /\ (my_status_filter st = Some (inl tt) ->
      r = err400 "Invalid status. Must be: pending, confirmed, or cancelled" "INVALID_STATUS")
  /\ (my_status_filter st <> Some (inl tt) ->
      exists rows pageNum limitNum,
        res_code r = 200
        /\ jget "appointments" (res_body r) = Some (JArr (map my_view rows))
        /\ 1 <= pageNum /\ 1 <= limitNum <= 100
        /\ (List.length rows <= Z.to_nat limitNum)%nat
        /\ (forall a, In a rows ->
              In a s /\ userId a = auth_userId u
              /\ forall x, my_status_filter st = Some (inr x) -> status_str (status a) = x)
        /\ jget "pagination" (res_body r)
           = Some (pagination_json pageNum limitNum
                     (Z.of_nat (List.length
                        (filter (fun a => String.eqb (userId a) (auth_userId u)
                           && status_matches
                                (match my_status_filter st with
                                 | Some (inr x) => Some x | _ => None end) a) s))))).
Proof.
  assert (Hsk : forall L, 1 <= L <= 100 ->
            mongo_skip_ok ((Z.max 1 (int_param page "1" 1) - 1) * L) = true).
  { intros L HL. unfold mongo_skip_ok. apply Z.ltb_lt.
    change (2 ^ 46) with 70368744177664 in Hpage. change (2 ^ 63) with 9223372036854775808.
    nia. }
  unfold run_my_appointments, my_appointments in H. cbv zeta in H.
  destruct (my_status_filter st) as [[[]|x]|] eqn:Ef.
  - injection H as <- <-. split; [reflexivity|]. split; [reflexivity|].
    intro Hn. exfalso. exact (Hn eq_refl).
  - rewrite Hsk in H by lia. cbn [negb] in H.
    unfold bind, get_store, ret in H. injection H as <- <-.
    split; [reflexivity|]. split; [intro Hc; discriminate Hc|]. intros _.
    exists (find_page (fun a => String.eqb (userId a) (auth_userId u)
                                && status_matches (Some x) a) newer_first
              ((Z.max 1 (int_param page "1" 1) - 1)
               * Z.min 100 (Z.max 1 (int_param limit "50" 50)))
              (Z.min 100 (Z.max 1 (int_param limit "50" 50))) s),
           (Z.max 1 (int_param page "1" 1)), (Z.min 100 (Z.max 1 (int_param limit "50" 50))).
    split; [reflexivity|]. split; [reflexivity|].
    split; [lia|]. split; [lia|]. split; [apply find_page_length|].
    split; [|reflexivity].
    intros a Ha. apply find_page_in in Ha as [Hin Hq].
    apply andb_prop in Hq as [Hu Hs]. apply String.eqb_eq in Hu.
    split; [exact Hin|]. split; [exact Hu|].
    intros y Hy. injection Hy as <-. cbn in Hs. now apply String.eqb_eq in Hs.
  - rewrite Hsk in H by lia. cbn [negb] in H.
    unfold bind, get_store, ret in H. injection H as <- <-.
    split; [reflexivity|]. split; [intro Hc; discriminate Hc|]. intros _.
    exists (find_page (fun a => String.eqb (userId a) (auth_userId u)
                                && status_matches None a) newer_first
              ((Z.max 1 (int_param page "1" 1) - 1)
               * Z.min 100 (Z.max 1 (int_param limit "50" 50)))
              (Z.min 100 (Z.max 1 (int_param limit "50" 50))) s),
           (Z.max 1 (int_param page "1" 1)), (Z.min 100 (Z.max 1 (int_param limit "50" 50))).
    split; [reflexivity|]. split; [reflexivity|].
    split; [lia|]. split; [lia|]. split; [apply find_page_length|].
    split; [|reflexivity].
    intros a Ha. apply find_page_in in Ha as [Hin Hq].
    apply andb_prop in Hq as [Hu _]. apply String.eqb_eq in Hu.
    split; [exact Hin|]. split; [exact Hu|]. intros y Hy. discriminate Hy.
Qed.

(** X15: GET /admin/all (appointments.ts) ignores a status that is not pending, confirmed or cancelled, and a date that is not of the form YYYY-MM-DD: the response and the collection are those of the request without that filter. *)
Theorem admin_all_ignores_bad_filters (dateQ st limit page : option QVal) (s : Store) :
  (forall x, existsb (String.eqb x) ["pending"; "confirmed"; "cancelled"] = false ->
     run_admin_all dateQ (Some (QStr x)) limit page s = run_admin_all dateQ None limit page s)
  /\ (forall d, parse_ymd d = None ->
     run_admin_all (Some (QStr d)) st limit page s = run_admin_all None st limit page s).
Proof.
  split.
  - intros x Hx. unfold run_admin_all, admin_all. rewrite Hx. reflexivity.
  - intros d Hd. unfold run_admin_all, admin_all. rewrite Hd.
    destruct (String.eqb d ""); reflexivity.
Qed.

(** X16: GET /admin/all without filters, on a collection of at most 100 appointments, lists every appointment of every user: as many rows as the collection holds, each one of its rows, with total equal to the collection size, and writes nothing. *)
Theorem admin_all_lists_every_user (s : Store) (Hn : (List.length s <= 100)%nat) :
  exists rows,
    run_admin_all None None None None s
    = (Res 200 (JObj [("appointments", JArr (map admin_view rows));
                      ("pagination", pagination_json 1 100 (Z.of_nat (List.length s)))]), s)
    /\ List.length rows = List.length s
    /\ (forall a, In a rows <-> In a s).
Proof.
  exists (sort_by older_first s).
  split; [|split; [apply sort_by_length | intro a; apply sort_by_in]].
  unfold run_admin_all, admin_all, bind, get_store, ret. cbv zeta.
  replace (Z.max 1 (int_param None "1" 1)) with 1 by reflexivity.
  replace (Z.min 100 (Z.max 1 (int_param None "100" 100))) with 100 by reflexivity.
  replace (mongo_skip_ok ((1 - 1) * 100)) with true by reflexivity. cbn [negb].
  assert (Hf : forall (p : Appointment -> bool) (l : Store),
             (forall a, p a = true) -> filter p l = l).
  { intros p l Hp. induction l as [|a l IH]; cbn; [reflexivity|]. now rewrite Hp, IH. }
  unfold find_page. rewrite Hf by reflexivity. cbn [Z.sub Z.mul Z.to_nat skipn].
  replace (Z.to_nat ((1 - 1) * 100)) with 0%nat by reflexivity. cbn [skipn].
  rewrite firstn_all2; [reflexivity|]. rewrite sort_by_length. cbn. lia.
Qed.

(** The reservation create-order inserts is dated at local midnight of the requested date. *)
Lemma create_prepare_date u req env s a s1 :
  create_prepare u req env s = (Ok (inr a), s1) ->
  exists y m d, parse_ymd (or_else (cr_date req) "") = Some (y, m, d)
    /\ date a = local_date_ms (tzOffset env) y m d.
Proof.
  unfold create_prepare, bind, ret, get_store, find_one, insert, err400.
  cbv beta zeta.
  repeat match goal with
  | |- context [if ?c then _ else _] => destruct c eqn:?
  | |- context [match ?x with _ => _ end] =>
      match x with
      | (_, _) => fail 1
      | _ => destruct x eqn:?
      end
  end; intro H; try discriminate H;
  injection H as <- _; eexists _, _, _; split; reflexivity.
Qed.

(** Local midnight is never a UTC midnight when the offset is not a whole number of days. *)
Lemma local_date_not_utc_midnight off y m d k :
  0 < Z.abs off < DAY -> local_date_ms off y m d <> k * DAY.
Proof. unfold local_date_ms, DAY. intros Hoff E. lia. Qed.

(** [new Date("YYYY-MM-DD")] is a UTC midnight. *)
Lemma iso_date_ms_midnight y m d ms :
  iso_date_ms y m d = Some ms -> exists k, ms = k * DAY.
Proof.
  unfold iso_date_ms. destruct (_ && _); [|discriminate]. intro H. injection H as <-.
  eexists. reflexivity.
Qed.

(** X17: On a server whose UTC offset is non-zero (and under a day), the reservation create-order stores is dated at local midnight, so the date queries of /book and GET /available for the same date string (UTC midnight) never match it. *)
Theorem create_order_row_missed_off_utc (u : AuthUser) (req : CreateReq)
    (env : CreateEnv) (s : Store) (r : Response) (s' : Store)
    (ob : option OrderRequest)
    (Hoff : 0 < Z.abs (tzOffset env) < DAY)
    (Hfresh : findById s (new_id env) = None)
    (H : run_create u req env s = (r, s', ob)) :
  s' = s
  \/ exists a, s' = (s ++ [a])%list /\ appt_id a = new_id env
       /\ forall y m d ms, parse_ymd (or_else (cr_date req) "") = Some (y, m, d) ->
          iso_date_ms y m d = Some ms ->
          booked_query ms a = false
          /\ (forall t, book_slot_query ms t a = false)
          /\ (forall uid, book_user_query uid ms a = false).
Proof.
  unfold run_create in H.
  destruct (create_prepare u req env s) as [res s1] eqn:Hp.
  destruct (create_prepare_effect _ _ _ _ _ _ Hp)
    as [[-> Hn] | (a & -> & -> & Hid & _)].
  - left. destruct res as [[r0|ap]|e].
    + now injection H as _ <- _.
    + exfalso. exact (Hn ap eq_refl).
    + now injection H as _ <- _.
  - right.
    destruct (create_prepare_date _ _ _ _ _ _ Hp) as (y0 & m0 & d0 & Hy & Hd).
    assert (Hq : forall b, date b = date a -> forall y m d ms,
               parse_ymd (or_else (cr_date req) "") = Some (y, m, d) ->
               iso_date_ms y m d = Some ms ->
               booked_query ms b = false
               /\ (forall t, book_slot_query ms t b = false)
               /\ (forall uid, book_user_query uid ms b = false)).
    { intros b Hb y m d ms Hy' Hms.
      rewrite Hy in Hy'. injection Hy' as <- <- <-.
      destruct (iso_date_ms_midnight _ _ _ _ Hms) as [k ->].
      assert (Hne : (date b =? k * DAY) = false).
      { apply Z.eqb_neq. rewrite Hb, Hd. apply local_date_not_utc_midnight. exact Hoff. }
      unfold book_slot_query, book_user_query, booked_query. rewrite Hne.
      split; [reflexivity|]. split; intros; [reflexivity|].
      apply andb_false_r. }
    cbv zeta in H.
    rewrite <- Hid in Hfresh.
    match type of H with
    | context [create_finish env a ?b (s ++ [a])%list] =>
        destruct (create_finish env a b (s ++ [a])%list) as [res2 s2] eqn:Hf2;
        pose proof (create_finish_effect env a b s res2 s2 Hfresh Hf2) as He
    end.
    assert (Hs' : s' = s2) by (destruct res2; now injection H as _ <- _).
    subst s'. destruct (createOrder env) as [o|e].
    + destruct He as [-> _]. eexists. split; [reflexivity|].
      split; [exact Hid|]. apply Hq. reflexivity.
    + destruct He as [_ ->]. eexists. split; [reflexivity|].
      split; [exact Hid|]. apply Hq. reflexivity.
Qed.

(** ** The theorems at sample inputs *)

Lemma capture_order_idempotent_reentry_witness :
  (exists r, findById [paid1] id1 = Some r /\
     run_capture user1 req1 env_ok [paid1] =
       (Res 200 (success_json "Payment already completed" r), [paid1]))
  /\
  (let (r1, s1) := run_capture user1 req1 env_ok [hold1] in
   let (r2, s2) := run_capture user1 req1 env_ok s1 in
   s2 = s1 /\ res_code r1 = 200 /\ res_code r2 = 200
   /\ jget "appointment" (res_body r2) = jget "appointment" (res_body r1)
   /\ exists a1, findById s1 id1 = Some a1
                 /\ status a1 = St_confirmed /\ paymentStatus a1 = Pay_completed
                 /\ jget "appointment" (res_body r1) = Some (appointment_view a1)).
Proof.
  split.
  - apply (proj1 capture_order_idempotent_reentry user1 req1 env_ok [paid1] "ORD1" id1 paid1);
      sample_premise.
  - apply (proj2 capture_order_idempotent_reentry user1 req1 env_ok env_ok [hold1] "ORD1" id1
             hold1 ok_order1); sample_premise.
Defined.

Lemma capture_already_captured_is_success_witness :
  (let env_first := mkCaptureEnv (paypal_configured env_ac) (Returns ok_order1) (getOrder env_ac)
                      (meetEvent env_ac) (capture_now env_ac) (between env_ac) in
   exists a1 s1,
     run_capture user1 req1 env_ac [hold1] =
       (Res 200 (success_json "Payment was already completed" a1), s1)
     /\ run_capture user1 req1 env_first [hold1] =
       (Res 200 (success_json "Payment completed successfully" a1), s1)
     /\ status a1 = St_confirmed /\ paymentStatus a1 = Pay_completed)
  /\
  run_capture user1 req1 env_race [hold1] =
    (Res 200 (success_json "Payment already completed" paid1), between env_race [hold1]).
Proof.
  split.
  - apply (proj1 capture_already_captured_is_success user1 req1 env_ac [hold1] "ORD1" id1 hold1
             already_captured_error ok_order1); sample_premise.
  - apply (proj2 capture_already_captured_is_success user1 req1 env_race [hold1] "ORD1" id1 hold1
             already_captured_error paid1); sample_premise.
Defined.

Lemma capture_not_completed_paths_witness :
  (exists s',
     run_capture user1 req1 env_declined [hold1]
       = (Res 400 (not_completed_json (o_status (paypal_order "ORD1" "DECLINED"))), s')
     /\ exists a', findById s' id1 = Some a'
                   /\ status a' = St_pending /\ paymentStatus a' = Pay_failed)
  /\
  run_capture user1 req1 env_approved [hold1]
    = (Res 400 (order_not_completed_json (o_status (paypal_order "ORD1" "APPROVED"))), [hold1]).
Proof.
  split.
  - apply (proj1 capture_not_completed_paths user1 req1 env_declined [hold1] "ORD1" id1 hold1
             (paypal_order "ORD1" "DECLINED")); sample_premise.
  - apply (proj2 capture_not_completed_paths user1 req1 env_approved [hold1] "ORD1" id1 hold1
             already_captured_error (paypal_order "ORD1" "APPROVED")); sample_premise.
Defined.

Lemma cancel_cutoff_hours_left_witness :
  run_cancel user1 id1 (day0 + 9 * HOUR) 0 [paid930] =
    (Res 400 (JObj [("error", JStr "Cannot cancel appointment. Less than 1 hour remaining (NaN hours left)");
                    ("code", JStr "CANCELLATION_TOO_LATE");
                    ("hoursUntilAppointment", JNull)]), [paid930])
  /\
  (exists body s',
     run_cancel user1 id1 now0 0 [paid1] = (Res 200 body, s')
     /\ exists l1 l2, [paid1] = (l1 ++ paid1 :: l2)%list /\ s' = (l1 ++ l2)%list
     /\ findById s' id1 = None).
Proof.
  split.
  - pose proof (proj1 (cancel_cutoff_hours_left user1 id1 (day0 + 9 * HOUR) 0 [paid930] paid930
                         (day0 + 9 * HOUR + 30 * MINUTE) ltac:(sample_premise)
                         ltac:(sample_premise) ltac:(sample_premise) ltac:(sample_premise))
                  ltac:(sample_premise)) as [E [_ N]].
    rewrite E, (N eq_refl). reflexivity.
  - refine (proj2 (cancel_cutoff_hours_left user1 id1 now0 0 [paid1] paid1 (day0 + 10 * HOUR)
                     _ _ _ _) _ _); sample_premise.
Defined.

Lemma past_date_rejected_witness :
  get_available (Some "2026-10-15") now0 0 [hold1]
    = err400 "Cannot check availability for past dates" "PAST_DATE"
  /\
  run_create user1 (booking_req "2026-10-15" user1 "10:00" 30 None None) (create_env id1 "ORD1")
    [hold1] = (err400 "Cannot book appointments for past dates" "PAST_DATE", [hold1], None).
Proof.
  split.
  - refine (proj1 (past_date_rejected "2026-10-15" 2026 10 15 now0 0 _ _ _ _ _) [hold1]);
      sample_premise.
  - refine (proj2 (past_date_rejected "2026-10-15" 2026 10 15 now0 0 _ _ _ _ _) user1
              (booking_req "2026-10-15" user1 "10:00" 30 None None) (create_env id1 "ORD1")
              [hold1] "10:00" 10 0 _ _ _ _ _ _ _ _ _ _); sample_premise.
Defined.

Lemma capture_meet_failure_still_confirms_witness :
  (exists msg a1 s1,
     run_capture user1 req1 env_ok [hold1] = (Res 200 (success_json msg a1), s1)
     /\ findById s1 id1 = Some a1
     /\ status a1 = St_confirmed /\ paymentStatus a1 = Pay_completed
     /\ jget "googleMeetLink" (appointment_view a1) = Some JNull)
  /\
  (exists msg a1 s1,
     run_capture user1 req1 env_ac [hold1] = (Res 200 (success_json msg a1), s1)
     /\ findById s1 id1 = Some a1
     /\ status a1 = St_confirmed /\ paymentStatus a1 = Pay_completed
     /\ jget "googleMeetLink" (appointment_view a1) = Some JNull).
Proof.
  split.
  - refine (capture_meet_failure_still_confirms user1 req1 env_ok [hold1] "ORD1" id1 hold1
              _ _ _ _ _ _ _ _ _ _ _ ok_order1 _ _); sample_premise.
  - refine (capture_meet_failure_still_confirms user1 req1 env_ac [hold1] "ORD1" id1 hold1
              _ _ _ _ _ _ _ _ _ _ _ ok_order1 _ _); try sample_premise.
    all: right; exists already_captured_error; split; [reflexivity|split; reflexivity].
Defined.

Lemma create_order_amount_fixed_witness :
  ((forall body, snd create_999 = Some body ->
      Forall (fun m => m = mkMoney "USD" "150.00") (order_amounts body))
   /\ (res_code (fst (fst create_999)) = 201 ->
       jget "amount" (res_body (fst (fst create_999))) = Some (JStr "150.00")
       /\ jget "currency" (res_body (fst (fst create_999))) = Some (JStr "USD")))
  /\
  (exists pi, paymentInfo (confirmed_doc env_ok "ORD1" req1 ok_order1
                             (hd hold1 (snd (fst create_999)))) = Some pi
              /\ amount pi = "150.00" /\ currency pi = "USD").
Proof.
  split.
  - refine (proj1 create_order_amount_fixed user1
              (booking_req "2026-10-20" user1 "10:00" 30 (Some "999.00") None)
              (create_env id1 "ORD1") [] (fst (fst create_999)) (snd (fst create_999))
              (snd create_999) _); sample_premise.
  - exact (proj2 create_order_amount_fixed env_ok "ORD1" req1 ok_order1
             (hd hold1 (snd (fst create_999)))).
Defined.

Lemma cancel_order_removes_first_own_pending_witness :
  (exists l1 x l2, [hold1] = (l1 ++ x :: l2)%list
     /\ pending_of (String.eqb id1) (auth_userId user1) x = true
     /\ find (pending_of (String.eqb id1) (auth_userId user1)) l1 = None
     /\ run_cancel_order cast_sample user1 (Some (JStr id1)) [hold1] =
        (Res 200 (JObj [("success", JBool true);
                        ("message", JStr "Appointment cancelled successfully")]),
         (l1 ++ l2)%list))
  \/ (find (pending_of (String.eqb id1) (auth_userId user1)) [hold1] = None
      /\ run_cancel_order cast_sample user1 (Some (JStr id1)) [hold1] =
         (Res 404 (JObj [("error", JStr "Pending appointment not found");
                         ("code", JStr "APPOINTMENT_NOT_FOUND")]), [hold1])).
Proof.
  apply (cancel_order_removes_first_own_pending cast_sample user1 (JStr id1) (String.eqb id1)
           [hold1]); sample_premise.
Defined.

Lemma payment_status_own_rows_witness :
  let (r, s') := run_payment_status cast_sample user1 id1 [hold1] in
  s' = [hold1]
  /\ (res_code r = 200 ->
      exists a idc, In a [hold1] /\ userId a = auth_userId user1
        /\ cast_sample (JStr id1) = Some idc /\ idc (appt_id a) = true
        /\ jget "status" (res_body r) = Some (JStr (status_str (status a)))
        /\ jget "paymentStatus" (res_body r)
           = Some (JStr (payment_status_str (paymentStatus a))))
  /\ (res_code r = 404 ->
      forall idc, cast_sample (JStr id1) = Some idc ->
      forall a, In a [hold1] -> userId a = auth_userId user1 -> idc (appt_id a) = false).
Proof.
  destruct (run_payment_status cast_sample user1 id1 [hold1]) as [r s'] eqn:E.
  exact (payment_status_own_rows cast_sample user1 id1 [hold1] r s' E).
Defined.

Lemma capture_order_guards_write_nothing_witness :
  run_capture user1 (capture_req "ORD1" "") env_ok [hold1]
    = (err400 "Order ID and Appointment ID are required" "MISSING_FIELDS", [hold1])
  /\ run_capture user1 req1 env_ok []
    = (Res 404 (JObj [("error", JStr "Appointment not found or order ID mismatch");
                      ("code", JStr "APPOINTMENT_NOT_FOUND")]), [])
  /\ run_capture user1 req1 env_unconfigured [hold1]
    = (err500 "Failed to process payment capture" "CAPTURE_ERROR", [hold1]).
Proof.
  split; [|split].
  - apply (proj1 (capture_order_guards_write_nothing user1 (capture_req "ORD1" "") env_ok
                    [hold1])); sample_premise.
  - apply (proj1 (proj2 (capture_order_guards_write_nothing user1 req1 env_ok []))
             "ORD1" id1); sample_premise.
  - apply (proj2 (proj2 (capture_order_guards_write_nothing user1 req1 env_unconfigured
                           [hold1])) "ORD1" id1 hold1); sample_premise.
Defined.

Lemma capture_provider_error_keeps_reservation_witness :
  run_capture user1 req1 env_unavailable [hold1]
    = (general_error (ProviderErr unavailable_error), between env_unavailable [hold1])
  /\ res_code (general_error (ProviderErr unavailable_error)) = 503.
Proof.
  apply (capture_provider_error_keeps_reservation user1 req1 env_unavailable [hold1] "ORD1" id1
           hold1 unavailable_error); sample_premise.
Defined.

Lemma create_order_store_frame_witness :
  snd (fst create_999) = []
  \/ exists a, snd (fst create_999) = ([] ++ [a])%list /\ appt_id a = id1
       /\ userId a = auth_userId user1 /\ status a = St_pending
       /\ paymentStatus a = Pay_pending /\ createdAt a = now0.
Proof.
  apply (create_order_store_frame user1
           (booking_req "2026-10-20" user1 "10:00" 30 (Some "999.00") None)
           (create_env id1 "ORD1") [] (fst (fst create_999)) (snd (fst create_999))
           (snd create_999)); sample_premise.
Defined.

Lemma create_order_paypal_failure_keeps_hold_witness :
  snd (fst create_fail) = []
  \/ (fst (fst create_fail) = Res 500 (JObj [("error", JStr "Failed to create PayPal order");
                                             ("code", JStr "PAYPAL_ORDER_ERROR")])
      /\ exists a, snd (fst create_fail) = ([] ++ [a])%list /\ appt_id a = id1
           /\ userId a = auth_userId user1 /\ status a = St_pending
           /\ paymentStatus a = Pay_pending /\ order_id_of a = None).
Proof.
  apply (create_order_paypal_failure_keeps_hold user1
           (booking_req "2026-10-20" user1 "10:00" 30 None None)
           (mkCreateEnv true now0 0 id1 "https://app.example" (Fails unavailable_error)) []
           (fst (fst create_fail)) (snd (fst create_fail)) (snd create_fail)
           unavailable_error); sample_premise.
Defined.

Lemma create_order_then_capture_finds_hold_witness :
  exists oid a,
    jget "orderId" (res_body (fst (fst create_999))) = Some (JStr oid)
    /\ jget "appointmentId" (res_body (fst (fst create_999))) = Some (JStr (appt_id a))
    /\ find (capture_lookup (auth_userId user1) (appt_id a) oid) (snd (fst create_999)) = Some a
    /\ status a = St_pending /\ paymentStatus a = Pay_pending.
Proof.
  apply (create_order_then_capture_finds_hold user1
           (booking_req "2026-10-20" user1 "10:00" 30 (Some "999.00") None)
           (create_env id1 "ORD1") [] (fst (fst create_999)) (snd (fst create_999))
           (snd create_999)); sample_premise.
Defined.

Lemma book_201_confirms_free_slot_witness :
  exists a y m d, snd book_1100 = ([hold1] ++ [a])%list
    /\ parse_ymd "2026-10-20" = Some (y, m, d)
    /\ iso_date_ms y m d = Some (date a)
    /\ time a = "11:00"
    /\ appt_id a = id2 /\ userId a = auth_userId user2
    /\ status a = St_confirmed
    /\ paymentStatus a = Pay_pending
    /\ paymentInfo a = None
    /\ find (book_slot_query (date a) (time a)) [hold1] = None
    /\ find (book_user_query (auth_userId user2) (date a)) [hold1] = None.
Proof.
  apply (book_201_confirms_free_slot user2 (booking_req "2026-10-20" user2 "11:00" 30 None None)
           book_env1 [hold1] (res_body (fst book_1100)) (snd book_1100)); sample_premise.
Defined.

Lemma my_appointments_only_callers_rows_witness :
  snd my_pending = [hold1]
  /\ (my_status_filter (Some (QStr "pending")) = Some (inl tt) ->
      fst my_pending
      = err400 "Invalid status. Must be: pending, confirmed, or cancelled" "INVALID_STATUS")
  /\ (my_status_filter (Some (QStr "pending")) <> Some (inl tt) ->
      exists rows pageNum limitNum,
        res_code (fst my_pending) = 200
        /\ jget "appointments" (res_body (fst my_pending)) = Some (JArr (map my_view rows))
        /\ 1 <= pageNum /\ 1 <= limitNum <= 100
        /\ (List.length rows <= Z.to_nat limitNum)%nat
        /\ (forall a, In a rows ->
              In a [hold1] /\ userId a = auth_userId user1
              /\ forall x, my_status_filter (Some (QStr "pending")) = Some (inr x) ->
                           status_str (status a) = x)
        /\ jget "pagination" (res_body (fst my_pending))
           = Some (pagination_json pageNum limitNum
                     (Z.of_nat (List.length
                        (filter (fun a => String.eqb (userId a) (auth_userId user1)
                           && status_matches
                                (match my_status_filter (Some (QStr "pending")) with
                                 | Some (inr x) => Some x | _ => None end) a) [hold1]))))).
Proof.
  apply (my_appointments_only_callers_rows user1 (Some (QStr "pending")) (Some (QStr "10"))
           None [hold1] (fst my_pending) (snd my_pending)); sample_premise.
Defined.

Lemma admin_all_ignores_bad_filters_witness :
  run_admin_all None (Some (QStr "done")) None None [hold1]
    = run_admin_all None None None None [hold1]
  /\ run_admin_all (Some (QStr "20-10-2026")) None None None [hold1]
    = run_admin_all None None None None [hold1].
Proof.
  split.
  - apply (proj1 (admin_all_ignores_bad_filters None None None None [hold1])); sample_premise.
  - apply (proj2 (admin_all_ignores_bad_filters None None None None [hold1])); sample_premise.
Defined.

Lemma admin_all_lists_every_user_witness :
  exists rows,
    run_admin_all None None None None [hold1; pending_hold id2 "u2" "11:00" now0 "ORD2"]
    = (Res 200 (JObj [("appointments", JArr (map admin_view rows));
                      ("pagination", pagination_json 1 100 2)]),
       [hold1; pending_hold id2 "u2" "11:00" now0 "ORD2"])
    /\ List.length rows = 2%nat
    /\ (forall a, In a rows <-> In a [hold1; pending_hold id2 "u2" "11:00" now0 "ORD2"]).
Proof.
  apply (admin_all_lists_every_user [hold1; pending_hold id2 "u2" "11:00" now0 "ORD2"]).
  cbn. lia.
Defined.

Lemma create_order_row_missed_off_utc_witness :
  snd (fst create_ist) = []
  \/ exists a, snd (fst create_ist) = ([] ++ [a])%list /\ appt_id a = id1
       /\ forall y m d ms, parse_ymd "2026-10-20" = Some (y, m, d) ->
          iso_date_ms y m d = Some ms ->
          booked_query ms a = false
          /\ (forall t, book_slot_query ms t a = false)
          /\ (forall uid, book_user_query uid ms a = false).
Proof.
  apply (create_order_row_missed_off_utc user1
           (booking_req "2026-10-20" user1 "10:00" 30 None None) (create_env_ist id1 "ORD1") []
           (fst (fst create_ist)) (snd (fst create_ist)) (snd create_ist));
    [unfold DAY, HOUR, MINUTE; cbn; lia | sample_premise ..].
Defined.

End Auxin.
